(** * Graph RAG pipeline: a shallow embedding of the Python sources

    The development follows the layout of [src/graph_rag]:

    - [Py]               the fragment of Python's built-ins the code relies on
                         (negative-index slicing, [str.find]/[str.rfind],
                         [strip], [split], [upper]/[lower], exceptions);
    - [Float], [Json]    floating-point arithmetic, and values of any type;
    - [Chunker]          [extractors/entity_extractor.py], [DocumentChunker];
    - [Ollama]           [handlers/ollama_handler.py], [extract_entities];
    - [Pinecone]         [handlers/pinecone_handler.py], [LlamaEmbedding];
    - [GraphBuilder]     [graph_builder.py], [KnowledgeGraphBuilder];
    - [Retriever]        [retrievers/hybrid_retriever.py], [HybridRetriever];
    - [VectorWrite]      [PineconeHandler.upsert_document_chunks];
    - [Extractor]        [EntityExtractor];
    - [GraphRAG]         [graph_rag.py] and [OllamaHandler.synthesize_answer].

    Conventions.  Python [int] is [Z]; [str] is [string] (a sequence of
    8-bit characters, so case and whitespace tests are the ASCII ones); a
    [float] is the rational it denotes, and arithmetic on floats rounds as
    IEEE 754 binary64 does ([Float]); a value of any type, such as what
    [json.loads] returns or what a store holds, is a [json], and a method
    call on it raises where Python's does ([Json]); a [dict] with a
    documented shape is a record whose optional keys are [option] fields;
    a [dict] used as a map is a [gmap]; a [set] is a [gset].  External
    collaborators (graph store, vector store, HTTP, LLM, [json.loads]) are
    interface records that thread an abstract world state and may
    raise. *)

From Stdlib Require Import ZArith QArith Qround Qabs Qpower.
From Stdlib Require Import List String Ascii Bool Lia Lqa.
From Stdlib Require Import Permutation Sorted.
From stdpp Require Import gmap strings list pretty.

Local Open Scope string_scope.
Local Open Scope Z_scope.

(* ===================================================================== *)
(** * Python built-ins                                                    *)
(* ===================================================================== *)

Module Py.

(** ** Exceptions *)

(** The result of evaluating a Python expression: a value, or a raised
    exception (carrying the exception's class name). *)
Inductive outcome (A : Type) : Type :=
| Returned (a : A)
| Raised (exn : string).
Arguments Returned {A} a.
Arguments Raised {A} exn.

(** ** Effects *)

(** A computation that talks to the outside world [W] (a database, an
    HTTP service, a model server): it receives the world, returns or
    raises, and leaves the world changed either way. *)
Definition M (W A : Type) : Type := W -> outcome A * W.

Definition ret {W A : Type} (a : A) : M W A := fun w => (Returned a, w).

Definition raise {W A : Type} (exn : string) : M W A :=
  fun w => (Raised exn, w).

Definition bind {W A B : Type} (m : M W A) (k : A -> M W B) : M W B :=
  fun w =>
    match m w with
    | (Returned a, w') => k a w'
    | (Raised exn, w') => (Raised exn, w')
    end.

(** [try: m  except Exception as e: h e] *)
Definition try_except {W A : Type} (m : M W A) (h : string -> M W A)
    : M W A :=
  fun w =>
    match m w with
    | (Returned a, w') => (Returned a, w')
    | (Raised exn, w') => h exn w'
    end.

(** A pure library call that may raise. *)
Definition lift {W A : Type} (o : outcome A) : M W A := fun w => (o, w).

Declare Scope py_scope.
Delimit Scope py_scope with py.
Notation "'let*' x ':=' m 'in' k" := (bind m (fun x => k))
  (at level 10, x name, m at level 100, k at level 200) : py_scope.

(** [for x in xs: acc = body(acc, x)], a loop without [break]. *)
Fixpoint for_each {W A X : Type} (body : A -> X -> M W A) (acc : A)
    (xs : list X) : M W A :=
  match xs with
  | nil => ret acc
  | cons x rest => bind (body acc x) (fun acc' => for_each body acc' rest)
  end.

(** ** Sorting *)

(** [l.sort(key=key, reverse=True)].  Python's sort is stable, also with
    [reverse=True]: elements with equal keys keep their order.  On keys
    that are totally ordered the result of a stable sort is determined by
    the input, so it is computed here by insertion: [x], which stood in
    front of all of [l], goes in front of the first element whose key is
    not larger than its own. *)
Fixpoint insert_desc {A : Type} (key : A -> Q) (x : A) (l : list A)
    : list A :=
  match l with
  | nil => cons x nil
  | cons y l' =>
      if Qle_bool (key y) (key x) then cons x l
      else cons y (insert_desc key x l')
  end.

Definition sort_desc {A : Type} (key : A -> Q) (l : list A) : list A :=
  fold_right (insert_desc key) nil l.

(** Descending by key, every element against all later ones. *)
Definition sorted_desc {A : Type} (key : A -> Q) (l : list A) : Prop :=
  StronglySorted (fun a b => (key b <= key a)%Q) l.

(** ** Index normalisation *)

(** [PySlice_AdjustIndices] for a step of one: a negative index counts
    from the end, and everything is clamped to [0 .. len]. *)
Definition adjust (len i : Z) : Z :=
  if i <? 0 then Z.max 0 (i + len) else Z.min i len.

Definition len (s : string) : Z := Z.of_nat (String.length s).

(** [s[lo:hi]] on strings. *)
Definition slice (s : string) (lo hi : Z) : string :=
  let lo' := adjust (len s) lo in
  let hi' := adjust (len s) hi in
  if lo' <? hi' then substring (Z.to_nat lo') (Z.to_nat (hi' - lo')) s
  else "".

(** [l[:k]] on lists. *)
Definition take {A : Type} (k : Z) (l : list A) : list A :=
  firstn (Z.to_nat (adjust (Z.of_nat (List.length l)) k)) l.

(** ** Searching for a character *)

(** Scan left to right, [i] is the index of the head of [s]; keep the
    last position inside [lo, hi) that holds [c]. *)
Fixpoint rfind_scan (c : ascii) (s : string) (i lo hi last : Z) : Z :=
  match s with
  | EmptyString => last
  | String a s' =>
      rfind_scan c s' (i + 1) lo hi
        (if (lo <=? i) && (i <? hi) && Ascii.eqb a c then i else last)
  end.

(** [s.rfind(c, start, end)]: the highest index in the (adjusted) window
    holding [c], or [-1]. *)
Definition rfind_in (c : ascii) (s : string) (start stop : Z) : Z :=
  rfind_scan c s 0 (adjust (len s) start) (adjust (len s) stop) (-1).

(** [s.rfind(c)]. *)
Definition rfind (c : ascii) (s : string) : Z := rfind_in c s 0 (len s).

(** [s.find(c)]: the lowest index holding [c], or [-1]. *)
Fixpoint find_scan (c : ascii) (s : string) (i : Z) : Z :=
  match s with
  | EmptyString => -1
  | String a s' => if Ascii.eqb a c then i else find_scan c s' (i + 1)
  end.

Definition find (c : ascii) (s : string) : Z := find_scan c s 0.

(** What [find] and [rfind] are meant to compute, stated on positions. *)
Definition first_index (c : ascii) (s : string) (i : nat) : Prop :=
  String.get i s = Some c /\
  forall k : nat, (k < i)%nat -> String.get k s <> Some c.

Definition last_index (c : ascii) (s : string) (j : nat) : Prop :=
  String.get j s = Some c /\
  forall k : nat, (j < k)%nat -> String.get k s <> Some c.

Definition absent (c : ascii) (s : string) : Prop :=
  forall k : nat, String.get k s <> Some c.

(** ** Character classes (ASCII) *)

(** [str.isspace] on one character: TAB, LF, VT, FF, CR, FS, GS, RS, US
    and the space. *)
Definition isspace (a : ascii) : bool :=
  let n := nat_of_ascii a in
  ((9 <=? n)%nat && (n <=? 13)%nat) || ((28 <=? n)%nat && (n <=? 32)%nat).

Definition isupper (a : ascii) : bool :=
  let n := nat_of_ascii a in (65 <=? n)%nat && (n <=? 90)%nat.

Definition islower (a : ascii) : bool :=
  let n := nat_of_ascii a in (97 <=? n)%nat && (n <=? 122)%nat.

Definition upper_char (a : ascii) : ascii :=
  if islower a then ascii_of_nat (nat_of_ascii a - 32) else a.

Definition lower_char (a : ascii) : ascii :=
  if isupper a then ascii_of_nat (nat_of_ascii a + 32) else a.

Fixpoint map_chars (f : ascii -> ascii) (s : string) : string :=
  match s with
  | EmptyString => EmptyString
  | String a s' => String (f a) (map_chars f s')
  end.

Definition upper : string -> string := map_chars upper_char.
Definition lower : string -> string := map_chars lower_char.

(** [s.replace(a, b)] for single characters. *)
Definition replace (a b : ascii) : string -> string :=
  map_chars (fun c => if Ascii.eqb c a then b else c).

(** ** [strip] and [split] *)

Fixpoint lstrip (s : string) : string :=
  match s with
  | EmptyString => EmptyString
  | String a s' => if isspace a then lstrip s' else s
  end.

(** Drops the trailing run of whitespace: a character is removed when
    all that follows it has been removed and it is itself a space. *)
Fixpoint rstrip (s : string) : string :=
  match s with
  | EmptyString => EmptyString
  | String a s' =>
      match rstrip s' with
      | EmptyString => if isspace a then EmptyString else String a EmptyString
      | r => String a r
      end
  end.

Definition strip (s : string) : string := rstrip (lstrip s).

(** [s.split()]: maximal runs of non-whitespace characters.  [cur] is the
    word being read, reversed. *)
Fixpoint split_scan (s : string) (cur : list ascii) : list string :=
  let flush (rest : list string) :=
    match cur with
    | [] => rest
    | _ => string_of_list_ascii (rev cur) :: rest
    end in
  match s with
  | EmptyString => flush []
  | String a s' =>
      if isspace a then flush (split_scan s' [])
      else split_scan s' (a :: cur)
  end.

Definition split (s : string) : list string := split_scan s [].

(** ** Truthiness *)

Definition truthy_str (s : string) : bool :=
  match s with EmptyString => false | _ => true end.

(** [" ".join(l)] *)
Fixpoint join (sep : string) (l : list string) : string :=
  match l with
  | [] => ""
  | [x] => x
  | x :: rest => x ++ sep ++ join sep rest
  end.

(** Decimal rendering of a non-negative integer, as in an f-string. *)
Definition str_of_Z (z : Z) : string := pretty z.

(** [c in s] for a character. *)
Fixpoint occurs (c : ascii) (s : string) : bool :=
  match s with
  | EmptyString => false
  | String a s' => Ascii.eqb a c || occurs c s'
  end.

(** [l[k:]] on lists. *)
Definition from_index {A : Type} (k : Z) (l : list A) : list A :=
  skipn (Z.to_nat (adjust (Z.of_nat (List.length l)) k)) l.

(** [sub in s] on strings. *)
Fixpoint contains (sub s : string) : bool :=
  String.prefix sub s ||
  match s with
  | EmptyString => false
  | String _ s' => contains sub s'
  end.

End Py.


(* ===================================================================== *)
(** * Floating point                                                      *)
(* ===================================================================== *)

(** A Python [float] is an IEEE 754 binary64 number.  The finite ones are
    rationals, and an arithmetic operation on finite floats returns the
    exact result rounded to the nearest of them, to the one with the even
    significand when two are equally near; a result that rounds to a
    magnitude of [2 ** 1024] or more overflows to an infinity.  A value of
    type [Q] that stands for a float is one of these rationals, or
    [2 ** 1024] for [inf] and its opposite for [-inf]: as the largest
    finite float is below it, the order of [Q] is the order of the floats.
    NaN is not represented, nor the sign of zero. *)
Module Float.

(** [2 ** e] *)
Definition pow2 (e : Z) : Q := (2 ^ e)%Q.

(** The largest [b] with [2 ** b <= |x|], for [x] other than zero. *)
Definition binade (x : Q) : Z :=
  let b := Z.log2 (Z.abs (Qnum x)) - Z.log2 (Z.pos (Qden x)) in
  if Qle_bool (pow2 b) (Qabs x) then b else b - 1.

(** The integer nearest to [y], the even one of two that are equally
    near. *)
Definition nearest_even (y : Q) : Z :=
  let f := Qfloor y in
  match (y - inject_Z f ?= 1 # 2)%Q with
  | Lt => f
  | Gt => f + 1
  | Eq => if Z.even f then f else f + 1
  end.

(** The number nearest to [x] with a significand of 53 bits: a multiple
    of [2 ** e], where [e] leaves 53 bits for the significand and is not
    below the exponent of the subnormal numbers. *)
Definition nearest (x : Q) : Q :=
  let e := Z.max (binade x - 52) (-1074) in
  (inject_Z (nearest_even (x / pow2 e)) * pow2 e)%Q.

(** What stands for [inf]. *)
Definition huge : Q := pow2 1024.

Definition overflow (x : Q) : Q :=
  if Qle_bool huge x then huge
  else if Qle_bool x (- huge) then (- huge)%Q
  else x.

(** The binary64 number that [x] is rounded to. *)
Definition round64 (x : Q) : Q := overflow (nearest x).

(** [x + y], [x - y], [x * y] and [x / y] on floats. *)
Definition add (x y : Q) : Q := round64 (x + y).
Definition sub (x y : Q) : Q := round64 (x - y).
Definition mul (x y : Q) : Q := round64 (x * y).
Definition div (x y : Q) : Q := round64 (x / y).

(** The float that a decimal literal such as [0.8] denotes. *)
Definition literal (q : Q) : Q := round64 q.

End Float.

(* ===================================================================== *)
(** * Document chunker ([extractors/entity_extractor.py])                 *)
(* ===================================================================== *)

Module Chunker.

(** [DocumentChunker.__init__] *)
Record DocumentChunker : Type := {
  chunk_size : Z;
  chunk_overlap : Z
}.

(** The instance built by [GraphRAG.__init__], which is also the
    constructor's default. *)
Definition default_chunker : DocumentChunker :=
  {| chunk_size := 1000; chunk_overlap := 200 |}.

Record Chunk : Type := {
  id : string;
  text : string;
  start_pos : Z;
  end_pos : Z;
  doc_id : option string;
  chunk_num : Z
}.

(** Loop state of [chunk_text]: the local variables assigned in the body. *)
Record LoopState : Type := {
  chunks : list Chunk;
  start : Z;
  next_num : Z
}.

(** The window end chosen for the window that begins at [start]:
    [min(start + chunk_size, text_length)], pulled back to just after the
    last ['.'] or newline of the window when that lies past [start]. *)
Definition window_end (c : DocumentChunker) (txt : string) (start : Z) : Z :=
  let text_length := Py.len txt in
  let stop := Z.min (start + chunk_size c) text_length in
  if stop <? text_length then
    let last_period := Py.rfind_in "." txt start stop in
    let last_newline := Py.rfind_in "010" txt start stop in
    let break_point := Z.max last_period last_newline in
    if break_point >? start then break_point + 1 else stop
  else stop.

(** [f"{doc_id}_chunk_{chunk_num}" if doc_id else f"chunk_{chunk_num}"] *)
Definition make_chunk_id (doc : option string) (n : Z) : string :=
  match doc with
  | Some d => if Py.truthy_str d then d ++ "_chunk_" ++ Py.str_of_Z n
              else "chunk_" ++ Py.str_of_Z n
  | None => "chunk_" ++ Py.str_of_Z n
  end.

(** One execution of the [while] body. *)
Definition chunk_step (c : DocumentChunker) (txt : string)
    (doc : option string) (st : LoopState) : LoopState :=
  let text_length := Py.len txt in
  let stop := window_end c txt (start st) in
  let chunk_text := Py.strip (Py.slice txt (start st) stop) in
  let start' := if stop <? text_length then stop - chunk_overlap c
                else text_length in
  if Py.truthy_str chunk_text then
    {| chunks := (chunks st ++
                  [ {| id := make_chunk_id doc (next_num st);
                       text := chunk_text;
                       start_pos := start st;
                       end_pos := stop;
                       doc_id := doc;
                       chunk_num := next_num st |} ])%list;
       start := start';
       next_num := next_num st + 1 |}
  else
    {| chunks := chunks st; start := start'; next_num := next_num st |}.

(** [while start < text_length: ...], run for at most [fuel] iterations;
    [None] when the loop is still running after [fuel] iterations. *)
Fixpoint chunk_loop (fuel : nat) (c : DocumentChunker) (txt : string)
    (doc : option string) (st : LoopState) : option (list Chunk) :=
  if start st <? Py.len txt then
    match fuel with
    | O => None
    | S fuel' => chunk_loop fuel' c txt doc (chunk_step c txt doc st)
    end
  else Some (chunks st).

Definition chunk_text (fuel : nat) (c : DocumentChunker) (txt : string)
    (doc : option string) : option (list Chunk) :=
  chunk_loop fuel c txt doc {| chunks := []; start := 0; next_num := 0 |}.

(** [n] copies of a character. *)
Fixpoint repeat_char (a : ascii) (n : nat) : string :=
  match n with
  | O => EmptyString
  | S n' => String a (repeat_char a n')
  end.

(** A 1001-character text whose only sentence end sits at index 199:
    ["x" * 199 + "." + "x" * 801]. *)
Definition stuck_text : string :=
  repeat_char "x" 199 ++ "." ++ repeat_char "x" 801.

(** ** Progress of the window *)

(** Every window that stops short of the end of the text ends more than
    [chunk_overlap] characters after its start, so that the next window
    starts further on. *)
Definition advances (c : DocumentChunker) (txt : string) : Prop :=
  forall start : Z,
    0 <= start < Py.len txt ->
    window_end c txt start < Py.len txt ->
    start + chunk_overlap c < window_end c txt start.

Definition newline : ascii := "010".

End Chunker.

(* ===================================================================== *)
(** * LLM handler ([handlers/ollama_handler.py])                          *)
(* ===================================================================== *)

Module Ollama.
Import Py.
Local Open Scope py_scope.

(** What [json.loads] can return. *)
#[local] Unset Elimination Schemes.
Inductive json : Type :=
| JNull
| JBool (b : bool)
| JNum (q : Q)
| JStr (s : string)
| JArr (items : list json)
| JObj (fields : list (string * json)).
#[local] Set Elimination Schemes.

Record Message : Type := { role : string; content : string }.

Record ChatOptions : Type := {
  temperature : Q;
  num_predict : option Z
}.

(** The model server and the JSON library, as seen from the handler.
    [chat] stands for [self.client.chat(...)['message']['content']]. *)
Record Backend : Type := {
  world : Type;
  chat : string -> list Message -> ChatOptions -> M world string;
  json_loads : string -> outcome json
}.

Record OllamaHandler : Type := { model : string }.

(** [if max_tokens:] on an [Optional[int]]. *)
Definition truthy_int (o : option Z) : bool :=
  match o with
  | Some n => negb (n =? 0)
  | None => false
  end.

(** [generate]: any failure of the chat call is logged and turned into
    the empty string. *)
Definition generate (B : Backend) (h : OllamaHandler) (prompt : string)
    (system_prompt : option string) (temp : Q) (max_tokens : option Z)
    : M (world B) string :=
  let messages :=
    (match system_prompt with
     | Some sp => if truthy_str sp
                  then [ {| role := "system"; content := sp |} ] else []
     | None => []
     end ++ [ {| role := "user"; content := prompt |} ])%list in
  try_except
    (let options :=
       {| temperature := temp;
          num_predict := if truthy_int max_tokens then max_tokens
                         else None |} in
     chat B (model h) messages options)
    (fun _ => ret "").

Definition dq : string := String (ascii_of_nat 34) EmptyString.
Definition nl : string := String (ascii_of_nat 10) EmptyString.

Definition extraction_system_prompt : string :=
  "You are an expert agricultural knowledge extractor." ++ nl ++
  "Extract entities and relationships from the given text." ++ nl ++ nl ++
  "Entities can be: Crops, Diseases, Pests, Techniques, Chemicals, Locations, etc." ++ nl ++
  "Relationships can be: TREATS, AFFECTS, PREVENTS, PART_OF, LOCATED_IN, etc." ++ nl ++ nl ++
  "Return a JSON object with this structure:" ++ nl ++
  "{" ++ nl ++
  "  " ++ dq ++ "entities" ++ dq ++ ": [" ++ nl ++
  "    {" ++ dq ++ "name" ++ dq ++ ": " ++ dq ++ "entity_name" ++ dq ++ ", "
         ++ dq ++ "type" ++ dq ++ ": " ++ dq ++ "entity_type" ++ dq ++ ", "
         ++ dq ++ "description" ++ dq ++ ": " ++ dq ++ "brief description" ++ dq ++ "}" ++ nl ++
  "  ]," ++ nl ++
  "  " ++ dq ++ "relationships" ++ dq ++ ": [" ++ nl ++
  "    {" ++ dq ++ "from" ++ dq ++ ": " ++ dq ++ "entity1" ++ dq ++ ", "
         ++ dq ++ "to" ++ dq ++ ": " ++ dq ++ "entity2" ++ dq ++ ", "
         ++ dq ++ "type" ++ dq ++ ": " ++ dq ++ "relationship_type" ++ dq ++ "}" ++ nl ++
  "  ]" ++ nl ++
  "}" ++ nl ++ nl ++
  "Only return valid JSON, nothing else.".

Definition extraction_prompt (text : string) : string :=
  "Extract entities and relationships from this agricultural text:"
    ++ nl ++ nl ++ text.

(** [{"entities": [], "relationships": []}] *)
Definition empty_extraction : json :=
  JObj [("entities", JArr []); ("relationships", JArr [])].

(** The part of [extract_entities] that follows the call to [generate]:
    [start = response.find('{')], [end = response.rfind('}') + 1], and the
    parse of [response[start:end]] when [start >= 0 and end > start]. *)
Definition parse_response (B : Backend) (response : string)
    : M (world B) json :=
  let start := find "{" response in
  let stop := rfind "}" response + 1 in
  if (start >=? 0) && (stop >? start) then
    let json_str := slice response start stop in
    lift (json_loads B json_str)
  else
    ret empty_extraction.

(** [extract_entities]: the whole body sits in one [try], whose handler
    returns the empty structure. *)
Definition extract_entities (B : Backend) (h : OllamaHandler)
    (text : string) : M (world B) json :=
  let system_prompt := extraction_system_prompt in
  let prompt := extraction_prompt text in
  try_except
    (let* response :=
       generate B h prompt (Some system_prompt) (3 # 10) None in
     parse_response B response)
    (fun _ => ret empty_extraction).

(** ** A scripted backend, for running the handler *)

(** ["{"entities":[],"relationships":[]}"] *)
Definition empty_extraction_text : string :=
  "{" ++ dq ++ "entities" ++ dq ++ ":[]," ++ dq ++ "relationships" ++ dq
      ++ ":[]}".

(** A model server that answers every chat with [reply] (or fails when
    there is none) and a JSON library that knows one document. *)
Definition scripted (reply : option string) : Backend :=
  {| world := unit;
     chat := fun _ _ _ =>
               match reply with
               | Some r => ret r
               | None => raise "ConnectionError"
               end;
     json_loads := fun s =>
                     if String.eqb s empty_extraction_text
                     then Returned empty_extraction
                     else Raised "JSONDecodeError" |}.

End Ollama.

(* ===================================================================== *)
(** * Values of any type                                                  *)
(* ===================================================================== *)

(** What [json.loads] makes of the model's reply, what the graph store
    holds as node properties and the vector store as metadata, are Python
    values of any type.  The code calls [.get], [.strip()], [.lower()],
    [.split()] on them and iterates over them; each of these raises on a
    value of the wrong type. *)
Module Json.
Import Py.
Import Ollama.

Definition and_then {A B : Type} (o : outcome A) (k : A -> outcome B)
    : outcome B :=
  match o with
  | Returned a => k a
  | Raised exn => Raised exn
  end.

Fixpoint lookup_field (k : string) (fields : list (string * json))
    : option json :=
  match fields with
  | [] => None
  | (k', v) :: rest => if String.eqb k' k then Some v else lookup_field k rest
  end.

Fixpoint set_field (k : string) (x : json) (fields : list (string * json))
    : list (string * json) :=
  match fields with
  | [] => [(k, x)]
  | (k', v) :: rest =>
      if String.eqb k' k then (k', x) :: rest
      else (k', v) :: set_field k x rest
  end.

(** [v.get(k, dflt)]: only a dict has [get]. *)
Definition jget (v : json) (k : string) (dflt : json) : outcome json :=
  match v with
  | JObj fields => Returned (default dflt (lookup_field k fields))
  | _ => Raised "AttributeError"
  end.

(** [v[k] = x] with a string [k]: only a dict takes it. *)
Definition jset (v : json) (k : string) (x : json) : outcome json :=
  match v with
  | JObj fields => Returned (JObj (set_field k x fields))
  | _ => Raised "TypeError"
  end.

Fixpoint chars (s : string) : list json :=
  match s with
  | EmptyString => []
  | String a s' => JStr (String a EmptyString) :: chars s'
  end.

(** [for x in v]: a list gives its items, a dict its keys, a string its
    characters; nothing else can be iterated. *)
Definition iterate (v : json) : outcome (list json) :=
  match v with
  | JArr items => Returned items
  | JObj fields => Returned (map (fun kv => JStr (fst kv)) fields)
  | JStr s => Returned (chars s)
  | _ => Raised "TypeError"
  end.

(** [v.items()]: only a dict has it. *)
Definition dict_items (v : json) : outcome (list (string * json)) :=
  match v with
  | JObj fields => Returned fields
  | _ => Raised "AttributeError"
  end.

(** [v.strip()], [v.lower()], [v.split()] take the string that [v] is:
    only a [str] has these methods. *)
Definition text (v : json) : outcome string :=
  match v with
  | JStr s => Returned s
  | _ => Raised "AttributeError"
  end.

(** [bool(v)] *)
Definition truthy (v : json) : bool :=
  match v with
  | JNull => false
  | JBool b => b
  | JNum q => negb (Qeq_bool q 0)
  | JStr s => truthy_str s
  | JArr [] => false
  | JArr (_ :: _) => true
  | JObj [] => false
  | JObj (_ :: _) => true
  end.

(** A dictionary of such values, used as a map. *)
Definition Dict : Type := gmap string json.

(** The entries of a dictionary that are strings. *)
Definition strings_of (d : Dict) : gmap string string :=
  omap (fun v => match v with JStr s => Some s | _ => None end) d.

End Json.

(* ===================================================================== *)
(** * Retrieval results                                                   *)
(* ===================================================================== *)

(** The dictionaries that travel between the stores and the retriever.
    A vector hit is built by [PineconeHandler.query] with the keys [id],
    [score], [metadata]; a graph hit by [Neo4jHandler.get_related_entities]
    with [id], [labels], [properties], [relationship_path]; reranking adds
    [normalized_score], [source] and [final_score].  An absent key is
    [None].  The metadata is what the index holds for the vector
    ([match.metadata], which may be [None]) and the properties are those
    of the node, so both are values of any type. *)
Record Result : Type := {
  r_id : option string;
  r_score : option Q;
  r_metadata : option Ollama.json;
  r_labels : option (list string);
  r_properties : option Ollama.json;
  r_relationship_path : option (list string);
  r_normalized_score : option Q;
  r_source : option string;
  r_final_score : option Q
}.

(** [{}] *)
Definition empty_result : Result :=
  {| r_id := None; r_score := None; r_metadata := None; r_labels := None;
     r_properties := None; r_relationship_path := None;
     r_normalized_score := None; r_source := None; r_final_score := None |}.

(** [{"id": i, "score": s, "metadata": m}] *)
Definition vector_hit (i : string) (s : Q) (m : Ollama.json) : Result :=
  {| r_id := Some i; r_score := Some s; r_metadata := Some m;
     r_labels := None; r_properties := None; r_relationship_path := None;
     r_normalized_score := None; r_source := None; r_final_score := None |}.

(** [{}] as the metadata of a hit, and as the properties of a node. *)
Definition no_metadata : Ollama.json := Ollama.JObj [].
Definition no_properties : Ollama.json := Ollama.JObj [].

(** [{"text": t}] *)
Definition text_metadata (t : string) : Ollama.json :=
  Ollama.JObj [("text", Ollama.JStr t)].

(** [{"id": i, "labels": ls, "properties": ps, "relationship_path": path}] *)
Definition graph_hit (i : string) (ls : list string)
    (ps : Ollama.json) (path : list string) : Result :=
  {| r_id := Some i; r_score := None; r_metadata := None;
     r_labels := Some ls; r_properties := Some ps;
     r_relationship_path := Some path;
     r_normalized_score := None; r_source := None; r_final_score := None |}.

(* ===================================================================== *)
(** * Vector store handler ([handlers/pinecone_handler.py])               *)
(* ===================================================================== *)

Module Pinecone.
Import Py.
Local Open Scope py_scope.

(** The Pinecone index and the inference endpoint.  [index_query] stands
    for [self.index.query(...)] followed by the loop that copies
    [results.matches] into dictionaries; [post_embed] for
    [requests.post], [raise_for_status], [response.json()] and the
    comprehension over [data["data"]]. *)
Record Backend : Type := {
  world : Type;
  index_query : list Q -> Z -> M world (list Result);
  post_embed : string -> string -> list string -> M world (list (list Q))
}.

(** [PineconeHandler.__init__] keeps the configured dimension and uses it
    when it creates the index. *)
Record PineconeHandler : Type := {
  index_name : string;
  embedding_dimension : Z
}.

Definition default_embedding_dimension : Z := 1024.

Record LlamaEmbedding : Type := {
  model : string;
  api_url : string
}.

(** [LlamaEmbedding.embed_texts] *)
Definition embed_texts (B : Backend) (e : LlamaEmbedding)
    (texts : list string) : M (world B) (list (list Q)) :=
  try_except
    (let* embeddings := post_embed B (api_url e) (model e) texts in
     ret embeddings)
    (fun _ => ret (map (fun _ => repeat 0%Q 1024) texts)).

(** [embed_text]: [self.embed_texts([text])[0]] *)
Definition embed_text (B : Backend) (e : LlamaEmbedding) (text : string)
    : M (world B) (list Q) :=
  let* vs := embed_texts B e [text] in
  match vs with
  | v :: _ => ret v
  | [] => raise "IndexError"
  end.

(** [PineconeHandler.query] with [include_metadata=True] *)
Definition query (B : Backend) (p : PineconeHandler)
    (query_vector : list Q) (top_k : Z) : M (world B) (list Result) :=
  try_except (index_query B query_vector top_k) (fun _ => ret []).

(** [PineconeHandler.search_by_text] *)
Definition search_by_text (B : Backend) (p : PineconeHandler)
    (query_text : string)
    (embedding_function : string -> M (world B) (list Q)) (top_k : Z)
    : M (world B) (list Result) :=
  let* query_embedding := embedding_function query_text in
  query B p query_embedding top_k.

(** ** An unreachable inference endpoint *)

Definition offline : Backend :=
  {| world := unit;
     index_query := fun _ _ => raise "PineconeException";
     post_embed := fun _ _ _ => raise "ConnectionError" |}.

Definition llama : LlamaEmbedding :=
  {| model := "llama-text-embed-v2";
     api_url := "https://api.pinecone.io/embed" |}.

(** [PineconeHandler(index_name="docs", embedding_dimension=768)] *)
Definition handler_768 : PineconeHandler :=
  {| index_name := "docs"; embedding_dimension := 768 |}.

End Pinecone.

(* ===================================================================== *)
(** * Graph store handler ([handlers/neo4j_handler.py])                   *)
(* ===================================================================== *)

Module Neo4j.
Import Py.
Local Open Scope py_scope.

(** The methods of [Neo4jHandler] that are one Cypher round trip each.
    What the database answers is not fixed by the handler, so they are
    the interface; [get_related_entities] is the call with
    [direction="both"], [search_entities] the call without a type
    filter.  The name that [find_entity_by_name] is given and the
    properties of a node or a relationship are passed on as they are,
    whatever their type. *)
Record Handler : Type := {
  world : Type;
  find_entity_by_name :
    string -> Ollama.json -> M world (option (gmap string string));
  create_entity_node :
    string -> Json.Dict -> M world (option string);
  create_relationship :
    string -> string -> string -> Json.Dict -> M world bool;
  get_related_entities : string -> Z -> M world (list Result);
  search_entities : string -> Z -> M world (list Result)
}.

(** [bool(d)] for an [Optional[dict]]: [None] and [{}] are false. *)
Definition truthy_dict (o : option (gmap string string)) : bool :=
  match o with
  | Some d => negb (bool_decide (d = ∅))
  | None => false
  end.

(** [d[k]] *)
Definition getitem {W : Type} (d : gmap string string) (k : string)
    : M W string :=
  match d !! k with
  | Some v => ret v
  | None => raise "KeyError"
  end.

(** [get_or_create_entity]: look the name up, create the node when the
    lookup finds nothing. *)
Definition get_or_create_entity (N : Handler) (entity_type : string)
    (properties : Json.Dict) : M (world N) (option string) :=
  let name := default Ollama.JNull (properties !! "name") in
  if negb (Json.truthy name) then raise "ValueError"
  else
    let* existing := find_entity_by_name N entity_type name in
    if truthy_dict existing then
      let* i := getitem (default ∅ existing) "id" in
      ret (Some i)
    else
      create_entity_node N entity_type properties.

(** ** An in-memory graph, for running the code *)

Record Graph : Type := {
  nodes : list (string * string * Json.Dict);
  edges : list (string * string * string)
}.

Definition empty_graph : Graph := {| nodes := []; edges := [] |}.

Definition node_id (n : string * string * Json.Dict) : string :=
  fst (fst n).

Definition has_node (g : Graph) (i : string) : bool :=
  existsb (fun n => String.eqb (node_id n) i) (nodes g).

(** [MATCH (n:type) WHERE toLower(n.name) = toLower($name)] on names
    that are strings. *)
Definition match_node (entity_type name : string)
    (n : string * string * Json.Dict) : bool :=
  String.eqb (snd (fst n)) entity_type &&
  match snd n !! "name" with
  | Some (Ollama.JStr nm) => String.eqb (lower nm) (lower name)
  | _ => false
  end.

(** The answer of the query: the first match, as
    [{"id": id, **props}]. *)
Definition first_match (entity_type name : string) (g : Graph)
    : option (gmap string string) :=
  match List.find (match_node entity_type name) (nodes g) with
  | Some n => Some (Json.strings_of (snd n) ∪ {[ "id" := node_id n ]})
  | None => None
  end.

Definition memory : Handler :=
  {| world := Graph;
     find_entity_by_name := fun entity_type name g =>
       match name with
       | Ollama.JStr name => (Returned (first_match entity_type name g), g)
       | _ => (Raised "CypherTypeError", g)
       end;
     create_entity_node := fun entity_type properties g =>
       let i := "n" ++ str_of_Z (Z.of_nat (List.length (nodes g))) in
       (Returned (Some i),
        {| nodes := (nodes g ++ [(i, entity_type, properties)])%list;
           edges := edges g |});
     create_relationship := fun from_id to_id rel_type _ g =>
       if has_node g from_id && has_node g to_id then
         (Returned true,
          {| nodes := nodes g;
             edges := (edges g ++ [(from_id, to_id, rel_type)])%list |})
       else (Returned false, g);
     get_related_entities := fun _ _ g => (Returned [], g);
     search_entities := fun _ _ g => (Returned [], g) |}.

End Neo4j.

(* ===================================================================== *)
(** * Knowledge graph builder ([graph_builder.py])                        *)
(* ===================================================================== *)

Module GraphBuilder.
Import Py.
Import Ollama.
Import Json.
Local Open Scope py_scope.

(** [d.get(k, dflt)] on a dictionary of strings. *)
Definition get (d : gmap string string) (k dflt : string) : string :=
  default dflt (d !! k).

Record Stats : Type := {
  entities_created : Z;
  entities_found : Z;
  relationships_created : Z;
  errors : Z
}.

Definition zero_stats : Stats :=
  {| entities_created := 0; entities_found := 0;
     relationships_created := 0; errors := 0 |}.

(** The builder's mutable state is [self.entity_cache], a map from the
    lower-cased name to the id the store returned (which may be [None]);
    the builder's world is that cache together with the store's. *)
Definition State (N : Neo4j.Handler) : Type :=
  (gmap string (option string) * Neo4j.world N)%type.

Definition get_cache {N : Neo4j.Handler}
    : M (State N) (gmap string (option string)) :=
  fun st => (Returned (fst st), st).

Definition set_cache {N : Neo4j.Handler}
    (c : gmap string (option string)) : M (State N) unit :=
  fun st => (Returned tt, (c, snd st)).

(** A call on [self.neo4j]. *)
Definition neo4j {N : Neo4j.Handler} {A : Type} (m : M (Neo4j.world N) A)
    : M (State N) A :=
  fun st => let (o, w') := m (snd st) in (o, (fst st, w')).

(** [bool(entity_id)] for an [Optional[str]]. *)
Definition truthy_id (i : option string) : bool :=
  match i with
  | Some s => truthy_str s
  | None => false
  end.

Definition reserved_keys : list string :=
  ["name"; "type"; "description"; "source_chunk"].

(** [d.get(k, dflt).strip()]: [d] is what the model's reply was parsed
    to, so it need not be a dict, and the value need not be a string. *)
Definition stripped (d : json) (k dflt : string) : outcome string :=
  and_then (jget d k (JStr dflt)) (fun v =>
  and_then (text v) (fun s => Returned (strip s))).

(** The properties sent to the store: the name and the description, and
    every key of the entity that is not reserved. *)
Definition entity_properties (fields : list (string * json))
    (name : string) (description : json) : Dict :=
  list_to_map (filter (fun kv => kv.1 ∉ reserved_keys) fields)
  ∪ {[ "name" := JStr name; "description" := description ]}.

(** [_create_or_get_entity] *)
Definition _create_or_get_entity (N : Neo4j.Handler) (entity : json)
    : M (State N) (option string) :=
  let* name := lift (stripped entity "name" "") in
  let* entity_type := lift (stripped entity "type" "Entity") in
  let* description := lift (jget entity "description" (JStr "")) in
  if negb (truthy_str name) then ret None
  else
    let cache_key := lower name in
    let* cache := get_cache in
    match cache !! cache_key with
    | Some cached => ret cached
    | None =>
        let* fields := lift (dict_items entity) in
        let properties := entity_properties fields name description in
        let* entity_id :=
          neo4j (Neo4j.get_or_create_entity N entity_type properties) in
        let* _ := set_cache (<[cache_key := entity_id]> cache) in
        ret entity_id
    end.

(** [properties] of [_create_relationship]: [source] when the record has
    the key [source_chunk]. *)
Definition source_of (fields : list (string * json)) : Dict :=
  match lookup_field "source_chunk" fields with
  | Some source => {[ "source" := source ]}
  | None => ∅
  end.

(** Only a dict gets as far as the test ["source_chunk" in relationship]. *)
Definition source_properties (relationship : json) : outcome Dict :=
  match relationship with
  | JObj fields => Returned (source_of fields)
  | _ => Raised "TypeError"
  end.

(** [_create_relationship] *)
Definition _create_relationship (N : Neo4j.Handler) (relationship : json)
    : M (State N) bool :=
  let* from_name := lift (stripped relationship "from" "") in
  let from_name := lower from_name in
  let* to_name := lift (stripped relationship "to" "") in
  let to_name := lower to_name in
  let* rel_type := lift (stripped relationship "type" "RELATED_TO") in
  let rel_type := upper rel_type in
  let rel_type := replace " " "_" rel_type in
  if negb (truthy_str from_name && truthy_str to_name
           && truthy_str rel_type)
  then ret false
  else
    let* cache := get_cache in
    let from_id := mjoin (cache !! from_name) in
    let to_id := mjoin (cache !! to_name) in
    if negb (truthy_id from_id) || negb (truthy_id to_id) then ret false
    else
      let* properties := lift (source_properties relationship) in
      neo4j (Neo4j.create_relationship N (default "" from_id)
               (default "" to_id) rel_type properties).

Definition found (stats : Stats) : Stats :=
  {| entities_created := entities_created stats;
     entities_found := entities_found stats + 1;
     relationships_created := relationships_created stats;
     errors := errors stats |}.

Definition created (stats : Stats) : Stats :=
  {| entities_created := entities_created stats + 1;
     entities_found := entities_found stats;
     relationships_created := relationships_created stats;
     errors := errors stats |}.

Definition related (stats : Stats) : Stats :=
  {| entities_created := entities_created stats;
     entities_found := entities_found stats;
     relationships_created := relationships_created stats + 1;
     errors := errors stats |}.

Definition failed (stats : Stats) : Stats :=
  {| entities_created := entities_created stats;
     entities_found := entities_found stats;
     relationships_created := relationships_created stats;
     errors := errors stats + 1 |}.

(** The body of the inner loop of the first pass.  The handler reads
    [entity.get('name')] for its message, which raises again when the
    entity is not a dict. *)
Definition entity_step (N : Neo4j.Handler) (stats : Stats) (entity : json)
    : M (State N) Stats :=
  try_except
    (let* entity_id := _create_or_get_entity N entity in
     if truthy_id entity_id then
       let* name := lift (and_then (jget entity "name" (JStr "")) text) in
       let* cache := get_cache in
       if bool_decide (is_Some (cache !! lower name))
       then ret (found stats)
       else ret (created stats)
     else ret stats)
    (fun _ =>
       let* _ := lift (jget entity "name" JNull) in
       ret (failed stats)).

(** The body of the inner loop of the second pass; its handler prints
    the record, which does not raise. *)
Definition relationship_step (N : Neo4j.Handler) (stats : Stats)
    (rel : json) : M (State N) Stats :=
  try_except
    (let* success := _create_relationship N rel in
     if success then ret (related stats) else ret stats)
    (fun _ => ret (failed stats)).

(** [for record in extraction.get(key, [])]: what the loop visits. *)
Definition records (extraction : json) (key : string)
    : outcome (list json) :=
  and_then (jget extraction key (JArr [])) iterate.

Definition entities_pass (N : Neo4j.Handler) (stats : Stats)
    (extractions : list json) : M (State N) Stats :=
  for_each
    (fun stats extraction =>
       let* entities := lift (records extraction "entities") in
       for_each (entity_step N) stats entities)
    stats extractions.

Definition relationships_pass (N : Neo4j.Handler) (stats : Stats)
    (extractions : list json) : M (State N) Stats :=
  for_each
    (fun stats extraction =>
       let* relationships := lift (records extraction "relationships") in
       for_each (relationship_step N) stats relationships)
    stats extractions.

(** [build_from_extractions] *)
Definition build_from_extractions (N : Neo4j.Handler)
    (extractions : list json) : M (State N) Stats :=
  let* stats := entities_pass N zero_stats extractions in
  let* stats := relationships_pass N stats extractions in
  ret stats.

(** ** Records of the expected shape *)

(** The value of [k] is a string, or [k] is absent. *)
Definition textual (fields : list (string * json)) (k : string) : bool :=
  match lookup_field k fields with
  | Some (JStr _) | None => true
  | Some _ => false
  end.

(** [d.get(k, dflt)] for such a key. *)
Definition field (fields : list (string * json)) (k dflt : string)
    : string :=
  match lookup_field k fields with
  | Some (JStr s) => s
  | _ => dflt
  end.

(** [self.entity_cache.get(name.strip().lower())] *)
Definition resolve (cache : gmap string (option string)) (name : string)
    : option string :=
  mjoin (cache !! lower (strip name)).

(** A relationship one of whose endpoints has no usable id in the
    cache: the key is absent, or it maps to [None] or to [""]. *)
Definition unresolved (cache : gmap string (option string))
    (rel : list (string * json)) : Prop :=
  truthy_id (resolve cache (field rel "from" "")) = false \/
  truthy_id (resolve cache (field rel "to" "")) = false.

(** The cache as the first pass leaves it. *)
Definition cache_after_entities (N : Neo4j.Handler)
    (extractions : list json) (st : State N)
    : gmap string (option string) :=
  fst (snd (entities_pass N zero_stats extractions st)).

(** An extraction with another list of relationships. *)
Definition with_relationships (extraction : list (string * json))
    (rels : list json) : json :=
  JObj (set_field "relationships" (JArr rels) extraction).

(** An extraction all of whose records the two passes can take up: a dict
    whose [entities] can be iterated and are dicts, and whose
    [relationships] can be iterated. *)
Definition is_dict (v : json) : bool :=
  match v with
  | JObj _ => true
  | _ => false
  end.

Definition entities_well_formed (extraction : json) : bool :=
  match records extraction "entities" with
  | Returned entities => forallb is_dict entities
  | Raised _ => false
  end.

Definition relationships_well_formed (extraction : json) : bool :=
  match records extraction "relationships" with
  | Returned _ => true
  | Raised _ => false
  end.

Definition well_formed (extraction : json) : bool :=
  entities_well_formed extraction && relationships_well_formed extraction.

(** A relationship record that [_create_relationship] can read: a dict
    whose [from], [to] and [type] are strings where they are present. *)
Definition well_typed (relationship : json) : bool :=
  match relationship with
  | JObj fields =>
      textual fields "from" && textual fields "to" && textual fields "type"
  | _ => false
  end.

(** ** The Wheat / Rust scenario *)

Definition wheat : json :=
  JObj [("name", JStr "Wheat"); ("type", JStr "Crop")].
Definition rust : json :=
  JObj [("name", JStr "Rust"); ("type", JStr "Disease")].

Definition rust_affects_wheat (rel_type : string) : json :=
  JObj [("from", JStr "Rust"); ("to", JStr "Wheat");
        ("type", JStr rel_type)].

Definition scenario (rel_type : string) : list json :=
  [ JObj [("entities", JArr [wheat; rust]);
          ("relationships", JArr [rust_affects_wheat rel_type])] ].

(** A relationship from an entity that no extraction mentions. *)
Definition ghost_fields : list (string * json) :=
  [("from", JStr "Ghost"); ("to", JStr "Wheat"); ("type", JStr "affects")].

Definition ghost_affects_wheat : json := JObj ghost_fields.

Definition scenario_with_ghost : list (string * json) :=
  [("entities", JArr [wheat; rust]);
   ("relationships",
    JArr [rust_affects_wheat "affects crop"; ghost_affects_wheat;
          rust_affects_wheat "infects"])].

(** The same relationship with a type that is [null]. *)
Definition ghost_null_fields : list (string * json) :=
  [("from", JStr "Ghost"); ("to", JStr "Wheat"); ("type", JNull)].

Definition scenario_with_null_type : list json :=
  [ JObj [("entities", JArr [wheat; rust]);
          ("relationships", JArr [JObj ghost_null_fields])] ].

(** A fresh builder on an empty in-memory graph. *)
Definition fresh : State Neo4j.memory := (∅, Neo4j.empty_graph).

(** What a run leaves behind: the statistics and the stored edges. *)
Definition run_on_memory (extractions : list json)
    : outcome Stats * list (string * string * string) :=
  let (o, st) := build_from_extractions Neo4j.memory extractions fresh in
  (o, Neo4j.edges (snd st)).

(** ** Documents *)

(** [clear_cache] *)
Definition clear_cache {N : Neo4j.Handler} : M (State N) unit := set_cache ∅.

(** [add_document_node]: the keys of [metadata] win over the two the
    method supplies. *)
Definition add_document_node (N : Neo4j.Handler) (doc_id : string)
    (metadata : Dict) : M (State N) (option string) :=
  let properties : Dict :=
    metadata ∪ {[ "doc_id" := JStr doc_id;
                  "name" := default (JStr doc_id) (metadata !! "title") ]} in
  neo4j (Neo4j.create_entity_node N "Document" properties).

(** The body of the loop of [link_entities_to_document]. *)
Definition link_step (N : Neo4j.Handler) (doc_node_id : string)
    (links_created : Z) (entity_name : string) : M (State N) Z :=
  let* cache := get_cache in
  let entity_id := mjoin (cache !! lower entity_name) in
  if truthy_id entity_id then
    let* success :=
      neo4j (Neo4j.create_relationship N (default "" entity_id) doc_node_id
               "MENTIONED_IN" ∅) in
    if success then ret (links_created + 1) else ret links_created
  else ret links_created.

(** [link_entities_to_document] *)
Definition link_entities_to_document (N : Neo4j.Handler)
    (entity_names : list string) (doc_id : string) : M (State N) Z :=
  let* doc_node := neo4j (Neo4j.find_entity_by_name N "Document" (JStr doc_id)) in
  if negb (Neo4j.truthy_dict doc_node) then ret 0
  else
    let* doc_node_id := Neo4j.getitem (default ∅ doc_node) "id" in
    for_each (link_step N doc_node_id) 0 entity_names.

(** A builder that knows [Wheat], on a graph that holds it and the
    document [report.pdf]. *)
Definition with_document : State Neo4j.memory :=
  ({[ "wheat" := Some "n0" ]},
   {| Neo4j.nodes :=
        [ ("n0", "Crop", {[ "name" := JStr "Wheat" ]});
          ("n1", "Document", {[ "name" := JStr "report.pdf" ]}) ];
      Neo4j.edges := [] |}).

(** ** Counting *)

(** The records under [key] of a batch, in the order of the loops. *)
Definition all_records (key : string) (extractions : list json)
    : list json :=
  concat (map (fun e => match records e key with
                        | Returned rs => rs
                        | Raised _ => []
                        end) extractions).

(** Their number. *)
Definition count_records (key : string) (extractions : list json) : Z :=
  Z.of_nat (List.length (all_records key extractions)).

Definition count_entities : list json -> Z := count_records "entities".

Definition count_relationships : list json -> Z :=
  count_records "relationships".

(** [rel_type] as [_create_relationship] passes it on. *)
Definition normalized_type (relationship : list (string * json)) : string :=
  replace " " "_" (upper (strip (field relationship "type" "RELATED_TO"))).

(** Three extractions: a blank entity name and an entity whose type is
    [null], a duplicate of [Wheat] in other case, a dangling relationship
    and one that is not a dict. *)
Definition untidy_batch : list json :=
  [ JObj [("entities",
           JArr [wheat; JObj [("name", JStr "   ")];
                 JObj [("name", JStr "Barley"); ("type", JNull)]]);
          ("relationships", JArr [ghost_affects_wheat; JStr "Rust"])];
    JObj [("entities",
           JArr [JObj [("name", JStr " WHEAT "); ("type", JStr "Crop")];
                 rust]);
          ("relationships", JArr [rust_affects_wheat "affects crop"])];
    JObj [] ].

End GraphBuilder.

(* ===================================================================== *)
(** * Hybrid retriever ([retrievers/hybrid_retriever.py])                 *)
(* ===================================================================== *)

Module Retriever.
Import Py.
Local Open Scope py_scope.

(** What [HybridRetriever.__init__] receives: the graph handler, and the
    vector handler together with the embedding function, seen through the
    one call the retriever makes on them,
    [self.pinecone.search_by_text(query_text, self.embed, top_k)]. *)
Record Handlers : Type := {
  neo4j : Neo4j.Handler;
  search_by_text : string -> Z -> M (Neo4j.world neo4j) (list Result)
}.

Abbreviation world H := (Neo4j.world (neo4j H)).

(** [r["id"]] *)
Definition result_id {W : Type} (r : Result) : M W string :=
  match r_id r with
  | Some i => ret i
  | None => raise "KeyError"
  end.

(** [_vector_search] *)
Definition _vector_search (H : Handlers) (query : string) (top_k : Z)
    : M (world H) (list Result) :=
  try_except (search_by_text H query top_k) (fun _ => ret []).

(** [m["properties"]] *)
Definition properties_of {W : Type} (m : Result) : M W Ollama.json :=
  match r_properties m with
  | Some props => ret props
  | None => raise "KeyError"
  end.

(** The comprehension of [_extract_query_entities]:
    [[m["properties"].get("name", "") for m in matches
      if m["properties"].get("name")]].  The names are whatever the nodes
    hold. *)
Definition match_names {W : Type} (matches : list Result)
    : M W (list Ollama.json) :=
  for_each
    (fun names m =>
       let* props := properties_of m in
       let* name := lift (Json.jget props "name" Ollama.JNull) in
       if Json.truthy name then
         let* props := properties_of m in
         let* name := lift (Json.jget props "name" (Ollama.JStr "")) in
         ret (names ++ [name])%list
       else ret names)
    [] matches.

(** The names as the strings that [entity.lower()] needs them to be. *)
Fixpoint texts (entities : list Ollama.json) : outcome (list string) :=
  match entities with
  | [] => Returned []
  | entity :: rest =>
      Json.and_then (Json.text entity) (fun entity =>
      Json.and_then (texts rest) (fun rest => Returned (entity :: rest)))
  end.

(** Order-preserving, case-insensitive removal of duplicates, on names
    that are strings. *)
Fixpoint unique_entities (entities : list string) (seen : gset string)
    : list string :=
  match entities with
  | [] => []
  | entity :: rest =>
      if bool_decide (lower entity ∈ seen) then unique_entities rest seen
      else entity :: unique_entities rest ({[ lower entity ]} ∪ seen)
  end.

(** [_extract_query_entities].  The loop that removes the duplicates
    calls [entity.lower()] on every name and has no way out but its end,
    so it raises exactly when one of the names is not a string, and all it
    has done until then is lost with its local variables. *)
Definition _extract_query_entities (H : Handlers) (query : string)
    : M (world H) (list string) :=
  let query_terms := split (lower query) in
  let* entities :=
    for_each
      (fun entities term =>
         if len term <? 3 then ret entities
         else
           let* matches := Neo4j.search_entities (neo4j H) term 3 in
           let* names := match_names matches in
           ret (entities ++ names)%list)
      [] query_terms in
  let* entities := lift (texts entities) in
  ret (unique_entities entities ∅).

Definition fallback_types : list string :=
  ["Crop"; "Disease"; "Pest"; "Technique"; "Chemical"].

(** [for entity_type in [...]: entity = find(...); if entity: break];
    [entity] is the value the variable holds when the loop is entered. *)
Fixpoint find_in_types (H : Handlers) (types : list string)
    (entity_name : string) (entity : option (gmap string string))
    : M (world H) (option (gmap string string)) :=
  match types with
  | [] => ret entity
  | entity_type :: rest =>
      let* entity :=
        Neo4j.find_entity_by_name (neo4j H) entity_type
          (Ollama.JStr entity_name) in
      if Neo4j.truthy_dict entity then ret entity
      else find_in_types H rest entity_name entity
  end.

(** The lookup at the head of the traversal loop: the generic type
    first, then the fallback types. *)
Definition find_entity (H : Handlers) (entity_name : string)
    : M (world H) (option (gmap string string)) :=
  let* entity :=
    Neo4j.find_entity_by_name (neo4j H) "Entity" (Ollama.JStr entity_name) in
  if negb (Neo4j.truthy_dict entity)
  then find_in_types H fallback_types entity_name entity
  else ret entity.

(** The accumulating loop shared by [_graph_traversal] (over [related])
    and [_expand_from_vector_results] (over [new_results]): append the
    results whose id has not been seen, stop as soon as [top_k] results are
    held.  The state is the list and the set of its ids. *)
Fixpoint collect {W : Type} (top_k : Z) (candidates : list Result)
    (acc : list Result * gset string) : M W (list Result * gset string) :=
  match candidates with
  | [] => ret acc
  | candidate :: rest =>
      let* rel_id := result_id candidate in
      let acc' :=
        if bool_decide (rel_id ∈ snd acc) then acc
        else ((fst acc ++ [candidate])%list, {[ rel_id ]} ∪ snd acc) in
      if Z.of_nat (List.length (fst acc')) >=? top_k then ret acc'
      else collect top_k rest acc'
  end.

(** The outer loop of [_graph_traversal]. *)
Fixpoint traverse (H : Handlers) (top_k max_hops : Z)
    (entity_names : list string) (acc : list Result * gset string)
    : M (world H) (list Result * gset string) :=
  match entity_names with
  | [] => ret acc
  | entity_name :: rest =>
      let* entity := find_entity H entity_name in
      if negb (Neo4j.truthy_dict entity) then
        traverse H top_k max_hops rest acc
      else
        let* entity_id := Neo4j.getitem (default ∅ entity) "id" in
        let* related :=
          Neo4j.get_related_entities (neo4j H) entity_id max_hops in
        let* acc' := collect top_k related acc in
        if Z.of_nat (List.length (fst acc')) >=? top_k then ret acc'
        else traverse H top_k max_hops rest acc'
  end.

(** [_graph_traversal] *)
Definition _graph_traversal (H : Handlers) (entity_names : list string)
    (top_k max_hops : Z) : M (world H) (list Result) :=
  let* acc := traverse H top_k max_hops entity_names ([], ∅) in
  ret (take top_k (fst acc)).

(** [word and word[0].isupper()] *)
Definition capitalized (word : string) : bool :=
  match word with
  | String a _ => isupper a
  | EmptyString => false
  end.

(** The capitalized words of the text of one vector hit:
    [result.get("metadata", {}).get("text", "").split()], filtered. *)
Definition candidate_words (result : Result) : outcome (list string) :=
  let metadata := default (Ollama.JObj []) (r_metadata result) in
  Json.and_then (Json.jget metadata "text" (Ollama.JStr "")) (fun text =>
  Json.and_then (Json.text text) (fun text =>
  Returned (List.filter capitalized (split text)))).

(** The candidate names harvested from the first three vector hits. *)
Definition entity_candidates {W : Type} (vector_results : list Result)
    : M W (list string) :=
  for_each
    (fun entity_candidates result =>
       let* words := lift (candidate_words result) in
       ret (entity_candidates ++ words)%list)
    [] (take 3 vector_results).

(** [{r["id"] for r in existing_graph_results}] *)
Definition ids_of {W : Type} (results : list Result) : M W (gset string) :=
  for_each (fun ids r => let* i := result_id r in ret ({[ i ]} ∪ ids))
    ∅ results.

(** [_expand_from_vector_results] *)
Definition _expand_from_vector_results (H : Handlers)
    (vector_results existing_graph_results : list Result)
    (top_k max_hops : Z) : M (world H) (list Result) :=
  let* candidates := entity_candidates vector_results in
  let* new_results := _graph_traversal H candidates top_k max_hops in
  let* existing_ids := ids_of existing_graph_results in
  let* merged := collect top_k new_results
                   (existing_graph_results, existing_ids) in
  ret (take top_k (fst merged)).

(** A run of [retrieve], step by step: the vector hits, the graph hits
    that step 3 produced, whether step 4 called
    [_expand_from_vector_results], and the graph hits returned. *)
Record Run : Type := {
  vector_results : list Result;
  traversed : list Result;
  expanded : bool;
  graph_results : list Result
}.

Definition retrieve_run (H : Handlers) (query : string)
    (top_k_vector top_k_graph max_hops : Z) : M (world H) Run :=
  let* vector_results := _vector_search H query top_k_vector in
  let* query_entities := _extract_query_entities H query in
  let* graph_results :=
    _graph_traversal H query_entities top_k_graph max_hops in
  if Z.of_nat (List.length graph_results) <? top_k_graph / 2 then
    let* expanded_results :=
      _expand_from_vector_results H vector_results graph_results
        top_k_graph max_hops in
    ret {| vector_results := vector_results; traversed := graph_results;
           expanded := true; graph_results := expanded_results |}
  else
    ret {| vector_results := vector_results; traversed := graph_results;
           expanded := false; graph_results := graph_results |}.

(** [retrieve] *)
Definition retrieve (H : Handlers) (query : string)
    (top_k_vector top_k_graph max_hops : Z)
    : M (world H) (list Result * list Result) :=
  let* run := retrieve_run H query top_k_vector top_k_graph max_hops in
  ret (vector_results run, graph_results run).

(** ** Reranking *)

(** [rerank_results] writes into the dictionaries it is handed and returns
    a list of these same dictionaries.  Its result lists are therefore
    lists of references, and its world is the store the references point
    into. *)
Definition ref : Type := nat.
Definition Heap : Type := ref -> Result.

Definition read (l : ref) : M Heap Result :=
  fun h => (Returned (h l), h).

(** The store after [l] has been made to hold [r]. *)
Definition update (h : Heap) (l : ref) (r : Result) : Heap :=
  fun l' => if Nat.eqb l' l then r else h l'.

Definition write (l : ref) (r : Result) : M Heap unit :=
  fun h => (Returned tt, update h l r).

(** [result["normalized_score"] = q; result["source"] = src] *)
Definition set_normalized (r : Result) (q : Q) (src : string) : Result :=
  {| r_id := r_id r; r_score := r_score r; r_metadata := r_metadata r;
     r_labels := r_labels r; r_properties := r_properties r;
     r_relationship_path := r_relationship_path r;
     r_normalized_score := Some q; r_source := Some src;
     r_final_score := r_final_score r |}.

(** [result["final_score"] = q] *)
Definition set_final (r : Result) (q : Q) : Result :=
  {| r_id := r_id r; r_score := r_score r; r_metadata := r_metadata r;
     r_labels := r_labels r; r_properties := r_properties r;
     r_relationship_path := r_relationship_path r;
     r_normalized_score := r_normalized_score r; r_source := r_source r;
     r_final_score := Some q |}.

(** [r.get("score", 0)] and [x.get("final_score", 0)] *)
Definition score_of (r : Result) : Q := default 0%Q (r_score r).
Definition final_of (r : Result) : Q := default 0%Q (r_final_score r).

(** [result["normalized_score"]] *)
Definition normalized_of {W : Type} (r : Result) : M W Q :=
  match r_normalized_score r with
  | Some q => ret q
  | None => raise "KeyError"
  end.

(** One turn of [max]: the running maximum [m] gives way to [y] only when
    [y] is strictly larger. *)
Definition larger (m y : Q) : Q := if Qle_bool y m then m else y.

(** [max(...)] of a sequence of numbers: the first of the largest. *)
Definition max_of {W : Type} (xs : list Q) : M W Q :=
  match xs with
  | [] => raise "ValueError"
  | x :: rest => ret (fold_left larger rest x)
  end.

(** [(r.get("score", 0) for r in vector_results)] *)
Definition scores (refs : list ref) : M Heap (list Q) :=
  for_each
    (fun acc l => let* r := read l in ret (acc ++ [score_of r])%list)
    [] refs.

(** [x > 0] on numbers. *)
Definition positive (x : Q) : bool := negb (Qle_bool x 0).

(** What the first loop stores for a vector result. *)
Definition normalize_vector (max_vector_score : Q) (r : Result) : Result :=
  set_normalized r
    (if positive max_vector_score
     then Float.div (score_of r) max_vector_score
     else 0%Q)
    "vector".

(** What the second loop stores for a graph result. *)
Definition normalize_graph (r : Result) : Result :=
  let path_length :=
    Z.of_nat (List.length (default [] (r_relationship_path r))) in
  set_normalized r
    (if path_length >? 0
     then Float.div 1 (Float.add 1 (inject_Z path_length))
     else Float.literal (8 # 10))
    "graph".

(** One turn of the two combining loops. *)
Definition add_final (weight : Q) (all_results : list ref) (l : ref)
    : M Heap (list ref) :=
  let* result := read l in
  let* normalized := normalized_of result in
  let* _ := write l (set_final result (Float.mul normalized weight)) in
  ret (all_results ++ [l])%list.

(** [rerank_results] *)
Definition rerank_results (vector_results graph_results : list ref)
    (vector_weight : Q) : M Heap (list ref) :=
  let graph_weight := Float.sub 1 vector_weight in
  let* _ :=
    match vector_results with
    | [] => ret tt
    | _ :: _ =>
        let* xs := scores vector_results in
        let* max_vector_score := max_of xs in
        for_each
          (fun _ l =>
             let* result := read l in
             write l (normalize_vector max_vector_score result))
          tt vector_results
    end in
  let* _ :=
    for_each
      (fun _ l => let* result := read l in write l (normalize_graph result))
      tt graph_results in
  let* all_results := for_each (add_final vector_weight) [] vector_results in
  let* all_results :=
    for_each (add_final graph_weight) all_results graph_results in
  fun h => (Returned (sort_desc (fun l => final_of (h l)) all_results), h).

(** *** The store, loop by loop *)

(** A loop that rewrites every dictionary of [refs] in place with [f]. *)
Definition rewrite_all (f : Result -> Result) (refs : list ref) (h : Heap)
    : Heap :=
  fold_left (fun h l => update h l (f (h l))) refs h.

(** What a combining loop stores, given that the key [normalized_score]
    is there. *)
Definition finalize (weight : Q) (r : Result) : Result :=
  set_final r (Float.mul (default 0%Q (r_normalized_score r)) weight).

(** The largest score of a non-empty batch, as [max] finds it. *)
Definition max_vector_score (h : Heap) (first : ref) (others : list ref) : Q :=
  fold_left larger (map (fun l => score_of (h l)) others)
    (score_of (h first)).

(** The store as the four loops of [rerank_results] leave it. *)
Definition reranked (vector_results graph_results : list ref)
    (vector_weight : Q) (h : Heap) : Heap :=
  let h1 :=
    match vector_results with
    | [] => h
    | first :: others =>
        rewrite_all (normalize_vector (max_vector_score h first others))
          vector_results h
    end in
  let h2 := rewrite_all normalize_graph graph_results h1 in
  let h3 := rewrite_all (finalize vector_weight) vector_results h2 in
  rewrite_all (finalize (Float.sub 1 vector_weight)) graph_results h3.



(** Three vector hits with the scores [-2.0], [-1.0] and [5e-324], the
    smallest positive float. *)
Definition steep_hits : Heap :=
  fun l =>
    match l with
    | 0%nat => vector_hit "m2" (-2) no_metadata
    | 1%nat => vector_hit "m1" (-1) no_metadata
    | 2%nat => vector_hit "tiny" (Float.pow2 (-1074)) no_metadata
    | _ => empty_result
    end.

(** Three vector hits with the scores [0.37500000000000006],
    [0.3750000000000001] and [0.75]: the first two are next to each other
    among the floats. *)
Definition close_hits : Heap :=
  fun l =>
    match l with
    | 0%nat => vector_hit "x" ((3 # 8) + Float.pow2 (-54))%Q no_metadata
    | 1%nat => vector_hit "y" ((3 # 8) + Float.pow2 (-53))%Q no_metadata
    | 2%nat => vector_hit "z" (3 # 4) no_metadata
    | _ => empty_result
    end.

(** Three vector hits (scores 0.3, 0.9, 0.3) and two graph hits. *)
Definition mixed_hits : Heap :=
  fun l =>
    match l with
    | 0%nat => vector_hit "c0" (Float.literal (3 # 10)) no_metadata
    | 1%nat => vector_hit "c1" (Float.literal (9 # 10)) no_metadata
    | 2%nat => vector_hit "c2" (Float.literal (3 # 10)) no_metadata
    | 3%nat => graph_hit "a" ["Disease"] no_properties ["AFFECTS"]
    | 4%nat => graph_hit "b" ["Pest"] no_properties []
    | _ => empty_result
    end.

(** The invariant of the accumulating loops: the results held carry
    pairwise different ids, and each of these ids is in the set. *)
Definition distinct_ids (acc : list Result * gset string) : Prop :=
  NoDup (r_id <$> fst acc) /\
  forall r : Result, r ∈ fst acc -> exists i, r_id r = Some i /\ i ∈ snd acc.

(** A graph handler that answers: its lookups and neighbourhood queries
    return, every entity found carries the key [id], and so does every
    neighbour. *)
Definition answers (H : Handlers) : Prop :=
  (forall (entity_type name : string) (w : world H),
      exists entity w',
        Neo4j.find_entity_by_name (neo4j H) entity_type (Ollama.JStr name) w
          = (Returned entity, w') /\
        (Neo4j.truthy_dict entity = true ->
         is_Some (default ∅ entity !! "id"))) /\
  (forall (entity_id : string) (max_hops : Z) (w : world H),
      exists related w',
        Neo4j.get_related_entities (neo4j H) entity_id max_hops w
          = (Returned related, w') /\
        Forall (fun r => is_Some (r_id r)) related).

(** ** A small scripted graph, for running the retriever *)

(** Every name resolves as an [Entity] whose id is the name itself;
    [Wheat] has the two neighbours [a] and [b] (in that order, [a] reported
    twice), every other node has none; a search for a term finds the one
    entity named [Wheat]; the vector store is unreachable. *)
Definition wheat_graph : Handlers :=
  {| neo4j :=
       {| Neo4j.world := unit;
          Neo4j.find_entity_by_name := fun entity_type name =>
            match name with
            | Ollama.JStr name =>
                if String.eqb entity_type "Entity"
                then ret (Some {[ "id" := name ]}) else ret None
            | _ => raise "CypherTypeError"
            end;
          Neo4j.create_entity_node := fun _ _ => raise "ServiceUnavailable";
          Neo4j.create_relationship :=
            fun _ _ _ _ => raise "ServiceUnavailable";
          Neo4j.get_related_entities := fun entity_id _ =>
            if String.eqb entity_id "Wheat"
            then ret [ graph_hit "a" ["Disease"] no_properties ["AFFECTS"];
                       graph_hit "a" ["Disease"] no_properties ["AFFECTS"; "TREATS"];
                       graph_hit "b" ["Pest"] no_properties ["AFFECTS"] ]
            else ret [];
          Neo4j.search_entities := fun _ _ =>
            ret [ graph_hit "Wheat" ["Crop"]
                    (Ollama.JObj [("name", Ollama.JStr "Wheat")]) [] ]
       |};
     search_by_text := fun _ _ => raise "PineconeException" |}.

(** ** Retrieval with conversation context *)

(** The dictionary returned by [retrieve_with_context]. *)
Record ContextRun : Type := {
  query : string;
  enhanced_query : string;
  context_vector_results : list Result;
  context_graph_results : list Result;
  num_vector : Z;
  num_graph : Z
}.

(** The query that is sent on: preceded by the last two items of the
    history when there is a history. *)
Definition enhance (query : string)
    (conversation_history : option (list string)) : string :=
  match conversation_history with
  | Some ((_ :: _) as history) =>
      join " " (from_index (-2) history) ++ " " ++ query
  | _ => query
  end.

(** [retrieve_with_context]; [retrieve] is called with its default
    [max_hops = 2]. *)
Definition retrieve_with_context (H : Handlers) (q : string)
    (conversation_history : option (list string))
    (top_k_vector top_k_graph : Z) : M (world H) ContextRun :=
  let enhanced := enhance q conversation_history in
  let* results := retrieve H enhanced top_k_vector top_k_graph 2 in
  ret {| query := q;
         enhanced_query := enhanced;
         context_vector_results := fst results;
         context_graph_results := snd results;
         num_vector := Z.of_nat (List.length (fst results));
         num_graph := Z.of_nat (List.length (snd results)) |}.

(** ** Handlers that differ in how they search *)

(** [N] with another [search_entities]. *)
Definition with_search (N : Neo4j.Handler)
    (search : string -> Z -> M (Neo4j.world N) (list Result))
    : Neo4j.Handler :=
  {| Neo4j.world := Neo4j.world N;
     Neo4j.find_entity_by_name := Neo4j.find_entity_by_name N;
     Neo4j.create_entity_node := Neo4j.create_entity_node N;
     Neo4j.create_relationship := Neo4j.create_relationship N;
     Neo4j.get_related_entities := Neo4j.get_related_entities N;
     Neo4j.search_entities := search |}.

(** A search that answers, with dictionaries that carry [properties]. *)
(** A match whose name the retriever can use: its properties are a dict
    and its name, unless it counts as absent, is a string. *)
Definition named (m : Result) : bool :=
  match r_properties m with
  | Some (Ollama.JObj fields) =>
      match Json.lookup_field "name" fields with
      | Some (Ollama.JStr _) | None => true
      | Some name => negb (Json.truthy name)
      end
  | _ => false
  end.

Definition search_answers (H : Handlers) : Prop :=
  forall (term : string) (limit : Z) (w : world H),
  exists matches w',
    Neo4j.search_entities (neo4j H) term limit w = (Returned matches, w') /\
    Forall (fun m => named m = true) matches.

(** A vector hit whose text the retriever can read: its metadata is
    absent or a dict, and the text in it is absent or a string. *)
Definition has_text (r : Result) : bool :=
  match r_metadata r with
  | None => true
  | Some (Ollama.JObj fields) =>
      match Json.lookup_field "text" fields with
      | Some (Ollama.JStr _) | None => true
      | Some _ => false
      end
  | Some _ => false
  end.

(** A vector store whose first three hits are of this kind whenever it
    answers at all. *)
Definition vector_answers (H : Handlers) : Prop :=
  forall (query : string) (top_k : Z) (w w' : world H)
         (results : list Result),
    search_by_text H query top_k w = (Returned results, w') ->
    Forall (fun r => has_text r = true) (take 3 results).

(** The scripted graph with a vector store that answers: three hits, the
    first with a text, the second with empty metadata, the third without
    the key. *)
Definition wheat_store : Handlers :=
  {| neo4j := neo4j wheat_graph;
     search_by_text := fun _ _ =>
       ret [ vector_hit "c0" (9 # 10) (text_metadata "Wheat and Barley");
             vector_hit "c1" (8 # 10) no_metadata;
             {| r_id := Some "c2"; r_score := Some (7 # 10);
                r_metadata := None; r_labels := None; r_properties := None;
                r_relationship_path := None; r_normalized_score := None;
                r_source := None; r_final_score := None |} ] |}.

(** A vector store that holds a vector without metadata. *)
Definition bare_store : Handlers :=
  {| neo4j := neo4j wheat_graph;
     search_by_text := fun _ _ =>
       ret [ vector_hit "c0" (9 # 10) Ollama.JNull ] |}.

(** A graph in which the node found for a term has a number for a
    name. *)
Definition numbered_graph : Handlers :=
  {| neo4j :=
       {| Neo4j.world := unit;
          Neo4j.find_entity_by_name :=
            Neo4j.find_entity_by_name (neo4j wheat_graph);
          Neo4j.create_entity_node :=
            Neo4j.create_entity_node (neo4j wheat_graph);
          Neo4j.create_relationship :=
            Neo4j.create_relationship (neo4j wheat_graph);
          Neo4j.get_related_entities :=
            Neo4j.get_related_entities (neo4j wheat_graph);
          Neo4j.search_entities := fun _ _ =>
            ret [ graph_hit "7" ["Field"]
                    (Ollama.JObj [("name", Ollama.JNum 7)]) [] ]
       |};
     search_by_text := fun _ _ => raise "PineconeException" |}.

End Retriever.

(* ===================================================================== *)
(** * Vector store handler, the write path                                *)
(* ===================================================================== *)

Module VectorWrite.
Import Py.
Local Open Scope py_scope.

(** [upsert_document_chunks] writes into the metadata dictionaries it is
    handed, and may be handed the same dictionary twice; a vector
    therefore holds a reference to its metadata. *)
Record Vector : Type := {
  vec_id : string;
  values : list Q;
  metadata : nat
}.

(** The metadata dictionaries: what each reference holds, and the next
    reference that is free. *)
Record Dicts : Type := {
  dict_at : nat -> gmap string string;
  next_ref : nat
}.

(** [self.index.upsert(vectors=...).upserted_count]; the index sees each
    vector with the content its metadata has at the time of the call. *)
Record Index : Type := {
  world : Type;
  index_upsert :
    list (string * list Q * gmap string string) -> M world Z
}.

Definition State (I : Index) : Type := (Dicts * world I)%type.

(** [{}] *)
Definition new_dict {I : Index} : M (State I) nat :=
  fun st =>
    let d := fst st in
    (Returned (next_ref d),
     ({| dict_at := fun r => if Nat.eqb r (next_ref d) then ∅ else dict_at d r;
         next_ref := S (next_ref d) |}, snd st)).

(** [d[k] = v] *)
Definition setitem {I : Index} (r : nat) (k v : string) : M (State I) unit :=
  fun st =>
    let d := fst st in
    (Returned tt,
     ({| dict_at := fun r' => if Nat.eqb r' r then <[k := v]> (dict_at d r)
                              else dict_at d r';
         next_ref := next_ref d |}, snd st)).

(** What the index is sent for a list of vectors. *)
Definition payload (d : Dicts) (vectors : list Vector)
    : list (string * list Q * gmap string string) :=
  map (fun v => (vec_id v, values v, dict_at d (metadata v))) vectors.

(** [upsert_vectors]; the result is the [upserted_count]. *)
Definition upsert_vectors (I : Index) (vectors : list Vector)
    : M (State I) Z :=
  try_except
    (fun st =>
       let (o, w') := index_upsert I (payload (fst st) vectors) (snd st) in
       (o, (fst st, w')))
    (fun _ => ret 0).

(** [chunk.get("id", f"chunk_{i}")] *)
Definition chunk_id (chunk : gmap string string) (i : nat) : string :=
  default ("chunk_" ++ str_of_Z (Z.of_nat i)) (chunk !! "id").

(** One turn of the loop; the accumulator is [vectors] with the counter
    of [enumerate]. *)
Definition vector_step {I : Index} (metadata_list : option (list nat))
    (acc : list Vector * nat) (pair : gmap string string * list Q)
    : M (State I) (list Vector * nat) :=
  let (vectors, i) := acc in
  let (chunk, embedding) := pair in
  let* meta :=
    match default [] metadata_list !! i with
    | Some r => ret r
    | None => new_dict
    end in
  let* _ := setitem meta "text" (default "" (chunk !! "text")) in
  let* _ := setitem meta "chunk_id" (chunk_id chunk i) in
  ret ((vectors ++ [ {| vec_id := chunk_id chunk i;
                        values := embedding;
                        metadata := meta |} ])%list, S i).

(** [upsert_document_chunks] *)
Definition upsert_document_chunks (I : Index)
    (chunks : list (gmap string string)) (embeddings : list (list Q))
    (metadata_list : option (list nat)) : M (State I) Z :=
  if negb (Nat.eqb (List.length chunks) (List.length embeddings))
  then raise "ValueError"
  else
    let* acc :=
      for_each (vector_step metadata_list) ([], O)
        (combine chunks embeddings) in
    upsert_vectors I (fst acc).

(** An index that keeps what it is sent. *)
Definition recording : Index :=
  {| world := list (string * list Q * gmap string string);
     index_upsert := fun sent stored =>
       (Returned (Z.of_nat (List.length sent)), (stored ++ sent)%list) |}.

Definition no_dicts : Dicts := {| dict_at := fun _ => ∅; next_ref := O |}.

(** What the loop body leaves in a dictionary that held [base]. *)
Definition stamped (base chunk : gmap string string) (i : nat)
    : gmap string string :=
  <["chunk_id" := chunk_id chunk i]>
    (<["text" := default "" (chunk !! "text")]> base).

(** The dictionary [metadata_list[i]] of the store [d], or [{}]. *)
Definition given (d : Dicts) (metadata_list : option (list nat)) (i : nat)
    : gmap string string :=
  match default [] metadata_list !! i with
  | Some r => dict_at d r
  | None => ∅
  end.

(** The vectors for the chunks numbered from [i] on, when no two of them
    share a dictionary. *)
Fixpoint sent_from (d : Dicts) (metadata_list : option (list nat)) (i : nat)
    (pairs : list (gmap string string * list Q))
    : list (string * list Q * gmap string string) :=
  match pairs with
  | [] => []
  | (chunk, embedding) :: rest =>
      (chunk_id chunk i, embedding, stamped (given d metadata_list i) chunk i)
      :: sent_from d metadata_list (S i) rest
  end.


(** Two dictionaries as [ingest_documents] prepares them, the text cut
    short. *)
Definition truncated_metadata : Dicts :=
  {| dict_at := fun r =>
       match r with
       | O => {[ "doc_id" := "report"; "text" := "Wheat" ]}
       | _ => {[ "doc_id" := "report"; "text" := "Barle" ]}
       end;
     next_ref := 2 |}.

End VectorWrite.

(* ===================================================================== *)
(** * Entity extractor ([extractors/entity_extractor.py])                 *)
(* ===================================================================== *)

Module Extractor.
Import Py.
Import Ollama.
Import Json.
Local Open Scope py_scope.

(** [for x in items: x["source_chunk"] = chunk_id], as the items it
    leaves. *)
Fixpoint tag_all (chunk_id : string) (items : list json)
    : outcome (list json) :=
  match items with
  | [] => Returned []
  | x :: rest =>
      and_then (jset x "source_chunk" (JStr chunk_id)) (fun x' =>
      and_then (tag_all chunk_id rest) (fun rest' =>
      Returned (x' :: rest')))
  end.

(** [for x in result.get(field, []): x["source_chunk"] = chunk_id].  The
    items of a list are changed in place, so [result] holds them
    afterwards; keys and characters are strings and cannot be written
    to. *)
Definition tag_field (chunk_id field : string) (result : json)
    : outcome json :=
  and_then (jget result field (JArr [])) (fun v =>
  and_then (iterate v) (fun items =>
  and_then (tag_all chunk_id items) (fun items' =>
  match result, v with
  | JObj fields, JArr _ =>
      match lookup_field field fields with
      | Some _ => Returned (JObj (set_field field (JArr items') fields))
      | None => Returned result
      end
  | _, _ => Returned result
  end))).

(** [if chunk_id:] on an [Optional[str]]. *)
Definition truthy_id (chunk_id : option string) : bool :=
  match chunk_id with
  | Some i => truthy_str i
  | None => false
  end.

(** [extract_from_text] *)
Definition extract_from_text (B : Backend) (h : OllamaHandler)
    (text : string) (chunk_id : option string) : M (world B) json :=
  let* result := extract_entities B h text in
  if truthy_id chunk_id then
    lift (and_then (tag_field (default "" chunk_id) "entities" result)
            (tag_field (default "" chunk_id) "relationships"))
  else ret result.

(** [chunk.get("id")] as a JSON value. *)
Definition id_value (chunk_id : option string) : json :=
  match chunk_id with
  | Some i => JStr i
  | None => JNull
  end.

(** [not text.strip()] for the text of a chunk. *)
Definition blank (chunk : gmap string string) : bool :=
  negb (truthy_str (strip (GraphBuilder.get chunk "text" ""))).

(** One turn of the loop of [extract_from_chunks]. *)
Definition chunk_step (B : Backend) (h : OllamaHandler)
    (results : list json) (chunk : gmap string string)
    : M (world B) (list json) :=
  let chunk_id := chunk !! "id" in
  let text := GraphBuilder.get chunk "text" "" in
  if negb (truthy_str (strip text)) then ret results
  else
    try_except
      (let* result := extract_from_text B h text chunk_id in
       let* result := lift (jset result "chunk_id" (id_value chunk_id)) in
       ret (results ++ [result])%list)
      (fun _ => ret results).

(** [extract_from_chunks] *)
Definition extract_from_chunks (B : Backend) (h : OllamaHandler)
    (chunks : list (gmap string string)) : M (world B) (list json) :=
  for_each (chunk_step B h) [] chunks.

(** An item that carries [source_chunk = chunk_id]. *)
Definition tagged (chunk_id : string) (x : json) : Prop :=
  exists fs, x = JObj fs /\
             lookup_field "source_chunk" fs = Some (JStr chunk_id).

(** Whatever a loop over [fields[field]] visits is tagged. *)
Definition field_tagged (chunk_id : string) (fields : list (string * json))
    (field : string) : Prop :=
  forall v, lookup_field field fields = Some v ->
    exists items, iterate v = Returned items /\
                  List.Forall (tagged chunk_id) items.

(** A model server whose every answer is read as one entity and one
    relationship. *)
Definition rust_extraction : json :=
  JObj [("entities", JArr [JObj [("name", JStr "Rust")]]);
        ("relationships",
         JArr [JObj [("from", JStr "Rust"); ("to", JStr "Wheat");
                     ("type", JStr "AFFECTS")]])].

Definition rust_backend : Backend :=
  {| world := nat;
     chat := fun _ _ _ calls => (Returned "{}", S calls);
     json_loads := fun _ => Returned rust_extraction |}.

(** The result of one chunk: a dict that carries the chunk's id, and whose
    entities and relationships carry it when it is not empty. *)
Definition carries (chunk : gmap string string) (r : json) : Prop :=
  exists fields,
    r = JObj fields /\
    lookup_field "chunk_id" fields = Some (id_value (chunk !! "id")) /\
    (truthy_id (chunk !! "id") = true ->
     field_tagged (default "" (chunk !! "id")) fields "entities" /\
     field_tagged (default "" (chunk !! "id")) fields "relationships").

(** ** [merge_extractions] *)

(** The function keeps the first dictionary of every name and writes the
    merged description into it: the entity dictionaries are objects in a
    store, and an extraction lists references to them.  Relationship
    dictionaries are only read. *)
Definition Store : Type := nat -> gmap string string.

Definition store_set (s : Store) (r : nat) (d : gmap string string)
    : Store :=
  fun r' => if Nat.eqb r' r then d else s r'.

Record Extraction : Type := {
  entities : option (list nat);
  relationships : option (list (gmap string string))
}.

(** [merged_entities[name]], a dict in insertion order. *)
Fixpoint find_name (name : string) (merged : list (string * nat))
    : option nat :=
  match merged with
  | [] => None
  | (n, r) :: rest => if String.eqb n name then Some r else find_name name rest
  end.

(** The body of the loop over the entities of one extraction. *)
Definition merge_entity (acc : list (string * nat) * Store) (e : nat)
    : list (string * nat) * Store :=
  let (merged, s) := acc in
  let name := lower (GraphBuilder.get (s e) "name" "") in
  if truthy_str name && negb (bool_decide (is_Some (find_name name merged)))
  then ((merged ++ [(name, e)])%list, s)
  else if truthy_str name then
    match find_name name merged with
    | Some existing =>
        let new_desc := GraphBuilder.get (s e) "description" "" in
        if truthy_str new_desc
           && negb (contains new_desc
                      (GraphBuilder.get (s existing) "description" ""))
        then (merged,
              store_set s existing
                (<["description" :=
                     strip (GraphBuilder.get (s existing) "description" ""
                            ++ " " ++ new_desc)]> (s existing)))
        else (merged, s)
    | None => (merged, s)
    end
  else (merged, s).

(** The body of the loop over the extractions. *)
Definition merge_one
    (acc : list (string * nat) * Store * list (gmap string string))
    (extraction : Extraction)
    : list (string * nat) * Store * list (gmap string string) :=
  let '(merged, s, merged_relationships) := acc in
  let (merged', s') :=
    fold_left merge_entity (default [] (entities extraction)) (merged, s) in
  (merged', s',
   (merged_relationships ++ default [] (relationships extraction))%list).

Definition rel_key (rel : gmap string string) : string * string * string :=
  (lower (GraphBuilder.get rel "from" ""),
   lower (GraphBuilder.get rel "to" ""),
   GraphBuilder.get rel "type" "").

(** The body of the loop that removes duplicate relationships. *)
Definition keep_unique
    (acc : list (gmap string string) * gset (string * string * string))
    (rel : gmap string string)
    : list (gmap string string) * gset (string * string * string) :=
  let (unique_rels, seen_rels) := acc in
  if bool_decide (rel_key rel ∈ seen_rels) then acc
  else ((unique_rels ++ [rel])%list, seen_rels ∪ {[ rel_key rel ]}).

(** [merge_extractions]: the entities and relationships returned, and the
    store it leaves. *)
Definition merge_extractions (extractions : list Extraction) (s : Store)
    : list nat * list (gmap string string) * Store :=
  let '(merged, s', merged_relationships) :=
    fold_left merge_one extractions ([], s, []) in
  let unique_rels :=
    fst (fold_left keep_unique merged_relationships ([], ∅)) in
  (map snd merged, unique_rels, s').




(** Three mentions of two entities, and a repeated relationship. *)
Definition mentions : Store :=
  fun r =>
    match r with
    | O => {[ "name" := "Rust"; "description" := "A fungus." ]}
    | S O => {[ "name" := "Wheat" ]}
    | _ => {[ "name" := "rust"; "description" := "Spreads by spores." ]}
    end.

Definition two_extractions : list Extraction :=
  [ {| entities := Some [0; 1]%nat;
       relationships :=
         Some [ {[ "from" := "Rust"; "to" := "Wheat"; "type" := "AFFECTS" ]} ]
    |};
    {| entities := Some [2]%nat;
       relationships :=
         Some [ {[ "from" := "rust"; "to" := "wheat"; "type" := "AFFECTS" ]} ]
    |} ].

End Extractor.

(* ===================================================================== *)
(** * Orchestrator ([graph_rag.py]) and answer synthesis                   *)
(* ===================================================================== *)

Module GraphRAG.
Import Py.
Local Open Scope py_scope.

(** ** [OllamaHandler.synthesize_answer] ([handlers/ollama_handler.py]) *)

(** The values that the f-strings of [synthesize_answer] format are
    whatever the stores hold.  A string is shown as it is; how Python
    prints a value of another type ([None], a number, a list) is left to
    [str], which the functions below take as an argument. *)
Definition format (str : Ollama.json -> string) (v : Ollama.json) : string :=
  match v with
  | Ollama.JStr s => s
  | _ => str v
  end.

(** [r.get('metadata', {}).get('text', '')] *)
Definition document_text (r : Result) : outcome Ollama.json :=
  Json.jget (default (Ollama.JObj []) (r_metadata r)) "text" (Ollama.JStr "").

(** The three things shown of a graph result: the name, the labels and
    the description. *)
Definition entity_name (r : Result) : outcome Ollama.json :=
  Json.jget (default (Ollama.JObj []) (r_properties r)) "name"
    (Ollama.JStr "Unknown").

Definition entity_labels (r : Result) : list string :=
  default [] (r_labels r).

Definition entity_description (r : Result) : outcome Ollama.json :=
  Json.jget (default (Ollama.JObj []) (r_properties r)) "description"
    (Ollama.JStr "No description").

(** [[f"Document {i+1}: ..." for i, r in enumerate(results)]], with [i]
    counting from [i0]. *)
Fixpoint document_lines (str : Ollama.json -> string) (i0 : Z)
    (results : list Result) : outcome (list string) :=
  match results with
  | [] => Returned []
  | r :: rest =>
      Json.and_then (document_text r) (fun text =>
      Json.and_then (document_lines str (i0 + 1) rest) (fun lines =>
      Returned (("Document " ++ str_of_Z (i0 + 1) ++ ": " ++ format str text)
                :: lines)))
  end.

Definition entity_lines (str : Ollama.json -> string) (r : Result)
    : outcome string :=
  Json.and_then (entity_name r) (fun name =>
  Json.and_then (entity_description r) (fun description =>
  Returned ("Related Entity: " ++ format str name ++ " "
            ++ "(" ++ join ", " (entity_labels r) ++ ")" ++ Ollama.nl
            ++ "Description: " ++ format str description))).

(** [[... for r in results]] *)
Fixpoint all_entity_lines (str : Ollama.json -> string)
    (results : list Result) : outcome (list string) :=
  match results with
  | [] => Returned []
  | r :: rest =>
      Json.and_then (entity_lines str r) (fun line =>
      Json.and_then (all_entity_lines str rest) (fun lines =>
      Returned (line :: lines)))
  end.

Definition synthesis_system_prompt : string :=
  "You are an expert agricultural assistant with access to both document knowledge and structured knowledge graph."
  ++ Ollama.nl ++ Ollama.nl ++
  "Use the provided context from both sources to answer the question comprehensively."
  ++ Ollama.nl ++
  "Mention specific entities and relationships when relevant."
  ++ Ollama.nl ++
  "If the context doesn't contain enough information, say so.".

Definition synthesis_prompt (question vector_context graph_context : string)
    : string :=
  "Document Context:" ++ Ollama.nl ++ vector_context
  ++ Ollama.nl ++ Ollama.nl ++
  "Knowledge Graph Context:" ++ Ollama.nl ++ graph_context
  ++ Ollama.nl ++ Ollama.nl ++
  "Question: " ++ question ++ Ollama.nl ++ Ollama.nl ++
  "Provide a comprehensive answer:".

(** [synthesize_answer] *)
Definition synthesize_answer (B : Ollama.Backend) (h : Ollama.OllamaHandler)
    (str : Ollama.json -> string) (question : string)
    (vector_results graph_results : list Result)
    : M (Ollama.world B) string :=
  let* document_lines :=
    lift (document_lines str 0 (take 3 vector_results)) in
  let vector_context := join (Ollama.nl ++ Ollama.nl) document_lines in
  let* entity_lines :=
    lift (all_entity_lines str (take 5 graph_results)) in
  let graph_context := join (Ollama.nl ++ Ollama.nl) entity_lines in
  let system_prompt := synthesis_system_prompt in
  let prompt := synthesis_prompt question vector_context graph_context in
  Ollama.generate B h prompt (Some system_prompt) (7 # 10) None.

(** ** [GraphRAG] *)

(** The parts of the system that [query] and [chat] use: the retriever
    with its two stores, and the model. *)
Record System : Type := {
  retriever : Retriever.Handlers;
  backend : Ollama.Backend;
  llm : Ollama.OllamaHandler;
  str : Ollama.json -> string
}.

Definition State (S : System) : Type :=
  (Retriever.world (retriever S) * Ollama.world (backend S))%type.

Definition on_stores {S : System} {A : Type}
    (m : M (Retriever.world (retriever S)) A) : M (State S) A :=
  fun st => let (o, w') := m (fst st) in (o, (w', snd st)).

Definition on_model {S : System} {A : Type}
    (m : M (Ollama.world (backend S)) A) : M (State S) A :=
  fun st => let (o, w') := m (snd st) in (o, (fst st, w')).

(** What [query] returns: the answer, with the two result lists when
    [return_context] is set. *)
Inductive Answer : Type :=
| Plain (answer : string)
| WithContext (answer : string) (vector_results graph_results : list Result).

(** [query] *)
Definition query (S : System) (question : string)
    (top_k_vector top_k_graph : Z) (return_context : bool)
    : M (State S) Answer :=
  let* results :=
    on_stores
      (Retriever.retrieve (retriever S) question top_k_vector top_k_graph 2)
    in
  let* answer :=
    on_model
      (synthesize_answer (backend S) (llm S) (str S) question
         (fst results) (snd results)) in
  if return_context then ret (WithContext answer (fst results) (snd results))
  else ret (Plain answer).

(** [msg.get("role") == "user"] *)
Definition from_user (msg : gmap string string) : bool :=
  bool_decide (msg !! "role" = Some "user").

(** The loop that collects [query_context]. *)
Definition query_context
    (conversation_history : option (list (gmap string string)))
    : list string :=
  match conversation_history with
  | Some ((_ :: _) as history) =>
      map (fun msg => GraphBuilder.get msg "content" "")
        (List.filter from_user (from_index (-3) history))
  | _ => []
  end.

(** [chat] *)
Definition chat (S : System) (question : string)
    (conversation_history : option (list (gmap string string)))
    : M (State S) string :=
  let context := query_context conversation_history in
  let* result :=
    on_stores
      (Retriever.retrieve_with_context (retriever S) question
         (Some context) 5 10) in
  on_model
    (synthesize_answer (backend S) (llm S) (str S) question
       (Retriever.context_vector_results result)
       (Retriever.context_graph_results result)).

(** A conversation of five messages. *)
Definition conversation : list (gmap string string) :=
  [ {[ "role" := "user"; "content" := "What is rust?" ]};
    {[ "role" := "assistant"; "content" := "A fungal disease." ]};
    {[ "role" := "user"; "content" := "Which crops?" ]};
    {[ "role" := "assistant"; "content" := "Wheat and barley." ]};
    {[ "role" := "user"; "content" := "How is it treated?" ]} ].

(** The messages of a history that [chat] ends up using: of the last
    three, those from the user, and of these the last two. *)
Definition recent_user_messages (history : list (gmap string string))
    : list (gmap string string) :=
  from_index (-2) (List.filter from_user (from_index (-3) history)).

(** What [synthesize_answer] shows of a graph result. *)
Definition entity_view (r : Result)
    : outcome Ollama.json * list string * outcome Ollama.json :=
  (entity_name r, entity_labels r, entity_description r).

(** Results that differ in ids and scores, and after the third. *)
Definition shown_hits : list Result :=
  [ vector_hit "report_chunk_0" (9 # 10) (text_metadata "Rust affects wheat.");
    vector_hit "report_chunk_1" (8 # 10) (text_metadata "Barley.");
    vector_hit "report_chunk_2" (7 # 10) (text_metadata "Fungicides.");
    vector_hit "report_chunk_3" (6 # 10) (text_metadata "Storage.") ].

Definition other_hits : list Result :=
  [ vector_hit "a" (1 # 10)
      (Ollama.JObj [("doc_id", Ollama.JStr "x");
                    ("text", Ollama.JStr "Rust affects wheat.")]);
    vector_hit "b" (1 # 10) (text_metadata "Barley.");
    vector_hit "c" (1 # 10) (text_metadata "Fungicides.") ].

Definition shown_entities : list Result :=
  [ graph_hit "4:1" ["Disease"] (Ollama.JObj [("name", Ollama.JStr "Rust")])
      ["AFFECTS"] ].

Definition other_entities : list Result :=
  [ graph_hit "4:9" ["Disease"]
      (Ollama.JObj [("id", Ollama.JStr "r"); ("name", Ollama.JStr "Rust")])
      ["TREATS"; "AFFECTS"] ].

(** A rendering of the values that are not strings, for running the
    code: it is not asked for in the runs below. *)
Definition unprinted (v : Ollama.json) : string := "".

End GraphRAG.

(* ===================================================================== *)
(** * Properties                                                          *)
(* ===================================================================== *)

Example py_slice_neg : Py.slice "abcdef" (-2) 6 = "ef".
Proof. reflexivity. Qed.

Example py_rfind_window : Py.rfind_in "." "a.b.c" 0 3 = 1.
Proof. reflexivity. Qed.

Example py_rfind_empty_window : Py.rfind_in "." "a.b.c" (-1) 3 = -1.
Proof. reflexivity. Qed.

Example py_split_ws : Py.split "  Wheat rust
 x " = ["Wheat"; "rust"; "x"].
Proof. reflexivity. Qed.

Example py_strip_both : Py.strip "  a b  " = "a b".
Proof. reflexivity. Qed.

Example py_upper_replace :
  Py.replace " " "_" (Py.upper (Py.strip "affects crop")) = "AFFECTS_CROP".
Proof. reflexivity. Qed.

Example py_take_neg : Py.take (-1) [1; 2; 3] = [1; 2].
Proof. reflexivity. Qed.

(** ** Document chunker *)

Example chunk_text_short :
  option_map (map Chunker.text)
    (Chunker.chunk_text 5 Chunker.default_chunker "  One. Two.  " (Some "d"))
  = Some ["One. Two."].
Proof. vm_compute. reflexivity. Qed.

Lemma stuck_text_len : Py.len Chunker.stuck_text = 1001.
Proof. vm_compute. reflexivity. Qed.

Lemma stuck_window_end :
  Chunker.window_end Chunker.default_chunker Chunker.stuck_text 0 = 200.
Proof. vm_compute. reflexivity. Qed.

Lemma stuck_step_start (doc : option string) (st : Chunker.LoopState) :
  Chunker.start st = 0 ->
  Chunker.start
    (Chunker.chunk_step Chunker.default_chunker Chunker.stuck_text doc st) = 0.
Proof.
  intros H0. unfold Chunker.chunk_step. rewrite H0, stuck_window_end, stuck_text_len.
  change (200 <? 1001) with true. cbv iota.
  destruct (Py.truthy_str _); reflexivity.
Qed.

Lemma stuck_loop (fuel : nat) (doc : option string) :
  forall st, Chunker.start st = 0 ->
    Chunker.chunk_loop fuel Chunker.default_chunker Chunker.stuck_text doc st
    = None.
Proof.
  induction fuel as [|fuel IH]; intros st H0; simpl;
    rewrite H0, stuck_text_len; change (0 <? 1001) with true; cbv iota.
  - reflexivity.
  - apply IH, stuck_step_start, H0.
Qed.

(** C9.  [chunk_text] with [chunk_size = 1000], [chunk_overlap = 200] does
    not terminate on ["x"*199 + "." + "x"*801]: the only sentence end of the
    first window is at index 199, the window is pulled back to [0, 200), and
    the next start is [200 - 200 = 0] again.  Whatever the number of
    iterations allowed, the loop is still running. *)
Theorem chunk_text_diverges_on_stuck_text :
  forall (fuel : nat) (doc : option string),
    Chunker.chunk_text fuel Chunker.default_chunker Chunker.stuck_text doc
    = None.
Proof.
  intros fuel doc. unfold Chunker.chunk_text. apply stuck_loop. reflexivity.
Qed.

(** ** Python built-ins: [find], [rfind] and slices *)

Section FindFacts.
Variable c : ascii.

Lemma absent_tail (a : ascii) (s : string) :
  Py.absent c (String a s) -> a <> c /\ Py.absent c s.
Proof.
  intros H; split.
  - intros ->. exact (H O eq_refl).
  - intros k. exact (H (S k)).
Qed.

Lemma find_scan_absent (s : string) :
  forall i, Py.absent c s -> Py.find_scan c s i = -1.
Proof.
  induction s as [|a s IH]; intros i H; simpl; [reflexivity|].
  apply absent_tail in H as [Hne Habs].
  destruct (Ascii.eqb_spec a c) as [->|_]; [contradiction|].
  apply IH, Habs.
Qed.

Lemma find_scan_first (s : string) :
  forall i n, Py.first_index c s n ->
    Py.find_scan c s i = i + Z.of_nat n.
Proof.
  induction s as [|a s IH]; intros i n [Hget Hbefore].
  - destruct n; discriminate Hget.
  - simpl. destruct n as [|n].
    + simpl in Hget. injection Hget as ->.
      rewrite Ascii.eqb_refl. lia.
    + destruct (Ascii.eqb_spec a c) as [->|_].
      * exfalso. apply (Hbefore O); [lia | reflexivity].
      * rewrite (IH (i + 1) n); [lia|].
        split; [exact Hget|].
        intros k Hk. apply (Hbefore (S k)). lia.
Qed.

Lemma rfind_scan_absent (s : string) :
  forall i lo hi last, Py.absent c s ->
    Py.rfind_scan c s i lo hi last = last.
Proof.
  induction s as [|a s IH]; intros i lo hi last H; simpl; [reflexivity|].
  apply absent_tail in H as [Hne Habs].
  rewrite IH by exact Habs.
  destruct (Ascii.eqb_spec a c) as [->|_]; [contradiction|].
  now rewrite andb_false_r.
Qed.

Lemma rfind_scan_last (s : string) :
  forall i lo hi last n,
    lo <= i -> i + Py.len s <= hi ->
    Py.last_index c s n ->
    Py.rfind_scan c s i lo hi last = i + Z.of_nat n.
Proof.
  unfold Py.len.
  induction s as [|a s IH]; intros i lo hi last n Hlo Hhi [Hget Hafter].
  - destruct n; discriminate Hget.
  - simpl String.length in Hhi. simpl. destruct n as [|n].
    + simpl in Hget. injection Hget as ->.
      rewrite rfind_scan_absent.
      * rewrite Ascii.eqb_refl.
        replace (lo <=? i) with true by (symmetry; apply Z.leb_le; lia).
        replace (i <? hi) with true by (symmetry; apply Z.ltb_lt; lia).
        simpl. lia.
      * intros k. apply (Hafter (S k)). lia.
    + rewrite (IH (i + 1) lo hi _ n); try lia.
      split; [exact Hget|].
      intros k Hk. apply (Hafter (S k)). lia.
Qed.

End FindFacts.

Lemma adjust_zero (n : Z) : 0 <= n -> Py.adjust n 0 = 0.
Proof. intros H. unfold Py.adjust. simpl. lia. Qed.

Lemma adjust_inside (n i : Z) : 0 <= i <= n -> Py.adjust n i = i.
Proof.
  intros H. unfold Py.adjust.
  destruct (Z.ltb_spec i 0); lia.
Qed.

Lemma adjust_inside' (n i : Z) :
  0 <= i -> 0 <= n -> Py.adjust n i = Z.min i n.
Proof.
  intros Hi Hn. unfold Py.adjust.
  destruct (Z.ltb_spec i 0); lia.
Qed.

Lemma len_nonneg (s : string) : 0 <= Py.len s.
Proof. unfold Py.len. lia. Qed.

Lemma find_first (c : ascii) (s : string) (n : nat) :
  Py.first_index c s n -> Py.find c s = Z.of_nat n.
Proof. intros H. unfold Py.find. now rewrite (find_scan_first c s 0 n H). Qed.

Lemma find_absent (c : ascii) (s : string) :
  Py.absent c s -> Py.find c s = -1.
Proof. intros H. now apply find_scan_absent. Qed.

Lemma rfind_last (c : ascii) (s : string) (n : nat) :
  Py.last_index c s n -> Py.rfind c s = Z.of_nat n.
Proof.
  intros H. unfold Py.rfind, Py.rfind_in.
  rewrite adjust_zero, adjust_inside by (pose proof (len_nonneg s); lia).
  rewrite (rfind_scan_last c s 0 0 (Py.len s) (-1) n); try lia. exact H.
Qed.

Lemma rfind_absent (c : ascii) (s : string) :
  Py.absent c s -> Py.rfind c s = -1.
Proof. intros H. unfold Py.rfind, Py.rfind_in. now apply rfind_scan_absent. Qed.

Lemma get_lt_length (s : string) :
  forall (n : nat) (a : ascii),
    String.get n s = Some a -> (n < String.length s)%nat.
Proof.
  induction s as [|b s IH]; intros n a H.
  - destruct n; discriminate H.
  - destruct n as [|n]; simpl in *; [lia|]. apply IH in H. lia.
Qed.

(** [s[i:j+1]] for positions [i <= j] inside [s] is the substring that
    starts at [i] and has [j - i + 1] characters. *)
Lemma slice_inside (s : string) (i j : nat) :
  (i <= j)%nat -> (j < String.length s)%nat ->
  Py.slice s (Z.of_nat i) (Z.of_nat j + 1) = substring i (j - i + 1) s.
Proof.
  intros Hij Hj. unfold Py.slice, Py.len.
  rewrite !adjust_inside by lia.
  replace (Z.of_nat i <? Z.of_nat j + 1) with true
    by (symmetry; apply Z.ltb_lt; lia).
  f_equal; lia.
Qed.

(** ** LLM handler *)

Section OllamaFacts.
Variable B : Ollama.Backend.
Variable h : Ollama.OllamaHandler.

(** [generate] swallows every failure of the chat call. *)
Lemma generate_returns (prompt : string) (sp : option string) (temp : Q)
    (max_tokens : option Z) (w : Ollama.world B) :
  exists (r : string) (w' : Ollama.world B),
    Ollama.generate B h prompt sp temp max_tokens w = (Py.Returned r, w').
Proof.
  unfold Ollama.generate, Py.try_except.
  destruct (Ollama.chat B _ _ _ w) as [[r|exn] w']; eauto.
Qed.

(** Parsing does not touch the world, and a parse error is the only way
    it can raise. *)
Lemma parse_response_cases (response : string) (w : Ollama.world B) :
  Ollama.parse_response B response w =
    (if (Py.find "{" response >=? 0)
        && (Py.rfind "}" response + 1 >? Py.find "{" response)
     then Ollama.json_loads B
            (Py.slice response (Py.find "{" response)
               (Py.rfind "}" response + 1))
     else Py.Returned Ollama.empty_extraction, w).
Proof.
  unfold Ollama.parse_response.
  destruct (_ && _); reflexivity.
Qed.

Lemma extract_entities_unfold (text : string) (w : Ollama.world B)
    (response : string) (w' : Ollama.world B) :
  Ollama.generate B h (Ollama.extraction_prompt text)
    (Some Ollama.extraction_system_prompt) (3 # 10) None w
    = (Py.Returned response, w') ->
  Ollama.extract_entities B h text w =
    (Py.Returned
       match fst (Ollama.parse_response B response w') with
       | Py.Returned parsed => parsed
       | Py.Raised _ => Ollama.empty_extraction
       end, w').
Proof.
  intros Hgen. unfold Ollama.extract_entities, Py.try_except, Py.bind.
  rewrite Hgen, parse_response_cases. simpl.
  destruct (_ && _); [|reflexivity].
  destruct (Ollama.json_loads B _); reflexivity.
Qed.

End OllamaFacts.

(** C7.  [extract_entities] always returns.  With [response] the text that
    [generate] produced: when the first ['{'] is at [i] and the last ['}']
    at [j > i], the result is whatever [json.loads] makes of
    [response[i..j]], or the empty structure when [json.loads] raises; when
    either brace is missing, or the last ['}'] comes before the first
    ['{'], the result is the empty structure. *)
Theorem extract_entities_braces_or_empty
    (B : Ollama.Backend) (h : Ollama.OllamaHandler) (text : string)
    (w : Ollama.world B) :
  exists (response : string) (v : Ollama.json) (w' : Ollama.world B),
    Ollama.generate B h (Ollama.extraction_prompt text)
      (Some Ollama.extraction_system_prompt) (3 # 10) None w
      = (Py.Returned response, w')
    /\ Ollama.extract_entities B h text w = (Py.Returned v, w')
    /\ (forall i j : nat,
          Py.first_index "{" response i ->
          Py.last_index "}" response j ->
          (i < j)%nat ->
          v = match Ollama.json_loads B (substring i (j - i + 1) response) with
              | Py.Returned parsed => parsed
              | Py.Raised _ => Ollama.empty_extraction
              end)
    /\ (Py.absent "{" response \/ Py.absent "}" response \/
        (exists i j : nat,
            Py.first_index "{" response i /\
            Py.last_index "}" response j /\ (j < i)%nat) ->
        v = Ollama.empty_extraction).
Proof.
  destruct (generate_returns B h (Ollama.extraction_prompt text)
              (Some Ollama.extraction_system_prompt) (3 # 10) None w)
    as (response & w' & Hgen).
  exists response. eexists. exists w'.
  split; [exact Hgen|].
  split; [apply extract_entities_unfold, Hgen|].
  rewrite parse_response_cases. cbn [fst].
  split.
  - intros i j Hi Hj Hij.
    rewrite (find_first _ _ _ Hi), (rfind_last _ _ _ Hj).
    replace (Z.of_nat i >=? 0) with true by (symmetry; apply Z.geb_le; lia).
    replace (Z.of_nat j + 1 >? Z.of_nat i) with true
      by (symmetry; apply Z.gtb_lt; lia).
    cbn [andb]. rewrite slice_inside; [reflexivity | lia |].
    destruct Hj as [Hj _]. eapply get_lt_length, Hj.
  - intros [Habs | [Habs | (i & j & Hi & Hj & Hji)]].
    + rewrite (find_absent _ _ Habs). reflexivity.
    + rewrite (rfind_absent _ _ Habs).
      destruct (Z.geb_spec (Py.find "{" response) 0) as [Hge|_];
        [|reflexivity].
      replace (-1 + 1 >? Py.find "{" response) with false
        by (symmetry; rewrite Z.gtb_ltb; apply Z.ltb_ge; lia).
      reflexivity.
    + rewrite (find_first _ _ _ Hi), (rfind_last _ _ _ Hj).
      replace (Z.of_nat j + 1 >? Z.of_nat i) with false
        by (symmetry; rewrite Z.gtb_ltb; apply Z.ltb_ge; lia).
      now rewrite andb_false_r.
Qed.

(** The scenario of the specification: the reply
    [blah {"entities":[],"relationships":[]} blah] has its first ['{'] at 5
    and its last ['}'] at 38, and the handler returns the parsed (empty)
    structure. *)
Lemma extract_entities_blah_scenario :
  Ollama.extract_entities
    (Ollama.scripted (Some ("blah " ++ Ollama.empty_extraction_text ++ " blah")))
    {| Ollama.model := "llama3.1" |} "Wheat rust." tt
  = (Py.Returned Ollama.empty_extraction, tt).
Proof. vm_compute. reflexivity. Qed.

Lemma extract_entities_server_down :
  Ollama.extract_entities (Ollama.scripted None)
    {| Ollama.model := "llama3.1" |} "Wheat rust." tt
  = (Py.Returned Ollama.empty_extraction, tt).
Proof. vm_compute. reflexivity. Qed.

(** ** Embedding provider *)

(** Whatever the endpoint does, [embed_texts] returns. *)
Lemma embed_texts_returns (B : Pinecone.Backend) (e : Pinecone.LlamaEmbedding)
    (texts : list string) (w : Pinecone.world B) :
  exists vs w', Pinecone.embed_texts B e texts w = (Py.Returned vs, w').
Proof.
  unfold Pinecone.embed_texts, Py.try_except, Py.bind.
  destruct (Pinecone.post_embed B _ _ texts w) as [[vs|exn] w']; eauto.
Qed.

(** When the call to the endpoint raises, the result has one vector per
    input, each made of 1024 zeros. *)
Lemma embed_texts_fallback (B : Pinecone.Backend) (e : Pinecone.LlamaEmbedding)
    (texts : list string) (w w' : Pinecone.world B) (exn : string) :
  Pinecone.post_embed B (Pinecone.api_url e) (Pinecone.model e) texts w
    = (Py.Raised exn, w') ->
  exists vs,
    Pinecone.embed_texts B e texts w = (Py.Returned vs, w') /\
    List.length vs = List.length texts /\
    Forall (fun v => v = repeat 0%Q 1024) vs.
Proof.
  intros Hpost. exists (map (fun _ => repeat 0%Q 1024) texts).
  split; [|split].
  - unfold Pinecone.embed_texts, Py.try_except, Py.bind.
    rewrite Hpost. reflexivity.
  - apply length_map.
  - clear Hpost. induction texts as [|t texts IH]; simpl; constructor; auto.
Qed.

(** C8 (amended).  For every list of texts, [embed_texts] returns and
    never raises; and when the call to the endpoint raises, what it
    returns is one vector per text, each made of 1024 zeros.  The length
    is the constant written into [embed_texts]: [LlamaEmbedding] knows of
    no configured dimension. *)
Theorem embed_texts_fallback_is_1024_zeros (B : Pinecone.Backend)
    (e : Pinecone.LlamaEmbedding) (texts : list string)
    (w : Pinecone.world B) :
  (exists vs w', Pinecone.embed_texts B e texts w = (Py.Returned vs, w')) /\
  (forall (exn : string) (w' : Pinecone.world B),
      Pinecone.post_embed B (Pinecone.api_url e) (Pinecone.model e) texts w
        = (Py.Raised exn, w') ->
      Pinecone.embed_texts B e texts w
        = (Py.Returned (map (fun _ => repeat 0%Q 1024) texts), w') /\
      List.length (map (fun _ : string => repeat 0%Q 1024) texts)
        = List.length texts /\
      Forall (fun v => Z.of_nat (List.length v) = 1024)
        (map (fun _ : string => repeat 0%Q 1024) texts)).
Proof.
  split; [apply embed_texts_returns|].
  intros exn w' Hpost. split; [|split].
  - unfold Pinecone.embed_texts, Py.try_except, Py.bind.
    rewrite Hpost. reflexivity.
  - apply length_map.
  - apply Forall_forall. intros v Hv.
    apply list_elem_of_fmap in Hv as (t & -> & _).
    rewrite repeat_length. reflexivity.
Qed.

Lemma embed_texts_fallback_is_1024_zeros_witness :
  Pinecone.embed_texts Pinecone.offline Pinecone.llama
    ["wheat rust"; "barley"] tt
  = (Py.Returned [repeat 0%Q 1024; repeat 0%Q 1024], tt).
Proof.
  apply (proj2 (embed_texts_fallback_is_1024_zeros Pinecone.offline
                  Pinecone.llama ["wheat rust"; "barley"] tt)
           "ConnectionError" tt).
  reflexivity.
Defined.

(** With the endpoint unreachable and a vector store configured for 768
    dimensions, each fallback vector has 1024 entries, not 768. *)
Lemma embed_texts_fallback_is_1024_not_configured :
  exists v : list Q,
    Pinecone.embed_texts Pinecone.offline Pinecone.llama ["wheat rust"] tt
      = (Py.Returned [v], tt) /\
    Z.of_nat (List.length v) = 1024 /\
    Z.of_nat (List.length v)
      <> Pinecone.embedding_dimension Pinecone.handler_768.
Proof.
  exists (repeat 0%Q 1024). split; [reflexivity|].
  rewrite repeat_length. split; [reflexivity|]. discriminate.
Qed.

(** ** Knowledge graph builder *)

Example scenario_affects_crop :
  GraphBuilder.run_on_memory (GraphBuilder.scenario "affects crop")
  = (Py.Returned {| GraphBuilder.entities_created := 0;
                    GraphBuilder.entities_found := 2;
                    GraphBuilder.relationships_created := 1;
                    GraphBuilder.errors := 0 |},
     [("n1", "n0", "AFFECTS_CROP")]).
Proof. vm_compute. reflexivity. Qed.

Section JsonFacts.
Import Ollama.
Import Json.

Lemma lookup_set_field_same (k : string) (x : json) :
  forall fields, lookup_field k (set_field k x fields) = Some x.
Proof.
  induction fields as [|[k' v] rest IH]; cbn.
  - rewrite String.eqb_refl. reflexivity.
  - destruct (String.eqb k' k) eqn:Hk; cbn; rewrite Hk; auto.
Qed.

Lemma lookup_set_field_other (k k' : string) (x : json) :
  k <> k' ->
  forall fields,
    lookup_field k' (set_field k x fields) = lookup_field k' fields.
Proof.
  intros Hne. induction fields as [|[k0 v] rest IH]; cbn.
  - destruct (String.eqb_spec k k'); [contradiction | reflexivity].
  - destruct (String.eqb_spec k0 k) as [->|Hk]; cbn.
    + destruct (String.eqb_spec k k'); [contradiction | reflexivity].
    + destruct (String.eqb k0 k'); [reflexivity | exact IH].
Qed.

End JsonFacts.

Section BuilderFacts.
Import Ollama.
Import Json.
Variable N : Neo4j.Handler.

Lemma for_each_app {W A X : Type} (body : A -> X -> Py.M W A)
    (xs ys : list X) :
  forall (acc : A) (w : W),
    Py.for_each body acc (xs ++ ys)%list w =
    Py.bind (Py.for_each body acc xs)
      (fun acc' => Py.for_each body acc' ys) w.
Proof.
  induction xs as [|x xs IH]; intros acc w; simpl.
  - reflexivity.
  - unfold Py.bind in *.
    destruct (body acc x w) as [[acc'|exn] w']; [apply IH | reflexivity].
Qed.

(** A relation between worlds that every turn respects is respected by
    the loop, whether it returns or raises. *)
Lemma for_each_world {W A X : Type} (body : A -> X -> Py.M W A)
    (R : W -> W -> Prop) :
  (forall w, R w w) ->
  (forall w1 w2 w3, R w1 w2 -> R w2 w3 -> R w1 w3) ->
  (forall acc x w, R w (snd (body acc x w))) ->
  forall (xs : list X) (acc : A) (w : W),
    R w (snd (Py.for_each body acc xs w)).
Proof.
  intros Hrefl Htrans Hbody. induction xs as [|x xs IH]; intros acc w.
  - apply Hrefl.
  - cbn [Py.for_each]. unfold Py.bind.
    pose proof (Hbody acc x w) as Hstep.
    destruct (body acc x w) as [[acc1|exn] w1]; cbn [snd] in *.
    + eapply Htrans; [exact Hstep | apply IH].
    + exact Hstep.
Qed.

(** One item of a loop may be exchanged for another that the body treats
    alike in every world the loop can be in. *)
Lemma for_each_replace {W A X : Type} (body : A -> X -> Py.M W A)
    (I : W -> Prop) (x x' : X) (post : list X) :
  (forall acc y w, I w -> I (snd (body acc y w))) ->
  (forall acc w, I w -> body acc x w = body acc x' w) ->
  forall (pre : list X) (acc : A) (w : W),
    I w ->
    Py.for_each body acc (pre ++ x :: post)%list w =
    Py.for_each body acc (pre ++ x' :: post)%list w.
Proof.
  intros Hkeep Hsame. induction pre as [|y pre IH]; intros acc w Hw.
  - cbn [app Py.for_each]. unfold Py.bind. now rewrite Hsame.
  - cbn [app Py.for_each]. unfold Py.bind.
    pose proof (Hkeep acc y w Hw) as Hstep.
    destruct (body acc y w) as [[acc1|exn] w1]; [|reflexivity].
    now apply IH.
Qed.

(** *** Records with string values *)

Lemma stripped_textual (fields : list (string * json)) (k dflt : string) :
  GraphBuilder.textual fields k = true ->
  GraphBuilder.stripped (JObj fields) k dflt
  = Py.Returned (Py.strip (GraphBuilder.field fields k dflt)).
Proof.
  unfold GraphBuilder.textual, GraphBuilder.stripped, GraphBuilder.field, jget.
  destruct (lookup_field k fields) as [[]|]; cbn; congruence.
Qed.

(** [d.get(k, dflt).strip()] returns only for a dict whose value at [k]
    is a string or absent. *)
Lemma stripped_returns (d : json) (k dflt s : string) :
  GraphBuilder.stripped d k dflt = Py.Returned s ->
  exists fields,
    d = JObj fields /\ GraphBuilder.textual fields k = true /\
    s = Py.strip (GraphBuilder.field fields k dflt).
Proof.
  unfold GraphBuilder.stripped, GraphBuilder.textual, GraphBuilder.field, jget.
  destruct d as [| | | | |fields]; cbn; try discriminate.
  intros Hrun. exists fields. split; [reflexivity|].
  destruct (lookup_field k fields) as [[]|]; cbn in *;
    try discriminate; split; congruence.
Qed.

(** *** Counting entities *)

(** After [_create_or_get_entity] has returned a usable id, the stripped,
    lower-cased name is a key of the cache. *)
Lemma create_or_get_entity_caches (entity : list (string * json))
    (st st' : GraphBuilder.State N) (i : option string) :
  GraphBuilder._create_or_get_entity N (JObj entity) st
    = (Py.Returned i, st') ->
  GraphBuilder.truthy_id i = true ->
  GraphBuilder.textual entity "name" = true /\
  is_Some (fst st' !!
             Py.lower (Py.strip (GraphBuilder.field entity "name" ""))).
Proof.
  unfold GraphBuilder._create_or_get_entity, Py.bind, Py.lift.
  destruct (GraphBuilder.stripped (JObj entity) "name" "") as [name|exn]
    eqn:Hname; [|discriminate].
  apply stripped_returns in Hname as (fields & [= <-] & Htext & ->).
  destruct (GraphBuilder.stripped (JObj entity) "type" "Entity")
    as [entity_type|exn]; [|discriminate].
  cbn [jget].
  destruct (Py.truthy_str (Py.strip _)); cbn [negb].
  - unfold GraphBuilder.get_cache.
    destruct (fst st !! _) as [cached|] eqn:Hhit.
    + intros [= <- <-] _. rewrite Hhit. eauto.
    + cbn [dict_items]. unfold GraphBuilder.neo4j, GraphBuilder.set_cache.
      destruct (Neo4j.get_or_create_entity N _ _ (snd st))
        as [[entity_id|exn] w']; [|discriminate].
      intros [= <- <-] _. cbn [fst]. rewrite lookup_insert_eq. eauto.
  - intros [= <- <-]. discriminate.
Qed.

(** Hence an entity whose name carries no surrounding whitespace is
    counted as found whenever it is counted at all; whether the name was
    cached beforehand plays no part. *)
Lemma entity_step_counts_found (stats : GraphBuilder.Stats)
    (entity : list (string * json)) (st st' : GraphBuilder.State N)
    (i : option string) :
  Py.strip (GraphBuilder.field entity "name" "")
    = GraphBuilder.field entity "name" "" ->
  GraphBuilder._create_or_get_entity N (JObj entity) st
    = (Py.Returned i, st') ->
  GraphBuilder.truthy_id i = true ->
  GraphBuilder.entity_step N stats (JObj entity) st =
    (Py.Returned (GraphBuilder.found stats), st').
Proof.
  intros Hstrip Hrun Hid.
  destruct (create_or_get_entity_caches _ _ _ _ Hrun Hid) as [Htext Hin].
  rewrite Hstrip in Hin.
  unfold GraphBuilder.entity_step, Py.try_except, Py.bind.
  rewrite Hrun, Hid. unfold Py.lift, GraphBuilder.get_cache.
  assert (Hname : and_then (jget (JObj entity) "name" (JStr "")) text
                  = Py.Returned (GraphBuilder.field entity "name" "")).
  { unfold GraphBuilder.textual, GraphBuilder.field, jget in *.
    destruct (lookup_field "name" entity) as [[]|]; cbn;
      try discriminate; reflexivity. }
  rewrite Hname.
  rewrite bool_decide_eq_true_2 by exact Hin. reflexivity.
Qed.

(** *** Relationships *)

Lemma create_relationship_unresolved (rel : list (string * json))
    (st : GraphBuilder.State N) :
  GraphBuilder.textual rel "from" = true ->
  GraphBuilder.textual rel "to" = true ->
  GraphBuilder.textual rel "type" = true ->
  GraphBuilder.unresolved (fst st) rel ->
  GraphBuilder._create_relationship N (JObj rel) st = (Py.Returned false, st).
Proof.
  unfold GraphBuilder.unresolved, GraphBuilder.resolve.
  intros Hfrom Hto Htype Hun. unfold GraphBuilder._create_relationship.
  unfold Py.bind, Py.lift. rewrite !stripped_textual by assumption.
  destruct (negb _); [reflexivity|].
  unfold GraphBuilder.get_cache.
  destruct Hun as [-> | ->]; cbn [negb orb]; [reflexivity|].
  now rewrite orb_true_r.
Qed.

Lemma relationship_step_unresolved (stats : GraphBuilder.Stats)
    (rel : list (string * json)) (st : GraphBuilder.State N) :
  GraphBuilder.textual rel "from" = true ->
  GraphBuilder.textual rel "to" = true ->
  GraphBuilder.textual rel "type" = true ->
  GraphBuilder.unresolved (fst st) rel ->
  GraphBuilder.relationship_step N stats (JObj rel) st
  = (Py.Returned stats, st).
Proof.
  intros Hfrom Hto Htype Hun.
  unfold GraphBuilder.relationship_step, Py.try_except, Py.bind.
  now rewrite create_relationship_unresolved.
Qed.

(** The second pass reads the cache and never writes it. *)
Lemma create_relationship_keeps_cache (rel : json)
    (st : GraphBuilder.State N) :
  fst (snd (GraphBuilder._create_relationship N rel st)) = fst st.
Proof.
  unfold GraphBuilder._create_relationship, Py.bind, Py.lift.
  destruct (GraphBuilder.stripped rel "from" ""); [|reflexivity].
  destruct (GraphBuilder.stripped rel "to" ""); [|reflexivity].
  destruct (GraphBuilder.stripped rel "type" "RELATED_TO"); [|reflexivity].
  destruct (negb _); [reflexivity|].
  unfold GraphBuilder.get_cache.
  destruct (_ || _); [reflexivity|].
  destruct (GraphBuilder.source_properties rel); [|reflexivity].
  unfold GraphBuilder.neo4j.
  now destruct (Neo4j.create_relationship N _ _ _ _ (snd st)).
Qed.

Lemma relationship_step_returns (stats : GraphBuilder.Stats)
    (rel : json) (st : GraphBuilder.State N) :
  exists stats',
    GraphBuilder.relationship_step N stats rel st
    = (Py.Returned stats',
       snd (GraphBuilder._create_relationship N rel st)).
Proof.
  unfold GraphBuilder.relationship_step, Py.try_except, Py.bind.
  destruct (GraphBuilder._create_relationship N rel st) as [[[]|exn] st'];
    eauto.
Qed.

Lemma relationship_step_keeps_cache (stats : GraphBuilder.Stats)
    (rel : json) (st : GraphBuilder.State N) :
  fst (snd (GraphBuilder.relationship_step N stats rel st)) = fst st.
Proof.
  destruct (relationship_step_returns stats rel st) as [stats' ->].
  apply create_relationship_keeps_cache.
Qed.

Lemma relationship_loop_keeps_cache (rels : list json) :
  forall (stats : GraphBuilder.Stats) (st : GraphBuilder.State N),
  exists stats' st',
    Py.for_each (GraphBuilder.relationship_step N) stats rels st
      = (Py.Returned stats', st') /\ fst st' = fst st.
Proof.
  induction rels as [|rel rels IH]; intros stats st; simpl.
  - eauto.
  - unfold Py.bind.
    destruct (relationship_step_returns stats rel st) as [stats1 ->].
    destruct (IH stats1 (snd (GraphBuilder._create_relationship N rel st)))
      as (stats' & st' & -> & Hc).
    exists stats', st'. split; [reflexivity|].
    now rewrite Hc, create_relationship_keeps_cache.
Qed.

(** Dropping an unresolved relationship from the list changes nothing. *)
Lemma relationship_loop_skips (before after : list json)
    (rel : list (string * json)) (stats : GraphBuilder.Stats)
    (st : GraphBuilder.State N) :
  GraphBuilder.textual rel "from" = true ->
  GraphBuilder.textual rel "to" = true ->
  GraphBuilder.textual rel "type" = true ->
  GraphBuilder.unresolved (fst st) rel ->
  Py.for_each (GraphBuilder.relationship_step N) stats
    (before ++ JObj rel :: after)%list st =
  Py.for_each (GraphBuilder.relationship_step N) stats
    (before ++ after)%list st.
Proof.
  intros Hfrom Hto Htype Hun. rewrite !for_each_app. unfold Py.bind.
  destruct (relationship_loop_keeps_cache before stats st)
    as (stats1 & st1 & -> & Hc).
  simpl. unfold Py.bind at 1.
  rewrite relationship_step_unresolved by (assumption || now rewrite Hc).
  reflexivity.
Qed.

(** A turn of the outer loop of the second pass leaves the cache alone,
    whether it returns or raises. *)
Lemma relationships_turn_keeps_cache (stats : GraphBuilder.Stats)
    (extraction : json) (st : GraphBuilder.State N) :
  fst st =
  fst (snd (Py.bind (Py.lift (GraphBuilder.records extraction "relationships"))
              (fun relationships =>
                 Py.for_each (GraphBuilder.relationship_step N) stats
                   relationships) st)).
Proof.
  unfold Py.bind, Py.lift.
  destruct (GraphBuilder.records extraction "relationships")
    as [relationships|exn]; [|reflexivity].
  apply (for_each_world (GraphBuilder.relationship_step N)
           (fun st1 st2 : GraphBuilder.State N => fst st1 = fst st2)).
  - intros w0. reflexivity.
  - intros w1 w2 w3 H12 H23. congruence.
  - intros. symmetry. apply relationship_step_keeps_cache.
Qed.

Lemma records_with_relationships (ex : list (string * json))
    (rels : list json) :
  GraphBuilder.records (GraphBuilder.with_relationships ex rels) "entities"
    = GraphBuilder.records (JObj ex) "entities" /\
  GraphBuilder.records (GraphBuilder.with_relationships ex rels)
    "relationships" = Py.Returned rels.
Proof.
  unfold GraphBuilder.records, GraphBuilder.with_relationships, jget.
  rewrite lookup_set_field_other by discriminate.
  rewrite lookup_set_field_same. split; reflexivity.
Qed.

(** The first pass only looks at the entities. *)
Lemma entities_pass_with_relationships (pre post : list json)
    (ex : list (string * json)) (rels : list json)
    (stats : GraphBuilder.Stats) (st : GraphBuilder.State N) :
  GraphBuilder.entities_pass N stats
    (pre ++ GraphBuilder.with_relationships ex rels :: post)%list st =
  GraphBuilder.entities_pass N stats (pre ++ JObj ex :: post)%list st.
Proof.
  unfold GraphBuilder.entities_pass.
  apply (for_each_replace _ (fun _ => True)); [trivial| |trivial].
  intros acc w _. unfold Py.bind, Py.lift.
  now rewrite (proj1 (records_with_relationships ex rels)).
Qed.

(** The second pass with an unresolved relationship taken out. *)
Lemma relationships_pass_skips (pre post : list json)
    (ex : list (string * json)) (before after : list json)
    (rel : list (string * json)) (stats : GraphBuilder.Stats)
    (st : GraphBuilder.State N) :
  lookup_field "relationships" ex
    = Some (JArr (before ++ JObj rel :: after)) ->
  GraphBuilder.textual rel "from" = true ->
  GraphBuilder.textual rel "to" = true ->
  GraphBuilder.textual rel "type" = true ->
  GraphBuilder.unresolved (fst st) rel ->
  GraphBuilder.relationships_pass N stats (pre ++ JObj ex :: post)%list st =
  GraphBuilder.relationships_pass N stats
    (pre ++ GraphBuilder.with_relationships ex (before ++ after) :: post)%list
    st.
Proof.
  intros Hrels Hfrom Hto Htype Hun. unfold GraphBuilder.relationships_pass.
  apply (for_each_replace _
           (fun st' : GraphBuilder.State N => fst st' = fst st));
    [| |reflexivity].
  - intros acc y w Hw. rewrite <- Hw. symmetry.
    apply relationships_turn_keeps_cache.
  - intros acc w Hw. unfold Py.bind, Py.lift.
    rewrite (proj2 (records_with_relationships ex (before ++ after))).
    unfold GraphBuilder.records, jget. rewrite Hrels. cbn.
    apply relationship_loop_skips; try assumption. now rewrite Hw.
Qed.

End BuilderFacts.

(** C4.  A fresh builder (empty cache, empty graph) that is handed one
    extraction with the single entity [Wheat] reports it as found:
    [entities_found = 1] and [entities_created = 0].  The membership test
    runs after [_create_or_get_entity] has already stored the name. *)
Theorem first_fresh_entity_is_counted_found :
  GraphBuilder.run_on_memory
    [ Ollama.JObj [("entities", Ollama.JArr [GraphBuilder.wheat])] ]
  = (Py.Returned {| GraphBuilder.entities_created := 0;
                    GraphBuilder.entities_found := 1;
                    GraphBuilder.relationships_created := 0;
                    GraphBuilder.errors := 0 |}, []).
Proof. vm_compute. reflexivity. Qed.

(** C5.  In the Wheat / Rust scenario the type ["affects crop"] is stored
    as [AFFECTS_CROP]; with the empty type the relationship is dropped (no
    edge is stored, nothing is counted); and the one-letter type ["a"] is
    stored as [A].  Neither of the last two becomes [RELATED_TO]. *)
Theorem short_relationship_type_has_no_fallback :
  snd (GraphBuilder.run_on_memory (GraphBuilder.scenario "affects crop"))
    = [("n1", "n0", "AFFECTS_CROP")] /\
  GraphBuilder.run_on_memory (GraphBuilder.scenario "")
    = (Py.Returned {| GraphBuilder.entities_created := 0;
                      GraphBuilder.entities_found := 2;
                      GraphBuilder.relationships_created := 0;
                      GraphBuilder.errors := 0 |}, []) /\
  snd (GraphBuilder.run_on_memory (GraphBuilder.scenario "a"))
    = [("n1", "n0", "A")].
Proof. repeat split; vm_compute; reflexivity. Qed.

(** C6 (amended).  Let [rel] be a relationship record whose [from], [to]
    and [type] are strings where they are present, and one of whose
    endpoints has no usable id in the cache left by the first pass.  Its
    turn in the second pass returns the statistics it was given and leaves
    cache and store as they were, and the whole run is the run of the same
    extractions with [rel] removed: same statistics (so neither
    [relationships_created] nor [errors] moved because of it), same final
    cache, same store. *)
Theorem unresolved_relationship_is_skipped
    (N : Neo4j.Handler) (pre post : list Ollama.json)
    (ex : list (string * Ollama.json)) (before after : list Ollama.json)
    (rel : list (string * Ollama.json)) (st : GraphBuilder.State N) :
  Json.lookup_field "relationships" ex
    = Some (Ollama.JArr (before ++ Ollama.JObj rel :: after)) ->
  GraphBuilder.textual rel "from" = true ->
  GraphBuilder.textual rel "to" = true ->
  GraphBuilder.textual rel "type" = true ->
  GraphBuilder.unresolved
    (GraphBuilder.cache_after_entities N (pre ++ Ollama.JObj ex :: post)%list
       st) rel ->
  (forall (stats : GraphBuilder.Stats) (st' : GraphBuilder.State N),
      fst st' = GraphBuilder.cache_after_entities N
                  (pre ++ Ollama.JObj ex :: post)%list st ->
      GraphBuilder.relationship_step N stats (Ollama.JObj rel) st'
      = (Py.Returned stats, st'))
  /\
  GraphBuilder.build_from_extractions N (pre ++ Ollama.JObj ex :: post)%list st
  = GraphBuilder.build_from_extractions N
      (pre ++ GraphBuilder.with_relationships ex (before ++ after) :: post)%list
      st.
Proof.
  intros Hrels Hfrom Hto Htype Hun. split.
  - intros stats st' Hc. apply relationship_step_unresolved; try assumption.
    now rewrite Hc.
  - unfold GraphBuilder.build_from_extractions, Py.bind.
    rewrite entities_pass_with_relationships.
    unfold GraphBuilder.cache_after_entities in Hun.
    destruct (GraphBuilder.entities_pass N GraphBuilder.zero_stats
                (pre ++ Ollama.JObj ex :: post)%list st)
      as [[stats1|exn] st1]; [|reflexivity].
    cbn [snd] in Hun.
    now rewrite (relationships_pass_skips N pre post ex before after rel
                   stats1 st1 Hrels Hfrom Hto Htype Hun).
Qed.

Lemma unresolved_relationship_is_skipped_witness :
  GraphBuilder.build_from_extractions Neo4j.memory
    [Ollama.JObj GraphBuilder.scenario_with_ghost] GraphBuilder.fresh =
  GraphBuilder.build_from_extractions Neo4j.memory
    [GraphBuilder.with_relationships GraphBuilder.scenario_with_ghost
       [GraphBuilder.rust_affects_wheat "affects crop";
        GraphBuilder.rust_affects_wheat "infects"]]
    GraphBuilder.fresh.
Proof.
  refine (proj2 (unresolved_relationship_is_skipped Neo4j.memory [] []
            GraphBuilder.scenario_with_ghost
            [GraphBuilder.rust_affects_wheat "affects crop"]
            [GraphBuilder.rust_affects_wheat "infects"]
            GraphBuilder.ghost_fields GraphBuilder.fresh _ _ _ _ _)).
  - reflexivity.
  - reflexivity.
  - reflexivity.
  - reflexivity.
  - left. vm_compute. reflexivity.
Defined.

(** A relationship from an unknown entity whose type is [null]:
    [relationship.get("type", "RELATED_TO").strip()] raises before the
    cache is consulted, and the failure is counted. *)
Lemma unresolved_relationship_with_null_type_is_an_error :
  GraphBuilder.unresolved
    (GraphBuilder.cache_after_entities Neo4j.memory
       GraphBuilder.scenario_with_null_type GraphBuilder.fresh)
    GraphBuilder.ghost_null_fields /\
  GraphBuilder.run_on_memory GraphBuilder.scenario_with_null_type
  = (Py.Returned {| GraphBuilder.entities_created := 0;
                    GraphBuilder.entities_found := 2;
                    GraphBuilder.relationships_created := 0;
                    GraphBuilder.errors := 1 |}, []).
Proof. split; [left|]; vm_compute; reflexivity. Qed.

(** ** Hybrid retriever *)

Example traversal_wheat :
  option_map (map r_id)
    (match Retriever._graph_traversal Retriever.wheat_graph ["Wheat"] 5 2 tt
     with (Py.Returned out, _) => Some out | _ => None end)
  = Some [Some "a"; Some "b"].
Proof. vm_compute. reflexivity. Qed.

Example retrieve_wheat_5 :
  match Retriever.retrieve_run Retriever.wheat_graph "rust on wheat" 3 5 2 tt
  with
  | (Py.Returned run, _) =>
      Some (List.length (Retriever.traversed run), Retriever.expanded run)
  | _ => None
  end = Some (2%nat, false).
Proof. vm_compute. reflexivity. Qed.

Lemma take_length_le {A : Type} (k : Z) (l : list A) :
  0 <= k -> Z.of_nat (List.length (Py.take k l)) <= k.
Proof.
  intros Hk. unfold Py.take. rewrite length_take.
  rewrite adjust_inside' by lia. lia.
Qed.

Lemma take_NoDup {A B : Type} (f : A -> B) (k : Z) (l : list A) :
  NoDup (f <$> l) -> NoDup (f <$> Py.take k l).
Proof.
  intros H. unfold Py.take. rewrite fmap_take.
  eapply sublist_NoDup; [exact H | apply sublist_take].
Qed.

Section TraversalFacts.
Variable H : Retriever.Handlers.

Lemma distinct_ids_nil : Retriever.distinct_ids ([], ∅).
Proof. split; [constructor | intros r Hr; inversion Hr]. Qed.

(** Appending a result whose id is new keeps the invariant. *)
Lemma distinct_ids_snoc (acc : list Result * gset string) (r : Result)
    (i : string) :
  Retriever.distinct_ids acc -> r_id r = Some i -> i ∉ snd acc ->
  Retriever.distinct_ids ((fst acc ++ [r])%list, {[ i ]} ∪ snd acc).
Proof.
  intros [Hnd Hin] Hi Hfresh. split; cbn [fst snd].
  - rewrite fmap_app. apply NoDup_app. split; [exact Hnd|]. split.
    + intros x Hx Hx'. cbn in Hx'. apply list_elem_of_singleton in Hx'.
      subst x. rewrite Hi in Hx.
      apply list_elem_of_fmap in Hx as (r' & Hr' & Hmem).
      destruct (Hin r' Hmem) as (j & Hj & Hjs). congruence.
    + cbn. apply NoDup_singleton.
  - intros r' Hr'. apply elem_of_app in Hr' as [Hr'|Hr'].
    + destruct (Hin r' Hr') as (j & Hj & Hjs). exists j. split; [exact Hj|].
      set_solver.
    + apply list_elem_of_singleton in Hr'. subst r'. exists i. split; [exact Hi|].
      set_solver.
Qed.

Lemma collect_distinct {W : Type} (top_k : Z) (candidates : list Result) :
  forall (acc acc' : list Result * gset string) (w w' : W),
    Retriever.distinct_ids acc ->
    Retriever.collect top_k candidates acc w = (Py.Returned acc', w') ->
    Retriever.distinct_ids acc'.
Proof.
  induction candidates as [|c rest IH]; intros acc acc' w w' Hinv; simpl.
  - intros [= <- _]. exact Hinv.
  - unfold Py.bind, Retriever.result_id.
    destruct (r_id c) as [i|] eqn:Hi; cbn; [|discriminate].
    set (acc1 := if bool_decide (i ∈ acc.2) then acc
                 else ((acc.1 ++ [c])%list, {[ i ]} ∪ acc.2)).
    assert (Hinv1 : Retriever.distinct_ids acc1).
    { unfold acc1. case_bool_decide; [exact Hinv|].
      now apply distinct_ids_snoc. }
    destruct (_ >=? _).
    + intros [= <- _]. exact Hinv1.
    + apply IH, Hinv1.
Qed.

Lemma traverse_distinct (top_k max_hops : Z) (names : list string) :
  forall (acc acc' : list Result * gset string)
         (w w' : Retriever.world H),
    Retriever.distinct_ids acc ->
    Retriever.traverse H top_k max_hops names acc w = (Py.Returned acc', w') ->
    Retriever.distinct_ids acc'.
Proof.
  induction names as [|name rest IH]; intros acc acc' w w' Hinv; simpl.
  - intros [= <- _]. exact Hinv.
  - unfold Py.bind.
    destruct (Retriever.find_entity H name w) as [[entity|exn] w2];
      [|discriminate].
    destruct (negb (Neo4j.truthy_dict entity)); [apply IH, Hinv|].
    destruct (Neo4j.getitem _ "id" w2) as [[entity_id|exn] w3];
      [|discriminate].
    destruct (Neo4j.get_related_entities _ entity_id max_hops w3)
      as [[related|exn] w4]; [|discriminate].
    destruct (Retriever.collect top_k related acc w4)
      as [[acc1|exn] w5] eqn:Hcollect; [|discriminate].
    pose proof (collect_distinct _ _ _ _ _ _ Hinv Hcollect) as Hinv1.
    destruct (_ >=? _).
    + intros [= <- _]. exact Hinv1.
    + apply IH, Hinv1.
Qed.

(** [_graph_traversal]: at most [top_k] results, with different ids. *)
Lemma graph_traversal_bounded_distinct (names : list string)
    (top_k max_hops : Z) (w w' : Retriever.world H) (out : list Result) :
  Retriever._graph_traversal H names top_k max_hops w = (Py.Returned out, w') ->
  Retriever.distinct_ids (out, list_to_set (omap r_id out)) /\
  (0 <= top_k -> Z.of_nat (List.length out) <= top_k).
Proof.
  unfold Retriever._graph_traversal, Py.bind.
  destruct (Retriever.traverse H top_k max_hops names ([], ∅) w)
    as [[acc|exn] w1] eqn:Htr; [|discriminate].
  intros [= <- _].
  pose proof (traverse_distinct _ _ _ _ _ _ _ distinct_ids_nil Htr)
    as [Hnd Hin].
  split; [split|]; cbn [fst snd].
  - now apply take_NoDup.
  - intros r Hr.
    assert (Hr' : r ∈ acc.1).
    { unfold Py.take in Hr. apply elem_of_take in Hr as (n & Hn & _).
      eapply list_elem_of_lookup_2, Hn. }
    destruct (Hin r Hr') as (i & Hi & _). exists i. split; [exact Hi|].
    apply elem_of_list_to_set, list_elem_of_omap. eauto.
  - apply take_length_le.
Qed.

(** *** The traversal returns when the handler answers *)

Lemma collect_returns {W : Type} (top_k : Z) (candidates : list Result) :
  Forall (fun r => is_Some (r_id r)) candidates ->
  forall (acc : list Result * gset string) (w : W),
  exists acc',
    Retriever.collect top_k candidates acc w = (Py.Returned acc', w).
Proof.
  induction 1 as [|c rest [i Hi] _ IH]; intros acc w; simpl; [eauto|].
  unfold Py.bind, Retriever.result_id. rewrite Hi. cbn.
  destruct (_ >=? _); eauto.
Qed.

Lemma find_in_types_returns (types : list string) (name : string) :
  Retriever.answers H ->
  forall (entity : option (gmap string string)) (w : Retriever.world H),
    (Neo4j.truthy_dict entity = true -> is_Some (default ∅ entity !! "id")) ->
    exists entity' w',
      Retriever.find_in_types H types name entity w
        = (Py.Returned entity', w') /\
      (Neo4j.truthy_dict entity' = true ->
       is_Some (default ∅ entity' !! "id")).
Proof.
  intros [Hfind _].
  induction types as [|t types IH]; intros entity w Hid; simpl; [eauto|].
  unfold Py.bind.
  destruct (Hfind t name w) as (e & w1 & Hf & He). rewrite Hf.
  destruct (Neo4j.truthy_dict e) eqn:Htruthy.
  - exists e, w1. split; [reflexivity|]. rewrite Htruthy. exact He.
  - apply IH. rewrite Htruthy. exact He.
Qed.

Lemma find_entity_returns (name : string) (w : Retriever.world H) :
  Retriever.answers H ->
  exists entity w',
    Retriever.find_entity H name w = (Py.Returned entity, w') /\
    (Neo4j.truthy_dict entity = true -> is_Some (default ∅ entity !! "id")).
Proof.
  intros Hans. unfold Retriever.find_entity, Py.bind.
  destruct (proj1 Hans "Entity" name w) as (e & w1 & Hf & He). rewrite Hf.
  destruct (Neo4j.truthy_dict e) eqn:Htruthy; cbn [negb].
  - exists e, w1. split; [reflexivity|]. rewrite Htruthy. exact He.
  - apply find_in_types_returns; [exact Hans|]. rewrite Htruthy. exact He.
Qed.

Lemma traverse_returns (top_k max_hops : Z) (names : list string) :
  Retriever.answers H ->
  forall (acc : list Result * gset string) (w : Retriever.world H),
  exists acc' w',
    Retriever.traverse H top_k max_hops names acc w = (Py.Returned acc', w').
Proof.
  intros Hans. induction names as [|name rest IH]; intros acc w; simpl;
    [eauto|].
  unfold Py.bind.
  destruct (find_entity_returns name w Hans) as (e & w1 & Hf & He).
  rewrite Hf.
  destruct (Neo4j.truthy_dict e) eqn:Htruthy; cbn [negb]; [|apply IH].
  destruct (He eq_refl) as [entity_id Hid].
  unfold Neo4j.getitem. rewrite Hid. cbn.
  destruct (proj2 Hans entity_id max_hops w1) as (related & w2 & Hr & Hrel).
  rewrite Hr.
  destruct (collect_returns top_k related Hrel acc w2) as [acc1 Hc].
  rewrite Hc.
  destruct (_ >=? _); eauto.
Qed.

(** [_graph_traversal] returns on every input when the handler answers. *)
Lemma graph_traversal_returns (names : list string) (top_k max_hops : Z)
    (w : Retriever.world H) :
  Retriever.answers H ->
  exists out w',
    Retriever._graph_traversal H names top_k max_hops w
      = (Py.Returned out, w').
Proof.
  intros Hans. unfold Retriever._graph_traversal, Py.bind.
  destruct (traverse_returns top_k max_hops names Hans ([], ∅) w)
    as (acc & w' & Ht).
  rewrite Ht. eauto.
Qed.

(** The set built by [ids_of] holds the id of every result. *)
Lemma ids_of_covers {W : Type} (results : list Result) :
  forall (ids0 ids : gset string) (w w' : W),
    Py.for_each
      (fun ids r => Py.bind (Retriever.result_id r)
                      (fun i => Py.ret ({[ i ]} ∪ ids)))
      ids0 results w = (Py.Returned ids, w') ->
    ids0 ⊆ ids /\
    forall r, r ∈ results -> exists i, r_id r = Some i /\ i ∈ ids.
Proof.
  induction results as [|r rest IH]; intros ids0 ids w w'; simpl.
  - intros [= <- _]. split; [done|]. intros r Hr. inversion Hr.
  - unfold Py.bind at 1. unfold Py.bind at 1. unfold Retriever.result_id at 1.
    destruct (r_id r) as [i|] eqn:Hi; cbn; [|discriminate].
    intros Hrest. apply IH in Hrest as [Hsub Hcov]. split.
    + etrans; [apply union_subseteq_r | exact Hsub].
    + intros r' Hr'. apply elem_of_cons in Hr' as [->|Hr'].
      * exists i. split; [exact Hi|].
        apply Hsub, elem_of_union_l, elem_of_singleton. reflexivity.
      * now apply Hcov.
Qed.

Lemma expand_bounded_distinct (vector_results existing : list Result)
    (top_k max_hops : Z) (w w' : Retriever.world H) (out : list Result) :
  NoDup (r_id <$> existing) ->
  Retriever._expand_from_vector_results H vector_results existing
    top_k max_hops w = (Py.Returned out, w') ->
  NoDup (r_id <$> out) /\
  (0 <= top_k -> Z.of_nat (List.length out) <= top_k).
Proof.
  intros Hnd. unfold Retriever._expand_from_vector_results, Py.bind.
  destruct (Retriever.entity_candidates vector_results w)
    as [[candidates|exn] w0]; [|discriminate].
  destruct (Retriever._graph_traversal H candidates top_k max_hops w0)
    as [[new_results|exn] w1]; [|discriminate].
  destruct (Retriever.ids_of existing w1) as [[ids|exn] w2] eqn:Hids;
    [|discriminate].
  destruct (Retriever.collect top_k new_results (existing, ids) w2)
    as [[merged|exn] w3] eqn:Hcollect; [|discriminate].
  intros [= <- _].
  apply ids_of_covers in Hids as [_ Hcov].
  assert (Hinv : Retriever.distinct_ids (existing, ids)) by (split; assumption).
  pose proof (collect_distinct _ _ _ _ _ _ Hinv Hcollect) as [Hnd' _].
  split; [now apply take_NoDup | apply take_length_le].
Qed.

End TraversalFacts.

(** How a run of [retrieve] is put together: [traversed] is what step 3
    returned, and the graph results are either that list, untouched, or
    what [_expand_from_vector_results] made of it. *)
Lemma retrieve_run_steps (H : Retriever.Handlers) (query : string)
    (top_k_vector top_k_graph max_hops : Z) (w w' : Retriever.world H)
    (run : Retriever.Run) :
  Retriever.retrieve_run H query top_k_vector top_k_graph max_hops w
    = (Py.Returned run, w') ->
  exists (names : list string) (w2 w3 : Retriever.world H),
    Retriever._graph_traversal H names top_k_graph max_hops w2
      = (Py.Returned (Retriever.traversed run), w3) /\
    (Retriever.expanded run
       = (Z.of_nat (List.length (Retriever.traversed run)) <? top_k_graph / 2)) /\
    if Retriever.expanded run then
      Retriever._expand_from_vector_results H (Retriever.vector_results run)
        (Retriever.traversed run) top_k_graph max_hops w3
        = (Py.Returned (Retriever.graph_results run), w')
    else
      Retriever.graph_results run = Retriever.traversed run /\ w' = w3.
Proof.
  unfold Retriever.retrieve_run, Py.bind.
  destruct (Retriever._vector_search H query top_k_vector w)
    as [[vr|exn] w1]; [|discriminate].
  destruct (Retriever._extract_query_entities H query w1)
    as [[names|exn] w2]; [|discriminate].
  destruct (Retriever._graph_traversal H names top_k_graph max_hops w2)
    as [[gr|exn] w3] eqn:Htr; [|discriminate].
  destruct (Z.of_nat (List.length gr) <? top_k_graph / 2) eqn:Hsparse.
  - destruct (Retriever._expand_from_vector_results H vr gr top_k_graph
                max_hops w3) as [[er|exn] w4] eqn:Hex; [|discriminate].
    intros [= <- <-]. exists names, w2, w3. cbn.
    rewrite Hsparse. auto.
  - intros [= <- <-]. exists names, w2, w3. cbn.
    rewrite Hsparse. auto.
Qed.

Lemma retrieve_of_run (H : Retriever.Handlers) (query : string)
    (top_k_vector top_k_graph max_hops : Z) (w w' : Retriever.world H)
    (vr gr : list Result) :
  Retriever.retrieve H query top_k_vector top_k_graph max_hops w
    = (Py.Returned (vr, gr), w') ->
  exists run,
    Retriever.retrieve_run H query top_k_vector top_k_graph max_hops w
      = (Py.Returned run, w') /\
    Retriever.vector_results run = vr /\ Retriever.graph_results run = gr.
Proof.
  unfold Retriever.retrieve, Py.bind.
  destruct (Retriever.retrieve_run H query top_k_vector top_k_graph max_hops w)
    as [[run|exn] w1]; [|discriminate].
  intros [= <- <- <-]. eauto.
Qed.

(** C1.  Whatever the handlers answer, a list returned by
    [_graph_traversal], and the graph list returned by [retrieve] (step 3
    alone or after the merge of step 4), holds no two results with the same
    id; and for every number of results asked for, [0 <= top_k_graph], it
    has at most [top_k_graph] elements. *)
Theorem graph_results_bounded_and_distinct (H : Retriever.Handlers)
    (top_k_graph max_hops : Z) :
  (forall (names : list string) (w w' : Retriever.world H)
          (out : list Result),
      Retriever._graph_traversal H names top_k_graph max_hops w
        = (Py.Returned out, w') ->
      NoDup (r_id <$> out) /\
      (0 <= top_k_graph -> Z.of_nat (List.length out) <= top_k_graph))
  /\
  (forall (query : string) (top_k_vector : Z) (w w' : Retriever.world H)
          (vector_results graph_results : list Result),
      Retriever.retrieve H query top_k_vector top_k_graph max_hops w
        = (Py.Returned (vector_results, graph_results), w') ->
      NoDup (r_id <$> graph_results) /\
      (0 <= top_k_graph ->
       Z.of_nat (List.length graph_results) <= top_k_graph)).
Proof.
  split.
  - intros names w w' out Hrun.
    apply graph_traversal_bounded_distinct in Hrun as [[Hnd _] Hlen]. auto.
  - intros query top_k_vector w w' vr gr Hrun.
    apply retrieve_of_run in Hrun as (run & Hrun & _ & <-).
    apply retrieve_run_steps in Hrun as (names & w2 & w3 & Htr & _ & Hstep).
    apply graph_traversal_bounded_distinct in Htr as [[Hnd _] Hlen].
    destruct (Retriever.expanded run).
    + eapply expand_bounded_distinct; [exact Hnd | exact Hstep].
    + destruct Hstep as [-> _]. auto.
Qed.

Lemma graph_results_bounded_and_distinct_witness :
  exists out : list Result,
    Retriever._graph_traversal Retriever.wheat_graph ["Wheat"] 1 2 tt
      = (Py.Returned out, tt) /\
    NoDup (r_id <$> out) /\ Z.of_nat (List.length out) <= 1.
Proof.
  eexists. split.
  - vm_compute. reflexivity.
  - pose proof (proj1 (graph_results_bounded_and_distinct
                         Retriever.wheat_graph 1 2) ["Wheat"] tt tt _ eq_refl)
      as [Hnd Hlen].
    split; [exact Hnd | apply Hlen; lia].
Defined.




(** ** Reranking *)

Example rerank_mixed_default_weight :
  fst (Retriever.rerank_results [0; 1; 2]%nat [3; 4]%nat
         (Float.literal (6 # 10)) Retriever.mixed_hits)
  = Py.Returned [1; 4; 3; 0; 2]%nat.
Proof. vm_compute. reflexivity. Qed.

Example rerank_mixed_weight_one :
  fst (Retriever.rerank_results [0; 1; 2]%nat [3; 4]%nat 1
         Retriever.mixed_hits)
  = Py.Returned [1; 0; 2; 3; 4]%nat.
Proof. vm_compute. reflexivity. Qed.

(** ** Floating point: rounding keeps the order *)

Section FloatFacts.
Import Float.
Local Open Scope Q_scope.

Lemma pow2_pos (e : Z) : 0 < pow2 e.
Proof. unfold pow2. apply Qpower_0_lt. reflexivity. Qed.

Lemma pow2_le (a b : Z) : (a <= b)%Z -> pow2 a <= pow2 b.
Proof. intros H. unfold pow2. apply Qpower_le_compat_l; [exact H | discriminate]. Qed.

Lemma pow2_lt_inv (a b : Z) : pow2 a < pow2 b -> (a < b)%Z.
Proof. intros H. unfold pow2 in H. eapply Qpower_lt_compat_l_inv; [exact H | reflexivity]. Qed.

Lemma pow2_split (b e : Z) :
  (e <= b)%Z -> pow2 b == inject_Z (2 ^ (b - e)) * pow2 e.
Proof.
  intros H. unfold pow2.
  rewrite Zpower_Qpower by lia.
  rewrite <- Qpower_plus by discriminate.
  replace (b - e + e)%Z with b by lia. reflexivity.
Qed.

Lemma nearest_even_comp (x y : Q) : x == y -> nearest_even x = nearest_even y.
Proof.
  intros H. unfold nearest_even. rewrite (Qfloor_comp _ _ H).
  assert (Hc : (x - inject_Z (Qfloor y) ?= 1 # 2) = (y - inject_Z (Qfloor y) ?= 1 # 2)).
  { apply Qcompare_comp; [rewrite H; reflexivity | reflexivity]. }
  rewrite Hc. reflexivity.
Qed.

Lemma nearest_even_Z (n : Z) : nearest_even (inject_Z n) = n.
Proof.
  unfold nearest_even. rewrite Qfloor_Z.
  assert (H : (inject_Z n - inject_Z n ?= 1 # 2) = Lt).
  { apply Qlt_alt. setoid_replace (inject_Z n - inject_Z n) with 0 using relation Qeq by ring.
    reflexivity. }
  rewrite H. reflexivity.
Qed.

Lemma nearest_even_bounds (y : Q) :
  (Qfloor y <= nearest_even y <= Qfloor y + 1)%Z.
Proof.
  unfold nearest_even. destruct (_ ?= _); [destruct (Z.even _)| |]; lia.
Qed.

Lemma nearest_even_mono (x y : Q) : x <= y -> (nearest_even x <= nearest_even y)%Z.
Proof.
  intros Hxy. pose proof (Qfloor_resp_le _ _ Hxy) as Hf.
  destruct (Z.eq_dec (Qfloor x) (Qfloor y)) as [Heq|Hne].
  - unfold nearest_even. rewrite Heq.
    destruct (x - inject_Z (Qfloor y) ?= 1 # 2) eqn:Hx;
      destruct (y - inject_Z (Qfloor y) ?= 1 # 2) eqn:Hy;
      try (destruct (Z.even (Qfloor y))); try lia; exfalso;
      repeat match goal with
      | H : (_ ?= _) = Eq |- _ => apply Qeq_alt in H
      | H : (_ ?= _) = Lt |- _ => apply Qlt_alt in H
      | H : (_ ?= _) = Gt |- _ => apply Qgt_alt in H
      end; lra.
  - pose proof (nearest_even_bounds x). pose proof (nearest_even_bounds y). lia.
Qed.

(** Rounding on the grid of [pow2 e] keeps a value on the side of a grid
    point it is on. *)
Lemma grid_le (x : Q) (k e : Z) :
  x <= inject_Z k * pow2 e ->
  inject_Z (nearest_even (x / pow2 e)) * pow2 e <= inject_Z k * pow2 e.
Proof.
  intros H. pose proof (pow2_pos e) as Hp.
  apply Qmult_le_compat_r; [|lra].
  rewrite <- Zle_Qle. rewrite <- (nearest_even_Z k).
  apply nearest_even_mono. apply Qle_shift_div_r; assumption.
Qed.

Lemma grid_ge (x : Q) (k e : Z) :
  inject_Z k * pow2 e <= x ->
  inject_Z k * pow2 e <= inject_Z (nearest_even (x / pow2 e)) * pow2 e.
Proof.
  intros H. pose proof (pow2_pos e) as Hp.
  apply Qmult_le_compat_r; [|lra].
  rewrite <- Zle_Qle. rewrite <- (nearest_even_Z k) at 1.
  apply nearest_even_mono. apply Qle_shift_div_l; assumption.
Qed.

Lemma grid_mono (x y : Q) (e : Z) :
  x <= y ->
  inject_Z (nearest_even (x / pow2 e)) * pow2 e
  <= inject_Z (nearest_even (y / pow2 e)) * pow2 e.
Proof.
  intros H. pose proof (pow2_pos e) as Hp.
  apply Qmult_le_compat_r; [|lra].
  rewrite <- Zle_Qle. apply nearest_even_mono.
  unfold Qdiv. apply Qmult_le_compat_r; [exact H|].
  apply Qlt_le_weak, Qinv_lt_0_compat, Hp.
Qed.

Lemma pow2_ratio (u v : Z) :
  (0 <= u)%Z -> (0 <= v)%Z ->
  pow2 (u - v) == inject_Z (2 ^ u) / inject_Z (2 ^ v).
Proof.
  intros Hu Hv. unfold pow2.
  rewrite Qpower_minus by discriminate.
  rewrite !Zpower_Qpower by assumption. reflexivity.
Qed.

Lemma ratio_lt_pow2 (a d u v : Z) :
  (0 <= u)%Z -> (0 <= v)%Z -> (0 < d)%Z ->
  (a < 2 ^ u)%Z -> (2 ^ v <= d)%Z ->
  inject_Z a / inject_Z d < pow2 (u - v).
Proof.
  intros Hu Hv Hd Ha Hdv. rewrite pow2_ratio by assumption.
  assert (Hpv : (0 < 2 ^ v)%Z) by (apply Z.pow_pos_nonneg; lia).
  assert (HdQ : 0 < inject_Z d) by (rewrite Zlt_Qlt in Hd; exact Hd).
  assert (HvQ : 0 < inject_Z (2 ^ v)) by (rewrite Zlt_Qlt in Hpv; exact Hpv).
  apply Qlt_shift_div_r; [exact HdQ|].
  setoid_replace (inject_Z (2 ^ u) / inject_Z (2 ^ v) * inject_Z d)
    with (inject_Z (2 ^ u) * inject_Z d / inject_Z (2 ^ v)) using relation Qeq
    by (field; lra).
  apply Qlt_shift_div_l; [exact HvQ|].
  rewrite <- !inject_Z_mult, <- Zlt_Qlt. nia.
Qed.

Lemma pow2_le_ratio (a d u v : Z) :
  (0 <= u)%Z -> (0 <= v)%Z -> (0 < d)%Z ->
  (2 ^ u <= a)%Z -> (d <= 2 ^ v)%Z ->
  pow2 (u - v) <= inject_Z a / inject_Z d.
Proof.
  intros Hu Hv Hd Ha Hdv. rewrite pow2_ratio by assumption.
  assert (Hpv : (0 < 2 ^ v)%Z) by (apply Z.pow_pos_nonneg; lia).
  assert (Hpu : (0 < 2 ^ u)%Z) by (apply Z.pow_pos_nonneg; lia).
  assert (HdQ : 0 < inject_Z d) by (rewrite Zlt_Qlt in Hd; exact Hd).
  assert (HvQ : 0 < inject_Z (2 ^ v)) by (rewrite Zlt_Qlt in Hpv; exact Hpv).
  apply Qle_shift_div_l; [exact HdQ|].
  setoid_replace (inject_Z (2 ^ u) / inject_Z (2 ^ v) * inject_Z d)
    with (inject_Z (2 ^ u) * inject_Z d / inject_Z (2 ^ v)) using relation Qeq
    by (field; lra).
  apply Qle_shift_div_r; [exact HvQ|].
  rewrite <- !inject_Z_mult, <- Zle_Qle. nia.
Qed.

Lemma Qabs_ratio (x : Q) :
  Qabs x == inject_Z (Z.abs (Qnum x)) / inject_Z (Z.pos (Qden x)).
Proof.
  destruct x as [n d]. cbn [Qabs Qnum Qden]. apply Qmake_Qdiv.
Qed.

(** [binade] is the exponent of the power of two at or below [|x|]. *)
Lemma binade_spec (x : Q) :
  ~ x == 0 ->
  pow2 (binade x) <= Qabs x /\ Qabs x < pow2 (binade x + 1).
Proof.
  intros Hx.
  assert (Ha : (0 < Z.abs (Qnum x))%Z).
  { destruct x as [n d]. unfold Qeq in Hx. cbn in *. lia. }
  pose proof (Z.log2_spec _ Ha) as [Halo Hahi].
  pose proof (Z.log2_spec (Z.pos (Qden x)) ltac:(lia)) as [Hdlo Hdhi].
  pose proof (Z.log2_nonneg (Z.abs (Qnum x))) as Hla.
  pose proof (Z.log2_nonneg (Z.pos (Qden x))) as Hld.
  set (la := Z.log2 (Z.abs (Qnum x))) in *.
  set (ld := Z.log2 (Z.pos (Qden x))) in *.
  assert (Hup : Qabs x < pow2 (la - ld + 1)).
  { rewrite Qabs_ratio. replace (la - ld + 1)%Z with (Z.succ la - ld)%Z by lia.
    apply ratio_lt_pow2; lia. }
  assert (Hlow : pow2 (la - ld - 1) <= Qabs x).
  { rewrite Qabs_ratio. replace (la - ld - 1)%Z with (la - Z.succ ld)%Z by lia.
    apply pow2_le_ratio; lia. }
  unfold binade. fold la ld.
  destruct (Qle_bool (pow2 (la - ld)) (Qabs x)) eqn:Hle.
  - apply Qle_bool_iff in Hle. split; assumption.
  - split; [exact Hlow|].
    replace (la - ld - 1 + 1)%Z with (la - ld)%Z by lia.
    destruct (Qlt_le_dec (Qabs x) (pow2 (la - ld))) as [Hlt|Hge];
      [exact Hlt|].
    apply Qle_bool_iff in Hge. congruence.
Qed.

Lemma binade_le (x y : Q) :
  ~ x == 0 -> ~ y == 0 -> Qabs x <= Qabs y -> (binade x <= binade y)%Z.
Proof.
  intros Hx Hy Hxy.
  destruct (binade_spec x Hx) as [Hlo _].
  destruct (binade_spec y Hy) as [_ Hhi].
  assert (H : pow2 (binade x) < pow2 (binade y + 1)) by lra.
  apply pow2_lt_inv in H. lia.
Qed.

Lemma pow2_grid (b e : Z) (x : Q) :
  (e <= b)%Z -> x <= pow2 b ->
  inject_Z (nearest_even (x / pow2 e)) * pow2 e <= pow2 b.
Proof.
  intros He Hx. rewrite (pow2_split b e He) in Hx |- *.
  apply grid_le, Hx.
Qed.

Lemma grid_pow2 (b e : Z) (x : Q) :
  (e <= b)%Z -> pow2 b <= x ->
  pow2 b <= inject_Z (nearest_even (x / pow2 e)) * pow2 e.
Proof.
  intros He Hx. rewrite (pow2_split b e He) in Hx |- *.
  apply grid_ge, Hx.
Qed.

Lemma neg_pow2_grid (b e : Z) (x : Q) :
  (e <= b)%Z -> x <= - pow2 b ->
  inject_Z (nearest_even (x / pow2 e)) * pow2 e <= - pow2 b.
Proof.
  intros He Hx.
  assert (Heq : - pow2 b == inject_Z (- 2 ^ (b - e)) * pow2 e).
  { rewrite (pow2_split b e He), inject_Z_opp. ring. }
  rewrite Heq in Hx |- *. apply grid_le, Hx.
Qed.

Lemma grid_neg_pow2 (b e : Z) (x : Q) :
  (e <= b)%Z -> - pow2 b <= x ->
  - pow2 b <= inject_Z (nearest_even (x / pow2 e)) * pow2 e.
Proof.
  intros He Hx.
  assert (Heq : - pow2 b == inject_Z (- 2 ^ (b - e)) * pow2 e).
  { rewrite (pow2_split b e He), inject_Z_opp. ring. }
  rewrite Heq in Hx |- *. apply grid_ge, Hx.
Qed.

(** Rounding keeps the order. *)
Lemma nearest_le (x y : Q) : x <= y -> nearest x <= nearest y.
Proof.
  intros Hxy. unfold nearest.
  set (ex := Z.max (binade x - 52) (-1074)).
  set (ey := Z.max (binade y - 52) (-1074)).
  destruct (Qlt_le_dec 0 x) as [Hxpos|Hxneg].
  - (* 0 < x <= y *)
    assert (Hx0 : ~ x == 0) by lra. assert (Hy0 : ~ y == 0) by lra.
    destruct (binade_spec x Hx0) as [Hxlo Hxhi].
    destruct (binade_spec y Hy0) as [Hylo Hyhi].
    rewrite (Qabs_pos x) in Hxlo, Hxhi by lra.
    rewrite (Qabs_pos y) in Hylo, Hyhi by lra.
    assert (Hb : (binade x <= binade y)%Z).
    { apply binade_le; try assumption.
      rewrite (Qabs_pos x), (Qabs_pos y) by lra. exact Hxy. }
    destruct (Z.eq_dec ex ey) as [Heq|Hne].
    + rewrite Heq. apply grid_mono, Hxy.
    + assert (Hlt : (binade x + 1 <= binade y)%Z) by lia.
      apply Qle_trans with (pow2 (binade y)).
      * apply pow2_grid; [lia|].
        pose proof (pow2_le _ _ Hlt). lra.
      * apply grid_pow2; [lia | exact Hylo].
  - destruct (Qlt_le_dec y 0) as [Hyneg|Hypos].
    + (* x <= y < 0 *)
      assert (Hx0 : ~ x == 0) by lra. assert (Hy0 : ~ y == 0) by lra.
      destruct (binade_spec x Hx0) as [Hxlo Hxhi].
      destruct (binade_spec y Hy0) as [Hylo Hyhi].
      rewrite (Qabs_neg x) in Hxlo, Hxhi by lra.
      rewrite (Qabs_neg y) in Hylo, Hyhi by lra.
      assert (Hb : (binade y <= binade x)%Z).
      { apply binade_le; try assumption.
        rewrite (Qabs_neg x), (Qabs_neg y) by lra. lra. }
      destruct (Z.eq_dec ex ey) as [Heq|Hne].
      * rewrite Heq. apply grid_mono, Hxy.
      * assert (Hlt : (binade y + 1 <= binade x)%Z) by lia.
        apply Qle_trans with (- pow2 (binade x)).
        -- apply neg_pow2_grid; [lia | lra].
        -- apply grid_neg_pow2; [lia|].
           pose proof (pow2_le _ _ Hlt). lra.
    + (* x <= 0 <= y *)
      apply Qle_trans with (inject_Z 0 * pow2 ex).
      * apply grid_le.
        setoid_replace (inject_Z 0 * pow2 ex) with 0 using relation Qeq by ring. exact Hxneg.
      * setoid_replace (inject_Z 0 * pow2 ex) with (inject_Z 0 * pow2 ey) using relation Qeq
          by ring.
        apply grid_ge.
        setoid_replace (inject_Z 0 * pow2 ey) with 0 using relation Qeq by ring. exact Hypos.
Qed.

Lemma nearest_zero (x : Q) : x == 0 -> nearest x == 0.
Proof.
  intros Hx. unfold nearest.
  set (e := Z.max (binade x - 52) (-1074)).
  assert (Hq : x / pow2 e == inject_Z 0).
  { rewrite Hx. unfold Qdiv. cbn. ring. }
  rewrite (nearest_even_comp _ _ Hq), nearest_even_Z. cbn. ring.
Qed.

Lemma huge_pos : 0 < huge.
Proof. apply pow2_pos. Qed.

Lemma overflow_le (x y : Q) : x <= y -> overflow x <= overflow y.
Proof.
  intros Hxy. pose proof huge_pos as Hhuge. unfold overflow.
  destruct (Qle_bool huge x) eqn:Hx1;
    [apply Qle_bool_iff in Hx1 | apply not_true_iff_false in Hx1;
       rewrite Qle_bool_iff in Hx1];
  destruct (Qle_bool huge y) eqn:Hy1;
    [apply Qle_bool_iff in Hy1 | apply not_true_iff_false in Hy1;
       rewrite Qle_bool_iff in Hy1 | apply Qle_bool_iff in Hy1
    | apply not_true_iff_false in Hy1; rewrite Qle_bool_iff in Hy1];
  try lra;
  destruct (Qle_bool x (- huge)) eqn:Hx2;
    try (apply Qle_bool_iff in Hx2);
    try (apply not_true_iff_false in Hx2; rewrite Qle_bool_iff in Hx2);
  destruct (Qle_bool y (- huge)) eqn:Hy2;
    try (apply Qle_bool_iff in Hy2);
    try (apply not_true_iff_false in Hy2; rewrite Qle_bool_iff in Hy2);
  lra.
Qed.

Lemma overflow_inside (x : Q) : - huge < x < huge -> overflow x = x.
Proof.
  intros [Hlo Hhi]. unfold overflow.
  destruct (Qle_bool huge x) eqn:H1; [apply Qle_bool_iff in H1; lra|].
  destruct (Qle_bool x (- huge)) eqn:H2; [apply Qle_bool_iff in H2; lra|].
  reflexivity.
Qed.

(** Rounding keeps the order: it never swaps two results, it can only
    make them equal. *)
Lemma round64_le (x y : Q) : x <= y -> round64 x <= round64 y.
Proof. intros Hxy. apply overflow_le, nearest_le, Hxy. Qed.

Lemma round64_zero (x : Q) : x == 0 -> round64 x == 0.
Proof.
  intros Hx. unfold round64. pose proof huge_pos as Hhuge.
  pose proof (nearest_zero x Hx) as Hn.
  rewrite overflow_inside by lra. exact Hn.
Qed.

Lemma round64_eq (x y : Q) : x == y -> round64 x == round64 y.
Proof.
  intros H. apply Qle_antisym; apply round64_le; rewrite H; apply Qle_refl.
Qed.

Lemma round64_one : round64 1 == 1.
Proof. vm_compute. reflexivity. Qed.

Lemma round64_unit (x : Q) : 0 <= x <= 1 -> 0 <= round64 x <= 1.
Proof.
  intros [H0 H1]. split.
  - rewrite <- (round64_zero 0) by reflexivity. apply round64_le, H0.
  - rewrite <- round64_one. apply round64_le, H1.
Qed.

End FloatFacts.

Section SortFacts.
Context {A : Type}.
Variable key : A -> Q.

Lemma insert_desc_perm (x : A) (l : list A) :
  Permutation (Py.insert_desc key x l) (x :: l).
Proof.
  induction l as [|y l IH]; simpl; [reflexivity|].
  destruct (Qle_bool (key y) (key x)); [reflexivity|].
  rewrite IH. apply perm_swap.
Qed.

Lemma sort_desc_perm (l : list A) : Permutation (Py.sort_desc key l) l.
Proof.
  induction l as [|x l IH]; simpl; [reflexivity|].
  rewrite insert_desc_perm. now apply perm_skip.
Qed.





Lemma sorted_desc_filter (p : A -> bool) (l : list A) :
  Py.sorted_desc key l -> Py.sorted_desc key (List.filter p l).
Proof.
  unfold Py.sorted_desc.
  induction l as [|x l IH]; intros Hs; simpl; [constructor|].
  apply StronglySorted_inv in Hs as [Hs Hx].
  destruct (p x); [|now apply IH].
  constructor; [now apply IH|].
  apply List.Forall_forall. intros b Hb. apply List.filter_In in Hb as [Hb _].
  eapply List.Forall_forall in Hx; eauto.
Qed.




End SortFacts.

(** Two keys that compare the elements of a list alike sort it alike. *)
Lemma sort_desc_ext {A : Type} (key1 key2 : A -> Q) (l : list A) :
  (forall x y, In x l -> In y l ->
     Qle_bool (key1 y) (key1 x) = Qle_bool (key2 y) (key2 x)) ->
  Py.sort_desc key1 l = Py.sort_desc key2 l.
Proof.
  induction l as [|x l IH]; intros Hcmp; [reflexivity|].
  cbn [Py.sort_desc fold_right].
  change (fold_right (Py.insert_desc key1) [] l) with (Py.sort_desc key1 l).
  change (fold_right (Py.insert_desc key2) [] l) with (Py.sort_desc key2 l).
  rewrite IH by (intros; apply Hcmp; now right).
  assert (Hin : forall y, In y (Py.sort_desc key2 l) -> In y l).
  { intros y Hy. eapply Permutation_in; [apply sort_desc_perm | exact Hy]. }
  revert Hin. generalize (Py.sort_desc key2 l) as s.
  induction s as [|y s IHs]; intros Hin; [reflexivity|].
  cbn [Py.insert_desc].
  rewrite (Hcmp x y) by (simpl; auto using in_eq).
  rewrite IHs by (intros; apply Hin; now right). reflexivity.
Qed.

Section RerankFacts.
Import Retriever.

Lemma update_same (h : Heap) (l : ref) (r : Result) : update h l r l = r.
Proof. unfold update. now rewrite Nat.eqb_refl. Qed.

Lemma update_other (h : Heap) (l l' : ref) (r : Result) :
  l' <> l -> update h l r l' = h l'.
Proof.
  intros Hne. unfold update.
  destruct (Nat.eqb_spec l' l); [contradiction | reflexivity].
Qed.

Lemma rewrite_all_cons (f : Result -> Result) (l0 : ref) (refs : list ref)
    (h : Heap) :
  rewrite_all f (l0 :: refs) h = rewrite_all f refs (update h l0 (f (h l0))).
Proof. reflexivity. Qed.

Lemma rewrite_all_outside (f : Result -> Result) (refs : list ref) :
  forall (h : Heap) (l : ref),
    ~ In l refs -> rewrite_all f refs h l = h l.
Proof.
  induction refs as [|l0 refs IH]; intros h l Hl; [reflexivity|].
  rewrite rewrite_all_cons.
  rewrite IH by (intros ?; apply Hl; now right).
  apply update_other. intros ->. apply Hl. now left.
Qed.

(** A property of dictionaries that [f] preserves survives the loop. *)
Lemma rewrite_all_keeps (P : Result -> Prop) (f : Result -> Result)
    (refs : list ref) :
  (forall r, P r -> P (f r)) ->
  forall (h : Heap) (l : ref), P (h l) -> P (rewrite_all f refs h l).
Proof.
  intros Hf. induction refs as [|l0 refs IH]; intros h l Hl; [exact Hl|].
  rewrite rewrite_all_cons.
  apply IH. unfold update.
  destruct (Nat.eqb_spec l l0) as [->|_]; [now apply Hf | exact Hl].
Qed.

(** A property that [f] establishes (on dictionaries satisfying the
    preserved [P]) holds, after the loop, of every dictionary of the
    list. *)
Lemma rewrite_all_makes (P Q : Result -> Prop) (f : Result -> Result)
    (refs : list ref) :
  (forall r, P r -> P (f r)) ->
  (forall r, P r -> Q (f r)) ->
  forall (h : Heap) (l : ref),
    P (h l) -> In l refs -> Q (rewrite_all f refs h l).
Proof.
  intros HP HQ. induction refs as [|l0 refs IH]; intros h l Hl Hin;
    [destruct Hin|].
  rewrite rewrite_all_cons.
  assert (HP1 : P (update h l0 (f (h l0)) l)).
  { unfold update. destruct (Nat.eqb_spec l l0) as [->|_]; auto. }
  destruct (in_dec Nat.eq_dec l refs) as [Hrest|Hrest].
  - now apply IH.
  - rewrite rewrite_all_outside by exact Hrest.
    destruct Hin as [->|Hin]; [|contradiction].
    rewrite update_same. now apply HQ.
Qed.

Lemma rewrite_loop (f : Result -> Result) (refs : list ref) :
  forall h : Heap,
    Py.for_each
      (fun (_ : unit) l => Py.bind (read l) (fun r => write l (f r)))
      tt refs h
    = (Py.Returned tt, rewrite_all f refs h).
Proof.
  induction refs as [|l refs IH]; intros h; [reflexivity|].
  cbn [Py.for_each]. unfold Py.bind at 1. cbn. apply IH.
Qed.

Lemma scores_loop (refs : list ref) (h : Heap) :
  forall acc : list Q,
    Py.for_each
      (fun acc l => Py.bind (read l)
                      (fun r => Py.ret (acc ++ [score_of r])%list))
      acc refs h
    = (Py.Returned (acc ++ map (fun l => score_of (h l)) refs)%list, h).
Proof.
  induction refs as [|l refs IH]; intros acc; cbn [Py.for_each map].
  - now rewrite app_nil_r.
  - unfold Py.bind at 1. cbn. rewrite IH, <- app_assoc. reflexivity.
Qed.

(** The combining loops never miss the key they read, provided every
    dictionary of the list has it when the loop starts. *)
Lemma add_final_loop (weight : Q) (refs : list ref) :
  forall (h : Heap) (acc : list ref),
    (forall l, In l refs -> is_Some (r_normalized_score (h l))) ->
    Py.for_each (add_final weight) acc refs h
    = (Py.Returned (acc ++ refs)%list, rewrite_all (finalize weight) refs h).
Proof.
  induction refs as [|l refs IH]; intros h acc Hkeys; cbn [Py.for_each].
  - now rewrite app_nil_r.
  - unfold Py.bind at 1, add_final at 1, Py.bind, read, normalized_of.
    destruct (Hkeys l (or_introl eq_refl)) as [q Hq]. rewrite Hq. cbn.
    change (update h l (set_final (h l) (Float.mul q weight)))
      with (update h l (set_final (h l)
              (Float.mul (default 0%Q (Some q)) weight))).
    rewrite <- Hq. fold (finalize weight (h l)).
    rewrite IH.
    + now rewrite <- app_assoc.
    + intros l' Hl'. unfold update.
      destruct (Nat.eqb_spec l' l) as [->|_]; [|apply Hkeys; now right].
      cbn. apply Hkeys. now left.
Qed.

Lemma normalize_vector_key (m : Q) (r : Result) :
  is_Some (r_normalized_score (normalize_vector m r)).
Proof. cbn. eauto. Qed.

Lemma normalize_graph_key (r : Result) :
  is_Some (r_normalized_score (normalize_graph r)).
Proof. cbn. eauto. Qed.

(** [rerank_results] always returns: the list is the stable descending
    sort, by the final score found in the store, of the vector references
    followed by the graph references. *)
Lemma rerank_results_returns (v g : list ref) (vector_weight : Q) (h : Heap) :
  rerank_results v g vector_weight h =
    (Py.Returned
       (Py.sort_desc (fun l => final_of (reranked v g vector_weight h l))
          (v ++ g)),
     reranked v g vector_weight h).
Proof.
  unfold rerank_results, reranked.
  set (h1 := match v with
             | [] => h
             | first :: others =>
                 rewrite_all
                   (normalize_vector (max_vector_score h first others)) v h
             end).
  assert (Hloop1 :
    (match v with
     | [] => Py.ret tt
     | _ :: _ =>
         Py.bind (scores v)
           (fun xs => Py.bind (max_of xs)
              (fun m => Py.for_each
                 (fun (_ : unit) l =>
                    Py.bind (read l) (fun r => write l (normalize_vector m r)))
                 tt v))
     end) h = (Py.Returned tt, h1)).
  { subst h1. destruct v as [|first others]; [reflexivity|].
    unfold Py.bind at 1, scores. rewrite scores_loop. cbn [app map].
    unfold Py.bind at 1, max_of, Py.ret at 1.
    apply rewrite_loop. }
  set (h2 := rewrite_all normalize_graph g h1).
  assert (Hkeys_v : forall l, In l v -> is_Some (r_normalized_score (h2 l))).
  { intros l Hl. subst h2.
    apply (rewrite_all_keeps (fun r => is_Some (r_normalized_score r))).
    - intros r _. apply normalize_graph_key.
    - subst h1. destruct v as [|first others]; [destruct Hl|].
      apply (rewrite_all_makes (fun _ => True)
               (fun r => is_Some (r_normalized_score r)));
        auto using normalize_vector_key. }
  assert (Hkeys_g : forall l, In l g -> is_Some (r_normalized_score (h2 l))).
  { intros l Hl. subst h2.
    apply (rewrite_all_makes (fun _ => True)
             (fun r => is_Some (r_normalized_score r)));
      auto using normalize_graph_key. }
  unfold Py.bind at 1. rewrite Hloop1.
  unfold Py.bind at 1. rewrite rewrite_loop. fold h2.
  unfold Py.bind at 1. rewrite add_final_loop by exact Hkeys_v.
  unfold Py.bind at 1. rewrite add_final_loop.
  - reflexivity.
  - intros l Hl.
    apply (rewrite_all_keeps (fun r => is_Some (r_normalized_score r)));
      [intros r Hr; exact Hr | now apply Hkeys_g].
Qed.

End RerankFacts.

(** C10.  For all lists of references [v] and [g], every weight and every
    store, [rerank_results] returns, and the list it returns is a
    permutation of [v ++ g]: the same references, each as often as it was
    handed in, [len(v) + len(g)] of them. *)
Theorem rerank_results_permutes_inputs
    (v g : list Retriever.ref) (vector_weight : Q) (h : Retriever.Heap) :
  exists (out : list Retriever.ref) (h' : Retriever.Heap),
    Retriever.rerank_results v g vector_weight h = (Py.Returned out, h') /\
    Permutation out (v ++ g) /\
    List.length out = (List.length v + List.length g)%nat.
Proof.
  eexists. eexists. split; [apply rerank_results_returns|].
  pose proof (sort_desc_perm
                (fun l => Retriever.final_of
                            (Retriever.reranked v g vector_weight h l))
                (v ++ g)) as Hperm.
  split; [exact Hperm|].
  rewrite (Permutation_length Hperm). apply length_app.
Qed.

Section WeightOneFacts.
Import Retriever.

Lemma max_fold_ge_init (xs : list Q) :
  forall m0 : Q, (m0 <= fold_left larger xs m0)%Q.
Proof.
  induction xs as [|x xs IH]; intros m0; cbn [fold_left]; [apply Qle_refl|].
  eapply Qle_trans; [|apply IH]. unfold larger.
  destruct (Qle_bool x m0) eqn:Hle; [apply Qle_refl|].
  destruct (Qlt_le_dec m0 x) as [Hlt|Hge]; [now apply Qlt_le_weak|].
  apply Qle_bool_iff in Hge. congruence.
Qed.

Lemma max_fold_ge_elem (xs : list Q) :
  forall (m0 y : Q), In y xs -> (y <= fold_left larger xs m0)%Q.
Proof.
  induction xs as [|x xs IH]; intros m0 y Hy; [destruct Hy|].
  cbn [fold_left]. destruct Hy as [->|Hy]; [|now apply IH].
  eapply Qle_trans; [|apply max_fold_ge_init]. unfold larger.
  destruct (Qle_bool y m0) eqn:Hle; [now apply Qle_bool_iff | apply Qle_refl].
Qed.


(** The largest score is at least every score of the batch. *)
Lemma max_vector_score_ge (h : Heap) (first : ref) (others : list ref)
    (l : ref) :
  In l (first :: others) ->
  (score_of (h l) <= max_vector_score h first others)%Q.
Proof.
  unfold max_vector_score. intros [<-|Hl].
  - apply max_fold_ge_init.
  - apply max_fold_ge_elem. now apply (in_map (fun l => score_of (h l))).
Qed.



(** The final score of a vector result that is not also a graph result. *)
Lemma vector_final (first : ref) (others g : list ref) (vector_weight : Q)
    (h : Heap) (l : ref) :
  In l (first :: others) -> ~ In l g ->
  r_final_score (reranked (first :: others) g vector_weight h l) =
    Some (Float.mul
            (if positive (max_vector_score h first others)
             then Float.div (score_of (h l))
                    (max_vector_score h first others)
             else 0) vector_weight).
Proof.
  intros Hv Hg. unfold reranked.
  set (m := max_vector_score h first others).
  set (n0 := if positive m then Float.div (score_of (h l)) m else 0%Q).
  rewrite rewrite_all_outside by exact Hg.
  apply (rewrite_all_makes (fun r => r_normalized_score r = Some n0)
           (fun r => r_final_score r = Some (Float.mul n0 vector_weight)));
    [auto | | | exact Hv].
  - intros r Hr. unfold finalize. cbn. now rewrite Hr.
  - rewrite rewrite_all_outside by exact Hg.
    apply (rewrite_all_makes (fun r => r_score r = r_score (h l))
             (fun r => r_normalized_score r = Some n0));
      [auto | | reflexivity | exact Hv].
    intros r Hr. unfold normalize_vector, score_of. cbn. now rewrite Hr.
Qed.



Lemma filter_keep_all {A : Type} (p : A -> bool) (l : list A) :
  (forall x, In x l -> p x = true) -> List.filter p l = l.
Proof.
  induction l as [|x l IH]; intros Hp; cbn [List.filter]; [reflexivity|].
  rewrite (Hp x) by now left. f_equal. apply IH. intros; apply Hp; now right.
Qed.



End WeightOneFacts.



(** Three vector hits whose scores are 0.375 plus one and plus two units
    in the last place, and 0.75: divided by the maximum, the two smaller
    scores both round to 0.5 plus one unit in the last place, so the
    stable sort leaves them as they came, the smaller score first; by
    score the order would be the reverse. *)
Lemma rerank_weight_one_merges_close_scores :
  fst (Retriever.rerank_results [0; 1; 2]%nat [] 1 Retriever.close_hits)
    = Py.Returned [2; 0; 1]%nat /\
  Py.sort_desc (fun l => Retriever.score_of (Retriever.close_hits l))
    [0; 1; 2]%nat = [2; 1; 0]%nat.
Proof. split; vm_compute; reflexivity. Qed.


(** Two negative scores divided by the smallest positive float both
    overflow to [-inf]: they are left in the order they came in. *)
Example rerank_weight_one_overflowing_scores :
  fst (Retriever.rerank_results [0; 1; 2]%nat [] 1 Retriever.steep_hits)
    = Py.Returned [2; 0; 1]%nat.
Proof. vm_compute. reflexivity. Qed.

(* ===================================================================== *)
(** * Further properties                                                  *)
(* ===================================================================== *)

(** ** Document chunker: what the loop produces, and when it stops *)

Lemma substring_all (s : string) : substring 0 (String.length s) s = s.
Proof. induction s as [|a s IH]; simpl; [reflexivity | now rewrite IH]. Qed.

Lemma slice_all (s : string) : Py.slice s 0 (Py.len s) = s.
Proof.
  unfold Py.slice. pose proof (len_nonneg s) as Hlen.
  rewrite adjust_zero, adjust_inside by lia.
  destruct (Z.ltb_spec 0 (Py.len s)) as [Hpos|Hzero].
  - unfold Py.len. rewrite Z.sub_0_r, Nat2Z.id. apply substring_all.
  - unfold Py.len in *. destruct s; [reflexivity | simpl in *; lia].
Qed.

Lemma chunk_step_start (c : Chunker.DocumentChunker) (txt : string)
    (doc : option string) (st : Chunker.LoopState) :
  Chunker.start (Chunker.chunk_step c txt doc st) =
    if Chunker.window_end c txt (Chunker.start st) <? Py.len txt
    then Chunker.window_end c txt (Chunker.start st) - Chunker.chunk_overlap c
    else Py.len txt.
Proof.
  unfold Chunker.chunk_step. destruct (Py.truthy_str _); reflexivity.
Qed.

(** X1.  A text that fits into one window ([len(text) <= chunk_size]) is
    chunked in at most one iteration: the result is the single chunk
    holding the stripped text, numbered 0 and spanning [0, len(text)), or
    no chunk at all when the text is blank. *)
Theorem chunk_text_single_window (c : Chunker.DocumentChunker) (txt : string)
    (doc : option string) (fuel : nat) :
  Py.len txt <= Chunker.chunk_size c ->
  Chunker.chunk_text (S fuel) c txt doc =
    Some (if Py.truthy_str (Py.strip txt)
          then [ {| Chunker.id := Chunker.make_chunk_id doc 0;
                    Chunker.text := Py.strip txt;
                    Chunker.start_pos := 0;
                    Chunker.end_pos := Py.len txt;
                    Chunker.doc_id := doc;
                    Chunker.chunk_num := 0 |} ]
          else []).
Proof.
  intros Hfit. pose proof (len_nonneg txt) as Hlen.
  unfold Chunker.chunk_text. cbn [Chunker.chunk_loop Chunker.start].
  destruct (Z.ltb_spec 0 (Py.len txt)) as [Hpos|Hzero].
  - assert (Hend : Chunker.window_end c txt 0 = Py.len txt).
    { unfold Chunker.window_end. rewrite Z.add_0_l, Z.min_r by lia.
      now rewrite Z.ltb_irrefl. }
    assert (Hstep :
      Chunker.chunk_step c txt doc
        {| Chunker.chunks := []; Chunker.start := 0; Chunker.next_num := 0 |}
      = {| Chunker.chunks :=
             if Py.truthy_str (Py.strip txt)
             then [ {| Chunker.id := Chunker.make_chunk_id doc 0;
                       Chunker.text := Py.strip txt;
                       Chunker.start_pos := 0;
                       Chunker.end_pos := Py.len txt;
                       Chunker.doc_id := doc;
                       Chunker.chunk_num := 0 |} ]
             else [];
           Chunker.start := Py.len txt;
           Chunker.next_num :=
             if Py.truthy_str (Py.strip txt) then 1 else 0 |}).
    { unfold Chunker.chunk_step. cbn [Chunker.start Chunker.chunks
        Chunker.next_num]. rewrite Hend, slice_all, Z.ltb_irrefl.
      destruct (Py.truthy_str (Py.strip txt)); reflexivity. }
    rewrite Hstep. destruct fuel; cbn [Chunker.chunk_loop Chunker.start
      Chunker.chunks]; now rewrite Z.ltb_irrefl.
  - assert (Hempty : txt = "").
    { unfold Py.len in *. destruct txt; [reflexivity | simpl in *; lia]. }
    subst txt. reflexivity.
Qed.

Lemma chunk_text_single_window_witness :
  Chunker.chunk_text 1 Chunker.default_chunker "  One. Two.  " (Some "d") =
    Some [ {| Chunker.id := "d_chunk_0";
              Chunker.text := "One. Two.";
              Chunker.start_pos := 0;
              Chunker.end_pos := 13;
              Chunker.doc_id := Some "d";
              Chunker.chunk_num := 0 |} ].
Proof.
  refine (chunk_text_single_window Chunker.default_chunker "  One. Two.  "
            (Some "d") 0 _).
  vm_compute. discriminate.
Defined.

Section ChunkLoopFacts.
Variable c : Chunker.DocumentChunker.
Variable txt : string.
Variable doc : option string.

(** What is true of the [n]-th chunk of a result. *)
Let well_formed (n : nat) (ch : Chunker.Chunk) : Prop :=
  Chunker.chunk_num ch = Z.of_nat n /\
  Chunker.id ch = Chunker.make_chunk_id doc (Z.of_nat n) /\
  Chunker.doc_id ch = doc /\
  Chunker.text ch =
    Py.strip (Py.slice txt (Chunker.start_pos ch) (Chunker.end_pos ch)) /\
  Chunker.text ch <> "".

Let numbered (st : Chunker.LoopState) : Prop :=
  Chunker.next_num st = Z.of_nat (List.length (Chunker.chunks st)) /\
  forall n ch, Chunker.chunks st !! n = Some ch -> well_formed n ch.

Lemma chunk_step_numbered (st : Chunker.LoopState) :
  numbered st -> numbered (Chunker.chunk_step c txt doc st).
Proof.
  intros [Hnum Hall]. unfold Chunker.chunk_step.
  destruct (Py.truthy_str _) eqn:Htruthy; [|split; assumption].
  split; cbn [Chunker.chunks Chunker.next_num].
  - rewrite length_app, Hnum. simpl. lia.
  - intros n ch Hn. apply lookup_app_Some in Hn as [Hn|[Hlen Hn]].
    + now apply Hall.
    + apply list_lookup_singleton_Some in Hn as [Hn <-].
      assert (n = List.length (Chunker.chunks st)) as -> by lia.
      unfold well_formed. cbn. rewrite <- Hnum.
      repeat split; try reflexivity.
      intros Hempty. rewrite Hempty in Htruthy. discriminate.
Qed.

Lemma chunk_loop_numbered (fuel : nat) :
  forall (st : Chunker.LoopState) (cs : list Chunker.Chunk),
    numbered st ->
    Chunker.chunk_loop fuel c txt doc st = Some cs ->
    forall n ch, cs !! n = Some ch -> well_formed n ch.
Proof.
  induction fuel as [|fuel IH]; intros st cs Hst; simpl;
    destruct (Chunker.start st <? Py.len txt).
  - discriminate.
  - intros [= <-]. apply Hst.
  - apply IH, chunk_step_numbered, Hst.
  - intros [= <-]. apply Hst.
Qed.

(** X2.  Whenever [chunk_text] returns, its chunks are numbered 0, 1, 2,
    ... in list order, the id of each is built from its number, each
    carries the document id, and the text of each is the stripped slice
    [text[start_pos:end_pos]] and is not empty. *)
Theorem chunk_text_chunks_well_formed (fuel : nat)
    (cs : list Chunker.Chunk) :
  Chunker.chunk_text fuel c txt doc = Some cs ->
  forall (n : nat) (ch : Chunker.Chunk),
    cs !! n = Some ch ->
    Chunker.chunk_num ch = Z.of_nat n /\
    Chunker.id ch = Chunker.make_chunk_id doc (Z.of_nat n) /\
    Chunker.doc_id ch = doc /\
    Chunker.text ch =
      Py.strip (Py.slice txt (Chunker.start_pos ch) (Chunker.end_pos ch)) /\
    Chunker.text ch <> "".
Proof.
  unfold Chunker.chunk_text. apply chunk_loop_numbered.
  split; [reflexivity|]. intros n ch Hn. inversion Hn.
Qed.

Lemma chunk_loop_terminates (fuel : nat) :
  Chunker.advances c txt ->
  forall st : Chunker.LoopState,
    0 <= Chunker.start st ->
    Py.len txt - Chunker.start st <= Z.of_nat fuel ->
    exists cs, Chunker.chunk_loop fuel c txt doc st = Some cs.
Proof.
  intros Hadv. induction fuel as [|fuel IH]; intros st Hnonneg Hfuel; simpl;
    destruct (Z.ltb_spec (Chunker.start st) (Py.len txt)) as [Hlt|Hge];
    eauto; [lia|].
  apply IH; rewrite chunk_step_start;
    destruct (Z.ltb_spec (Chunker.window_end c txt (Chunker.start st))
                (Py.len txt)) as [Hshort|Hlong].
  - specialize (Hadv (Chunker.start st) ltac:(lia) Hshort). lia.
  - lia.
  - specialize (Hadv (Chunker.start st) ltac:(lia) Hshort). lia.
  - lia.
Qed.

(** X3.  If every window that stops short of the end of the text is longer
    than the overlap, [chunk_text] terminates, after at most [len(text)]
    iterations. *)
Theorem chunk_text_terminates_when_windows_advance (fuel : nat) :
  Chunker.advances c txt ->
  Py.len txt <= Z.of_nat fuel ->
  exists cs, Chunker.chunk_text fuel c txt doc = Some cs.
Proof.
  intros Hadv Hfuel. unfold Chunker.chunk_text.
  apply chunk_loop_terminates; cbn; [exact Hadv | lia | lia].
Qed.

(** A text without sentence end keeps every window at full size. *)
Lemma no_boundary_advances :
  Py.absent "." txt -> Py.absent Chunker.newline txt ->
  0 <= Chunker.chunk_overlap c < Chunker.chunk_size c ->
  Chunker.advances c txt.
Proof.
  intros Hdot Hnl Hcfg start Hstart. unfold Chunker.window_end.
  destruct (Z.ltb_spec (Z.min (start + Chunker.chunk_size c) (Py.len txt))
              (Py.len txt)) as [Hshort|Hlong]; [|lia].
  unfold Py.rfind_in. rewrite !rfind_scan_absent by assumption.
  replace (Z.max (-1) (-1) >? start) with false
    by (symmetry; rewrite Z.gtb_ltb; apply Z.ltb_ge; lia).
  lia.
Qed.

(** X4.  On a text that contains neither ['.'] nor a newline, a chunker
    whose overlap is smaller than its chunk size always terminates. *)
Theorem chunk_text_terminates_without_boundaries (fuel : nat) :
  Py.absent "." txt -> Py.absent Chunker.newline txt ->
  0 <= Chunker.chunk_overlap c < Chunker.chunk_size c ->
  Py.len txt <= Z.of_nat fuel ->
  exists cs, Chunker.chunk_text fuel c txt doc = Some cs.
Proof.
  intros Hdot Hnl Hcfg Hfuel. unfold Chunker.chunk_text.
  apply chunk_loop_terminates; cbn;
    [now apply no_boundary_advances | lia | lia].
Qed.

End ChunkLoopFacts.

Lemma occurs_false_absent (c : ascii) (s : string) :
  Py.occurs c s = false -> Py.absent c s.
Proof.
  induction s as [|a s IH]; intros Hocc k; simpl in Hocc.
  - destruct k; discriminate.
  - apply orb_false_iff in Hocc as [Hne Hrest].
    destruct k as [|k]; simpl.
    + intros [= ->]. rewrite Ascii.eqb_refl in Hne. discriminate.
    + now apply IH.
Qed.

Lemma chunk_text_chunks_well_formed_witness :
  Chunker.chunk_num
    {| Chunker.id := "d_chunk_0"; Chunker.text := "One. Two.";
       Chunker.start_pos := 0; Chunker.end_pos := 13;
       Chunker.doc_id := Some "d"; Chunker.chunk_num := 0 |} = 0 /\
  "One. Two." <> "".
Proof.
  destruct (chunk_text_chunks_well_formed Chunker.default_chunker
              "  One. Two.  " (Some "d") 1 _ eq_refl 0%nat _ eq_refl)
    as (Hnum & _ & _ & _ & Htext).
  split; [exact Hnum | exact Htext].
Defined.

Lemma chunk_text_terminates_when_windows_advance_witness :
  exists cs,
    Chunker.chunk_text 2500 Chunker.default_chunker
      (Chunker.repeat_char "x" 2500) None = Some cs.
Proof.
  apply chunk_text_terminates_when_windows_advance.
  - apply no_boundary_advances.
    + apply occurs_false_absent. vm_compute. reflexivity.
    + apply occurs_false_absent. vm_compute. reflexivity.
    + cbn. lia.
  - vm_compute. discriminate.
Defined.

Lemma chunk_text_terminates_without_boundaries_witness :
  exists cs,
    Chunker.chunk_text 1700 Chunker.default_chunker
      (Chunker.repeat_char "y" 1700) (Some "doc") = Some cs.
Proof.
  apply chunk_text_terminates_without_boundaries.
  - apply occurs_false_absent. vm_compute. reflexivity.
  - apply occurs_false_absent. vm_compute. reflexivity.
  - cbn. lia.
  - vm_compute. discriminate.
Defined.

(** ** LLM handler: the text around the braces does not matter *)

Lemma append_cons (a : ascii) (s t : string) :
  (String a s ++ t)%string = String a (s ++ t)%string.
Proof. reflexivity. Qed.

Lemma append_nil (t : string) : ("" ++ t)%string = t.
Proof. reflexivity. Qed.

Lemma get_app_left (p s : string) :
  forall k : nat, (k < String.length p)%nat ->
    String.get k (p ++ s) = String.get k p.
Proof.
  induction p as [|a p IH]; intros k Hk; [simpl in Hk; lia|].
  rewrite append_cons. destruct k; [reflexivity|].
  cbn [String.get]. apply IH. simpl in Hk. lia.
Qed.

Lemma get_app_right (p s : string) :
  forall k : nat, String.get (String.length p + k) (p ++ s) = String.get k s.
Proof.
  induction p as [|a p IH]; intros k; [reflexivity|].
  rewrite append_cons. cbn [String.length Nat.add String.get]. apply IH.
Qed.

Lemma first_index_after_prefix (c : ascii) (p rest : string) :
  Py.absent c p -> Py.first_index c (p ++ String c rest) (String.length p).
Proof.
  intros Habs. split.
  - rewrite <- (Nat.add_0_r (String.length p)) at 1.
    now rewrite get_app_right.
  - intros k Hk. rewrite get_app_left by exact Hk. apply Habs.
Qed.

Lemma last_index_before_suffix (c : ascii) (p suffix : string) :
  Py.absent c suffix ->
  Py.last_index c (p ++ String c suffix) (String.length p).
Proof.
  intros Habs. split.
  - rewrite <- (Nat.add_0_r (String.length p)) at 1.
    now rewrite get_app_right.
  - intros k Hk.
    replace k with (String.length p + S (k - String.length p - 1))%nat by lia.
    rewrite get_app_right. cbn [String.get]. apply Habs.
Qed.

Lemma substring_app_left (b s : string) :
  substring 0 (String.length b) (b ++ s) = b.
Proof.
  induction b as [|a b IH]; [now destruct s|].
  rewrite append_cons. cbn [String.length substring]. now rewrite IH.
Qed.

Lemma substring_skip_prefix (p t : string) (n : nat) :
  substring (String.length p) n (p ++ t) = substring 0 n t.
Proof.
  induction p as [|a p IH]; [reflexivity|].
  rewrite append_cons. cbn [String.length substring]. exact IH.
Qed.

Lemma string_app_assoc (a b c : string) : ((a ++ b) ++ c = a ++ b ++ c)%string.
Proof.
  induction a as [|x a IH]; [reflexivity|].
  rewrite !append_cons. now rewrite IH.
Qed.

Lemma string_length_app (a b : string) :
  String.length (a ++ b) = (String.length a + String.length b)%nat.
Proof.
  induction a as [|x a IH]; [reflexivity|].
  rewrite append_cons. cbn [String.length Nat.add]. now rewrite IH.
Qed.

(** With the first ['{'] at [i] and the last ['}'] at [j > i], the parser
    receives the characters [i .. j]. *)
Lemma parse_response_braces (B : Ollama.Backend) (response : string)
    (w : Ollama.world B) (i j : nat) :
  Py.first_index "{" response i -> Py.last_index "}" response j ->
  (i < j)%nat ->
  Ollama.parse_response B response w =
    (Ollama.json_loads B (substring i (j - i + 1) response), w).
Proof.
  intros Hi Hj Hij. rewrite parse_response_cases.
  rewrite (find_first _ _ _ Hi), (rfind_last _ _ _ Hj).
  replace (Z.of_nat i >=? 0) with true by (symmetry; apply Z.geb_le; lia).
  replace (Z.of_nat j + 1 >? Z.of_nat i) with true
    by (symmetry; apply Z.gtb_lt; lia).
  cbn [andb]. rewrite slice_inside; [reflexivity | lia |].
  destruct Hj as [Hj _]. eapply get_lt_length, Hj.
Qed.

(** X5.  If the reply of the model is [prefix + "{" + middle + "}" +
    suffix] with no ['{'] in the prefix and no ['}'] in the suffix, the
    handler hands exactly ["{" + middle + "}"] to [json.loads]: it returns
    what that parses to, or the empty structure when the parse raises.
    Nothing of the prefix or the suffix reaches the parser. *)
Theorem extract_entities_ignores_surrounding_text
    (B : Ollama.Backend) (h : Ollama.OllamaHandler) (text : string)
    (w w' : Ollama.world B) (prefix middle suffix : string) :
  Py.absent "{" prefix -> Py.absent "}" suffix ->
  Ollama.generate B h (Ollama.extraction_prompt text)
    (Some Ollama.extraction_system_prompt) (3 # 10) None w
    = (Py.Returned (prefix ++ "{" ++ middle ++ "}" ++ suffix), w') ->
  Ollama.extract_entities B h text w =
    (Py.Returned
       match Ollama.json_loads B ("{" ++ middle ++ "}") with
       | Py.Returned parsed => parsed
       | Py.Raised _ => Ollama.empty_extraction
       end, w').
Proof.
  intros Hpre Hsuf Hgen.
  rewrite (extract_entities_unfold B h text w _ w' Hgen).
  set (i := String.length prefix).
  set (j := (String.length prefix + S (String.length middle))%nat).
  assert (Hfirst : Py.first_index "{"
            (prefix ++ "{" ++ middle ++ "}" ++ suffix) i).
  { apply (first_index_after_prefix "{" prefix (middle ++ "}" ++ suffix)).
    exact Hpre. }
  assert (Hlast : Py.last_index "}"
            (prefix ++ "{" ++ middle ++ "}" ++ suffix) j).
  { pose proof (last_index_before_suffix "}" (prefix ++ "{" ++ middle)
                  suffix Hsuf) as Hl.
    rewrite string_app_assoc, string_length_app in Hl.
    rewrite (append_cons "{" "" middle), append_nil in Hl.
    rewrite (append_cons "{" middle) in Hl.
    cbn [String.length] in Hl.
    rewrite (append_cons "{" "" (middle ++ "}" ++ suffix)), append_nil.
    rewrite (append_cons "}" "" suffix), append_nil.
    exact Hl. }
  rewrite (parse_response_braces B _ w' i j Hfirst Hlast)
    by (unfold i, j; lia).
  cbn [fst].
  replace (j - i + 1)%nat with (String.length ("{" ++ middle ++ "}"))
    by (rewrite (append_cons "{" "" (middle ++ "}")), append_nil;
        cbn [String.length]; rewrite string_length_app; simpl;
        unfold i, j; lia).
  unfold i. rewrite substring_skip_prefix.
  replace ("{" ++ middle ++ "}" ++ suffix)%string
    with (("{" ++ middle ++ "}") ++ suffix)%string
    by (now rewrite !string_app_assoc).
  now rewrite substring_app_left.
Qed.

Lemma extract_entities_ignores_surrounding_text_witness :
  Ollama.extract_entities
    (Ollama.scripted
       (Some ("Sure: " ++ "{" ++ Ollama.dq ++ "entities" ++ Ollama.dq
              ++ ":[]," ++ Ollama.dq ++ "relationships" ++ Ollama.dq ++ ":[]"
              ++ "}" ++ " Done.")))
    {| Ollama.model := "llama3.1" |} "Wheat rust." tt
  = (Py.Returned Ollama.empty_extraction, tt).
Proof.
  refine (extract_entities_ignores_surrounding_text
            (Ollama.scripted
               (Some ("Sure: " ++ "{" ++ Ollama.dq ++ "entities" ++ Ollama.dq
                      ++ ":[]," ++ Ollama.dq ++ "relationships" ++ Ollama.dq
                      ++ ":[]" ++ "}" ++ " Done.")))
            {| Ollama.model := "llama3.1" |} "Wheat rust." tt tt "Sure: "
            (Ollama.dq ++ "entities" ++ Ollama.dq ++ ":[],"
             ++ Ollama.dq ++ "relationships" ++ Ollama.dq ++ ":[]")
            " Done." _ _ _).
  - apply occurs_false_absent. vm_compute. reflexivity.
  - apply occurs_false_absent. vm_compute. reflexivity.
  - vm_compute. reflexivity.
Defined.

(** ** Knowledge graph builder: error isolation, counting, the cache *)

(** A loop over items on each of which the turn returns, and moves the
    accumulator along [T], returns, and moves it along [R] indexed by the
    number of turns. *)
Lemma for_each_steps {W A X : Type} (body : A -> X -> Py.M W A)
    (P : X -> Prop) (T : A -> A -> Prop) (R : nat -> A -> A -> Prop) :
  (forall a, R 0%nat a a) ->
  (forall n a b c, T a b -> R n b c -> R (S n) a c) ->
  (forall acc x w, P x -> exists acc' w',
      body acc x w = (Py.Returned acc', w') /\ T acc acc') ->
  forall (xs : list X) (acc : A) (w : W),
  List.Forall P xs ->
  exists acc' w',
    Py.for_each body acc xs w = (Py.Returned acc', w') /\
    R (List.length xs) acc acc'.
Proof.
  intros Hrefl Hcomp Hbody. induction xs as [|x xs IH]; intros acc w Hall.
  - exists acc, w. split; [reflexivity | apply Hrefl].
  - cbn [Py.for_each]. unfold Py.bind.
    inversion Hall as [|? ? Hx Hxs]; subst.
    destruct (Hbody acc x w Hx) as (acc1 & w1 & Hstep & HT). rewrite Hstep.
    destruct (IH acc1 w1 Hxs) as (acc' & w' & Hrest & HR).
    exists acc', w'. split; [exact Hrest|]. cbn [List.length]. eauto.
Qed.

(** A loop raises as soon as one turn does. *)
Lemma for_each_raises {W A X : Type} (body : A -> X -> Py.M W A)
    (good : X -> bool) :
  (forall acc x w, good x = false ->
     exists exn w', body acc x w = (Py.Raised exn, w')) ->
  forall (xs : list X) (acc : A) (w : W),
  forallb good xs = false ->
  exists exn w', Py.for_each body acc xs w = (Py.Raised exn, w').
Proof.
  intros Hbad. induction xs as [|x xs IH]; intros acc w Hsome.
  - discriminate.
  - cbn [Py.for_each forallb] in *. unfold Py.bind.
    destruct (good x) eqn:Hx.
    + destruct (body acc x w) as [[acc1|exn] w1]; [apply IH, Hsome | eauto].
    + destruct (Hbad acc x w Hx) as (exn & w' & ->). eauto.
Qed.

(** Two nested loops, the inner one over the records of each item, are
    one loop over all records when every item has records. *)
Lemma for_each_records {W A : Type} (body : A -> Ollama.json -> Py.M W A)
    (key : string) (extractions : list Ollama.json) :
  forall (acc : A) (w : W),
  List.Forall
    (fun e => exists rs, GraphBuilder.records e key = Py.Returned rs)
    extractions ->
  Py.for_each
    (fun acc e =>
       Py.bind (Py.lift (GraphBuilder.records e key))
         (fun rs => Py.for_each body acc rs)) acc extractions w =
  Py.for_each body acc (GraphBuilder.all_records key extractions) w.
Proof.
  unfold GraphBuilder.all_records.
  induction extractions as [|e es IH]; intros acc w Hall.
  - reflexivity.
  - inversion Hall as [|? ? [rs Hrs] Hes]; subst.
    cbn [Py.for_each map concat]. rewrite Hrs, for_each_app.
    pose proof (fun acc1 w1 => IH acc1 w1 Hes) as IH'.
    unfold Py.bind, Py.lift in *.
    destruct (Py.for_each body acc rs w) as [[acc1|exn] w1];
      [apply IH' | reflexivity].
Qed.

Section BuilderMore.
Import Ollama.
Import Json.
Variable N : Neo4j.Handler.

(** How far [n] records can move the counters. *)
Let moved (n : nat) (s s' : GraphBuilder.Stats) : Prop :=
  GraphBuilder.entities_created s <= GraphBuilder.entities_created s' /\
  GraphBuilder.entities_found s <= GraphBuilder.entities_found s' /\
  GraphBuilder.relationships_created s
    <= GraphBuilder.relationships_created s' /\
  GraphBuilder.errors s <= GraphBuilder.errors s' /\
  (GraphBuilder.entities_created s' + GraphBuilder.entities_found s'
   + GraphBuilder.relationships_created s' + GraphBuilder.errors s')
  <= (GraphBuilder.entities_created s + GraphBuilder.entities_found s
      + GraphBuilder.relationships_created s + GraphBuilder.errors s)
     + Z.of_nat n.

Let entity_moved (n : nat) (s s' : GraphBuilder.Stats) : Prop :=
  moved n s s' /\
  GraphBuilder.relationships_created s' = GraphBuilder.relationships_created s.

Let relationship_moved (n : nat) (s s' : GraphBuilder.Stats) : Prop :=
  moved n s s' /\
  GraphBuilder.entities_created s' = GraphBuilder.entities_created s /\
  GraphBuilder.entities_found s' = GraphBuilder.entities_found s.

(** The turn for an entity that is a dict returns: whatever is raised
    inside is counted. *)
Lemma entity_step_moves (stats : GraphBuilder.Stats) (entity : json)
    (st : GraphBuilder.State N) :
  GraphBuilder.is_dict entity = true ->
  exists stats' st',
    GraphBuilder.entity_step N stats entity st = (Py.Returned stats', st') /\
    entity_moved 1 stats stats'.
Proof.
  destruct entity as [| | | | |fields]; try discriminate. intros _.
  unfold GraphBuilder.entity_step, Py.try_except, Py.bind.
  destruct (GraphBuilder._create_or_get_entity N (JObj fields) st)
    as [[entity_id|exn] st1].
  - destruct (GraphBuilder.truthy_id entity_id).
    + unfold Py.lift.
      destruct (and_then (jget (JObj fields) "name" (JStr "")) text)
        as [name|exn].
      * unfold GraphBuilder.get_cache. destruct (bool_decide _);
          eexists; eexists; (split; [reflexivity|]);
          unfold entity_moved, moved; cbn; lia.
      * cbn. eexists; eexists; split; [reflexivity|].
        unfold entity_moved, moved; cbn; lia.
    + eexists; eexists; split; [reflexivity|].
      unfold entity_moved, moved; lia.
  - cbn. eexists; eexists; split; [reflexivity|].
    unfold entity_moved, moved; cbn; lia.
Qed.

(** The turn for an entity that is not a dict raises: the handler asks
    it for its name. *)
Lemma entity_step_raises (stats : GraphBuilder.Stats) (entity : json)
    (st : GraphBuilder.State N) :
  GraphBuilder.is_dict entity = false ->
  GraphBuilder.entity_step N stats entity st
  = (Py.Raised "AttributeError", st).
Proof.
  destruct entity; try discriminate; intros _; reflexivity.
Qed.

Lemma relationship_step_moves (stats : GraphBuilder.Stats)
    (rel : json) (st : GraphBuilder.State N) :
  exists stats' st',
    GraphBuilder.relationship_step N stats rel st
      = (Py.Returned stats', st') /\
    relationship_moved 1 stats stats'.
Proof.
  unfold GraphBuilder.relationship_step, Py.try_except, Py.bind.
  destruct (GraphBuilder._create_relationship N rel st)
    as [[[]|exn] st1];
    eexists; eexists; (split; [reflexivity|]);
    unfold relationship_moved, moved; cbn; lia.
Qed.

(** The turn of the first pass for an extraction whose entities cannot
    be taken up raises. *)
Lemma entities_turn_raises (stats : GraphBuilder.Stats) (extraction : json)
    (st : GraphBuilder.State N) :
  GraphBuilder.entities_well_formed extraction = false ->
  exists exn st',
    Py.bind (Py.lift (GraphBuilder.records extraction "entities"))
      (fun entities =>
         Py.for_each (GraphBuilder.entity_step N) stats entities) st
    = (Py.Raised exn, st').
Proof.
  unfold GraphBuilder.entities_well_formed, Py.bind, Py.lift.
  destruct (GraphBuilder.records extraction "entities") as [entities|exn];
    [|eauto].
  apply for_each_raises. intros acc x w Hx.
  rewrite entity_step_raises by exact Hx. eauto.
Qed.

Lemma relationships_turn_raises (stats : GraphBuilder.Stats)
    (extraction : json) (st : GraphBuilder.State N) :
  GraphBuilder.relationships_well_formed extraction = false ->
  exists exn st',
    Py.bind (Py.lift (GraphBuilder.records extraction "relationships"))
      (fun relationships =>
         Py.for_each (GraphBuilder.relationship_step N) stats relationships)
      st
    = (Py.Raised exn, st').
Proof.
  unfold GraphBuilder.relationships_well_formed, Py.bind, Py.lift.
  destruct (GraphBuilder.records extraction "relationships")
    as [relationships|exn]; [discriminate | eauto].
Qed.

Lemma entities_well_formed_records (extractions : list json) :
  forallb GraphBuilder.entities_well_formed extractions = true ->
  List.Forall
    (fun e => exists rs, GraphBuilder.records e "entities" = Py.Returned rs)
    extractions /\
  List.Forall (fun entity => GraphBuilder.is_dict entity = true)
    (GraphBuilder.all_records "entities" extractions).
Proof.
  unfold GraphBuilder.all_records, GraphBuilder.entities_well_formed.
  induction extractions as [|e es IH]; cbn [forallb map concat].
  - intros _. split; constructor.
  - intros Hall. apply andb_prop in Hall as [He Hes].
    destruct (IH Hes) as [IH1 IH2].
    destruct (GraphBuilder.records e "entities") as [rs|exn] eqn:Hrecs;
      [|discriminate].
    split; [constructor; eauto|].
    apply List.Forall_app. split; [|exact IH2].
    apply List.Forall_forall. intros x Hx.
    rewrite List.forallb_forall in He. now apply He.
Qed.

Lemma relationships_well_formed_records (extractions : list json) :
  forallb GraphBuilder.relationships_well_formed extractions = true ->
  List.Forall
    (fun e =>
       exists rs, GraphBuilder.records e "relationships" = Py.Returned rs)
    extractions.
Proof.
  unfold GraphBuilder.relationships_well_formed.
  induction extractions as [|e es IH]; cbn [forallb].
  - constructor.
  - intros Hall. apply andb_prop in Hall as [He Hes].
    constructor; [|exact (IH Hes)].
    destruct (GraphBuilder.records e "relationships") eqn:Hrecs;
      [eauto|discriminate].
Qed.

Lemma well_formed_split (extractions : list json) :
  forallb GraphBuilder.well_formed extractions
  = forallb GraphBuilder.entities_well_formed extractions
    && forallb GraphBuilder.relationships_well_formed extractions.
Proof.
  induction extractions as [|e es IH]; [reflexivity|].
  cbn [forallb]. rewrite IH. unfold GraphBuilder.well_formed.
  destruct (GraphBuilder.entities_well_formed e),
    (GraphBuilder.relationships_well_formed e),
    (forallb GraphBuilder.entities_well_formed es); reflexivity.
Qed.

(** X6.  [build_from_extractions] returns exactly for the batches it can
    walk through: every extraction is a dict whose [entities] can be
    iterated and are dicts and whose [relationships] can be iterated.  On
    such a batch it never raises, whatever the store does and whatever the
    records hold: every failure is counted.  No counter decreases, each
    record moves the counters by at most one in total, the entity counters
    account for at most the entity records and [relationships_created] for
    at most the relationship records.  On any other batch it raises. *)
Theorem build_from_extractions_counts (extractions : list json)
    (st : GraphBuilder.State N) :
  (forallb GraphBuilder.well_formed extractions = true ->
   exists (stats : GraphBuilder.Stats) (st' : GraphBuilder.State N),
     GraphBuilder.build_from_extractions N extractions st
       = (Py.Returned stats, st') /\
     0 <= GraphBuilder.entities_created stats /\
     0 <= GraphBuilder.entities_found stats /\
     0 <= GraphBuilder.relationships_created stats /\
     0 <= GraphBuilder.errors stats /\
     GraphBuilder.entities_created stats + GraphBuilder.entities_found stats
       <= GraphBuilder.count_entities extractions /\
     GraphBuilder.relationships_created stats
       <= GraphBuilder.count_relationships extractions /\
     GraphBuilder.entities_created stats + GraphBuilder.entities_found stats
       + GraphBuilder.relationships_created stats + GraphBuilder.errors stats
       <= GraphBuilder.count_entities extractions
          + GraphBuilder.count_relationships extractions) /\
  (forallb GraphBuilder.well_formed extractions = false ->
   exists (exn : string) (st' : GraphBuilder.State N),
     GraphBuilder.build_from_extractions N extractions st
       = (Py.Raised exn, st')).
Proof.
  rewrite well_formed_split.
  unfold GraphBuilder.build_from_extractions, Py.bind.
  unfold GraphBuilder.entities_pass, GraphBuilder.relationships_pass.
  split.
  - intros Hall. apply andb_prop in Hall as [Hentities Hrelationships].
    destruct (entities_well_formed_records _ Hentities) as [Hrecs Hdicts].
    rewrite (for_each_records _ _ _ _ _ Hrecs).
    destruct (for_each_steps (GraphBuilder.entity_step N)
                (fun entity => GraphBuilder.is_dict entity = true)
                (entity_moved 1) entity_moved
                ltac:(intros a; unfold entity_moved, moved; lia)
                ltac:(intros n a b c; unfold entity_moved, moved; lia)
                entity_step_moves
                (GraphBuilder.all_records "entities" extractions)
                GraphBuilder.zero_stats st Hdicts)
      as (stats1 & st1 & Hpass1 & Hmoved1).
    rewrite Hpass1.
    rewrite (for_each_records _ _ _ _ _
               (relationships_well_formed_records _ Hrelationships)).
    destruct (for_each_steps (GraphBuilder.relationship_step N)
                (fun _ => True)
                (relationship_moved 1) relationship_moved
                ltac:(intros a; unfold relationship_moved, moved; lia)
                ltac:(intros n a b c; unfold relationship_moved, moved; lia)
                ltac:(intros acc x w _; apply relationship_step_moves)
                (GraphBuilder.all_records "relationships" extractions)
                stats1 st1 ltac:(apply List.Forall_forall; trivial))
      as (stats2 & st2 & Hpass2 & Hmoved2).
    rewrite Hpass2. exists stats2, st2. split; [reflexivity|].
    unfold GraphBuilder.count_entities, GraphBuilder.count_relationships,
      GraphBuilder.count_records.
    unfold entity_moved, relationship_moved, moved in *.
    cbn [GraphBuilder.zero_stats GraphBuilder.entities_created
         GraphBuilder.entities_found GraphBuilder.relationships_created
         GraphBuilder.errors] in *.
    lia.
  - intros Hsome.
    destruct (forallb GraphBuilder.entities_well_formed extractions)
      eqn:Hentities.
    + cbn [andb] in Hsome.
      destruct (entities_well_formed_records _ Hentities) as [Hrecs Hdicts].
      rewrite (for_each_records _ _ _ _ _ Hrecs).
      destruct (for_each_steps (GraphBuilder.entity_step N)
                  (fun entity => GraphBuilder.is_dict entity = true)
                  (fun _ _ => True) (fun _ _ _ => True)
                  ltac:(intros; exact I) ltac:(intros; exact I)
                  ltac:(intros acc x w Hx;
                        destruct (entity_step_moves acc x w Hx)
                          as (s' & w' & Hs & _); eauto)
                  (GraphBuilder.all_records "entities" extractions)
                  GraphBuilder.zero_stats st Hdicts)
        as (stats1 & st1 & Hpass1 & _).
      rewrite Hpass1. cbn beta iota.
      destruct (for_each_raises
                  (fun stats extraction =>
                     Py.bind
                       (Py.lift
                          (GraphBuilder.records extraction "relationships"))
                       (fun relationships =>
                          Py.for_each (GraphBuilder.relationship_step N)
                            stats relationships))
                  GraphBuilder.relationships_well_formed
                  relationships_turn_raises extractions stats1 st1 Hsome)
        as (exn & st' & Hrun).
      rewrite Hrun. eauto.
    + destruct (for_each_raises
                  (fun stats extraction =>
                     Py.bind
                       (Py.lift (GraphBuilder.records extraction "entities"))
                       (fun entities =>
                          Py.for_each (GraphBuilder.entity_step N)
                            stats entities))
                  GraphBuilder.entities_well_formed
                  entities_turn_raises extractions GraphBuilder.zero_stats
                  st Hentities)
        as (exn & st' & Hrun).
      rewrite Hrun. eauto.
Qed.

(** *** The cache *)

Lemma lower_empty (s : string) : Py.lower s = "" -> s = "".
Proof. destruct s; [reflexivity | discriminate]. Qed.

Lemma truthy_str_nonempty (s : string) : Py.truthy_str s = true <-> s <> "".
Proof. destruct s; simpl; split; congruence. Qed.

(** What [_create_or_get_entity] leaves in the cache when it returns for a
    name that is not blank. *)
Lemma create_or_get_entity_stores (entity : list (string * json))
    (st st' : GraphBuilder.State N) (i : option string) :
  GraphBuilder._create_or_get_entity N (JObj entity) st
    = (Py.Returned i, st') ->
  Py.strip (GraphBuilder.field entity "name" "") <> "" ->
  fst st' !! Py.lower (Py.strip (GraphBuilder.field entity "name" ""))
    = Some i.
Proof.
  unfold GraphBuilder._create_or_get_entity, Py.bind, Py.lift.
  destruct (GraphBuilder.stripped (JObj entity) "name" "") as [name|exn]
    eqn:Hstripped; [|discriminate].
  apply stripped_returns in Hstripped as (fields & [= <-] & Htext & ->).
  destruct (GraphBuilder.stripped (JObj entity) "type" "Entity")
    as [entity_type|exn]; [|discriminate].
  cbn [jget]. intros Hrun Hname.
  apply truthy_str_nonempty in Hname. rewrite Hname in Hrun.
  cbn [negb] in Hrun. unfold GraphBuilder.get_cache in Hrun.
  destruct (fst st !! _) as [cached|] eqn:Hhit.
  - injection Hrun as <- <-. exact Hhit.
  - cbn [dict_items] in Hrun.
    unfold GraphBuilder.neo4j, GraphBuilder.set_cache in Hrun.
    destruct (Neo4j.get_or_create_entity N _ _ (snd st))
      as [[entity_id|exn] w']; [|discriminate].
    injection Hrun as <- <-. cbn [fst]. apply lookup_insert_eq.
Qed.

(** X7.  Once [_create_or_get_entity] has returned an id for a name, a
    later call for any entity record with a string for a name and for a
    type, whose name differs from the first only in case and surrounding
    whitespace, returns the same id and touches neither the store nor the
    cache. *)
Theorem create_or_get_entity_cache_hit
    (first again : list (string * json))
    (st st' : GraphBuilder.State N) (i : option string) :
  GraphBuilder._create_or_get_entity N (JObj first) st
    = (Py.Returned i, st') ->
  Py.strip (GraphBuilder.field first "name" "") <> "" ->
  GraphBuilder.textual again "name" = true ->
  GraphBuilder.textual again "type" = true ->
  Py.lower (Py.strip (GraphBuilder.field again "name" ""))
    = Py.lower (Py.strip (GraphBuilder.field first "name" "")) ->
  GraphBuilder._create_or_get_entity N (JObj again) st'
    = (Py.Returned i, st').
Proof.
  intros Hrun Hname Htext_name Htext_type Hsame.
  pose proof (create_or_get_entity_stores _ _ _ _ Hrun Hname) as Hcached.
  unfold GraphBuilder._create_or_get_entity, Py.bind, Py.lift.
  rewrite !stripped_textual by assumption. cbn [jget].
  assert (Hagain : Py.truthy_str
            (Py.strip (GraphBuilder.field again "name" "")) = true).
  { apply truthy_str_nonempty. intros Hempty. apply Hname.
    apply lower_empty. rewrite <- Hsame, Hempty. reflexivity. }
  rewrite Hagain. cbn [negb]. unfold GraphBuilder.get_cache.
  rewrite Hsame, Hcached. reflexivity.
Qed.

Lemma create_or_get_entity_grows (entity : json)
    (st : GraphBuilder.State N) :
  fst st ⊆ fst (snd (GraphBuilder._create_or_get_entity N entity st)).
Proof.
  unfold GraphBuilder._create_or_get_entity, Py.bind, Py.lift.
  destruct (GraphBuilder.stripped entity "name" ""); [|reflexivity].
  destruct (GraphBuilder.stripped entity "type" "Entity"); [|reflexivity].
  destruct (jget entity "description" (JStr "")); [|reflexivity].
  destruct (negb _); [reflexivity|].
  unfold GraphBuilder.get_cache.
  destruct (fst st !! _) as [cached|] eqn:Hhit; [reflexivity|].
  destruct (dict_items entity); [|reflexivity].
  unfold GraphBuilder.neo4j, GraphBuilder.set_cache.
  destruct (Neo4j.get_or_create_entity N _ _ (snd st))
    as [[entity_id|exn] w']; cbn [fst snd]; [|reflexivity].
  now apply insert_subseteq.
Qed.

Lemma entity_step_grows (stats : GraphBuilder.Stats)
    (entity : json) (st : GraphBuilder.State N) :
  fst st ⊆ fst (snd (GraphBuilder.entity_step N stats entity st)).
Proof.
  pose proof (create_or_get_entity_grows entity st) as Hgrow.
  unfold GraphBuilder.entity_step, Py.try_except, Py.bind, Py.lift.
  destruct (GraphBuilder._create_or_get_entity N entity st)
    as [[entity_id|exn] st1]; cbn [snd] in *.
  - destruct (GraphBuilder.truthy_id entity_id); [|exact Hgrow].
    destruct (and_then (jget entity "name" (JStr "")) text).
    + unfold GraphBuilder.get_cache. now destruct (bool_decide _).
    + now destruct (jget entity "name" JNull).
  - now destruct (jget entity "name" JNull).
Qed.

Lemma entities_pass_grows (stats : GraphBuilder.Stats)
    (extractions : list json) (st : GraphBuilder.State N) :
  fst st ⊆ fst (snd (GraphBuilder.entities_pass N stats extractions st)).
Proof.
  unfold GraphBuilder.entities_pass.
  apply (for_each_world _
           (fun st1 st2 : GraphBuilder.State N => fst st1 ⊆ fst st2)).
  - intros w. reflexivity.
  - intros w1 w2 w3 H12 H23. etrans; eassumption.
  - intros acc e w. unfold Py.bind, Py.lift.
    destruct (GraphBuilder.records e "entities"); [|reflexivity].
    apply (for_each_world (GraphBuilder.entity_step N)
             (fun st1 st2 : GraphBuilder.State N => fst st1 ⊆ fst st2)).
    + intros w0. reflexivity.
    + intros w1 w2 w3 H12 H23. etrans; eassumption.
    + intros. apply entity_step_grows.
Qed.

Lemma relationships_pass_keeps_cache (stats : GraphBuilder.Stats)
    (extractions : list json) (st : GraphBuilder.State N) :
  fst st
  = fst (snd (GraphBuilder.relationships_pass N stats extractions st)).
Proof.
  unfold GraphBuilder.relationships_pass.
  apply (for_each_world _
           (fun st1 st2 : GraphBuilder.State N => fst st1 = fst st2)).
  - intros w. reflexivity.
  - intros w1 w2 w3 H12 H23. congruence.
  - intros acc e w. apply relationships_turn_keeps_cache.
Qed.

(** X8.  A build only ever adds to the cache: every name that was cached
    when the build started is still cached, with the same id, when it
    ends.  The first id stored for a name is never replaced. *)
Theorem build_from_extractions_keeps_cached_ids
    (extractions : list json) (st : GraphBuilder.State N) :
  fst st ⊆ fst (snd (GraphBuilder.build_from_extractions N extractions st)).
Proof.
  unfold GraphBuilder.build_from_extractions, Py.bind.
  pose proof (entities_pass_grows GraphBuilder.zero_stats extractions st)
    as H1.
  destruct (GraphBuilder.entities_pass N GraphBuilder.zero_stats extractions st)
    as [[stats1|exn] st1]; cbn [snd] in *; [|exact H1].
  pose proof (relationships_pass_keeps_cache stats1 extractions st1) as H2.
  destruct (GraphBuilder.relationships_pass N stats1 extractions st1)
    as [[stats2|exn] st2]; cbn in *; now rewrite <- H2.
Qed.

(** X9.  An entity record whose name is missing or blank, and whose type
    is a string or missing, is passed over: its turn leaves the
    statistics, the cache and the store as they were; it is neither found,
    nor created, nor an error. *)
Theorem entity_step_ignores_blank_name (stats : GraphBuilder.Stats)
    (entity : list (string * json)) (st : GraphBuilder.State N) :
  GraphBuilder.textual entity "name" = true ->
  GraphBuilder.textual entity "type" = true ->
  Py.strip (GraphBuilder.field entity "name" "") = "" ->
  GraphBuilder.entity_step N stats (JObj entity) st = (Py.Returned stats, st).
Proof.
  intros Hname Htype Hblank.
  unfold GraphBuilder.entity_step, GraphBuilder._create_or_get_entity,
    Py.try_except, Py.bind, Py.lift.
  rewrite !stripped_textual by assumption. cbn [jget].
  rewrite Hblank. reflexivity.
Qed.

End BuilderMore.

Lemma build_from_extractions_counts_witness :
  exists (stats : GraphBuilder.Stats)
         (st' : GraphBuilder.State Neo4j.memory),
    GraphBuilder.build_from_extractions Neo4j.memory
      GraphBuilder.untidy_batch GraphBuilder.fresh = (Py.Returned stats, st') /\
    GraphBuilder.entities_created stats + GraphBuilder.entities_found stats
      + GraphBuilder.relationships_created stats + GraphBuilder.errors stats
      <= GraphBuilder.count_entities GraphBuilder.untidy_batch
         + GraphBuilder.count_relationships GraphBuilder.untidy_batch.
Proof.
  destruct (proj1 (build_from_extractions_counts Neo4j.memory
                     GraphBuilder.untidy_batch GraphBuilder.fresh) eq_refl)
    as (stats & st' & Hrun & _ & _ & _ & _ & _ & _ & Htotal).
  exists stats, st'. split; [exact Hrun | exact Htotal].
Defined.

Lemma create_or_get_entity_cache_hit_witness :
  exists (i : option string) (st' : GraphBuilder.State Neo4j.memory),
    GraphBuilder._create_or_get_entity Neo4j.memory GraphBuilder.wheat
      GraphBuilder.fresh = (Py.Returned i, st') /\
    GraphBuilder._create_or_get_entity Neo4j.memory
      (Ollama.JObj [("name", Ollama.JStr " WHEAT ");
                    ("type", Ollama.JStr "Cereal")]) st'
    = (Py.Returned i, st').
Proof.
  eexists. eexists. split.
  - vm_compute. reflexivity.
  - apply (create_or_get_entity_cache_hit Neo4j.memory
             [("name", Ollama.JStr "Wheat"); ("type", Ollama.JStr "Crop")]
             [("name", Ollama.JStr " WHEAT "); ("type", Ollama.JStr "Cereal")]
             GraphBuilder.fresh).
    + vm_compute. reflexivity.
    + vm_compute. discriminate.
    + reflexivity.
    + reflexivity.
    + vm_compute. reflexivity.
Defined.

Lemma entity_step_ignores_blank_name_witness :
  GraphBuilder.entity_step Neo4j.memory GraphBuilder.zero_stats
    (Ollama.JObj [("name", Ollama.JStr "   "); ("type", Ollama.JStr "Crop")])
    GraphBuilder.fresh
  = (Py.Returned GraphBuilder.zero_stats, GraphBuilder.fresh).
Proof.
  apply entity_step_ignores_blank_name.
  - reflexivity.
  - reflexivity.
  - vm_compute. reflexivity.
Defined.

(** The same batch of three extractions, run: the entity whose type is
    [null] and the relationship that is a string are counted as errors,
    the blank name and the dangling relationship are passed over. *)
Example untidy_batch_counts :
  fst (GraphBuilder.build_from_extractions Neo4j.memory
         GraphBuilder.untidy_batch GraphBuilder.fresh)
  = Py.Returned {| GraphBuilder.entities_created := 1;
                   GraphBuilder.entities_found := 2;
                   GraphBuilder.relationships_created := 1;
                   GraphBuilder.errors := 2 |}.
Proof. vm_compute. reflexivity. Qed.

(** A blank name does not save a record whose type is [null]: the type is
    stripped before the name is looked at. *)
Example blank_name_with_null_type_is_an_error :
  GraphBuilder.entity_step Neo4j.memory GraphBuilder.zero_stats
    (Ollama.JObj [("name", Ollama.JStr "  "); ("type", Ollama.JNull)])
    GraphBuilder.fresh
  = (Py.Returned (GraphBuilder.failed GraphBuilder.zero_stats),
     GraphBuilder.fresh).
Proof. vm_compute. reflexivity. Qed.

(** A batch with an entity that is not a dict stops the build. *)
Example entity_that_is_a_string_stops_the_build :
  fst (GraphBuilder.build_from_extractions Neo4j.memory
         [ Ollama.JObj [("entities", Ollama.JArr [Ollama.JStr "Wheat"])] ]
         GraphBuilder.fresh)
  = Py.Raised "AttributeError".
Proof. vm_compute. reflexivity. Qed.

(** *** What reaches the store as a relationship type *)

Lemma islower_upper_char (a : ascii) : Py.islower (Py.upper_char a) = false.
Proof.
  destruct a as [[] [] [] [] [] [] [] []]; vm_compute; reflexivity.
Qed.

Lemma map_chars_get (f : ascii -> ascii) (s : string) :
  forall (k : nat) (a : ascii),
    String.get k (Py.map_chars f s) = Some a ->
    exists b, String.get k s = Some b /\ a = f b.
Proof.
  induction s as [|x s IH]; intros k a; simpl.
  - destruct k; discriminate.
  - destruct k as [|k]; [intros [= <-]; eauto | apply IH].
Qed.

Lemma normalized_type_shape (rel : list (string * Ollama.json)) (k : nat)
    (a : ascii) :
  String.get k (GraphBuilder.normalized_type rel) = Some a ->
  a <> " "%char /\ Py.islower a = false.
Proof.
  unfold GraphBuilder.normalized_type, Py.replace, Py.upper. intros Hget.
  apply map_chars_get in Hget as (b & Hb & ->).
  apply map_chars_get in Hb as (c & _ & ->).
  destruct (Ascii.eqb_spec (Py.upper_char c) " ") as [Heq|Hne].
  - split; [discriminate | reflexivity].
  - split; [exact Hne | apply islower_upper_char].
Qed.

(** X10.  [_create_relationship] does one of three things.  For a record
    that is not a dict, or whose [from], [to] or [type] is present and not
    a string, it raises [AttributeError] before it looks at the cache.
    Otherwise it either returns [False] and leaves cache and store
    untouched; or both endpoint names are cached with non-empty ids and it
    makes exactly the store call
    [create_relationship(from_id, to_id, rel_type, ...)], where [rel_type]
    is not empty and contains neither a space nor a lower-case letter. *)
Theorem create_relationship_skips_or_stores (N : Neo4j.Handler)
    (rel : Ollama.json) (st : GraphBuilder.State N) :
  (GraphBuilder.well_typed rel = false /\
   GraphBuilder._create_relationship N rel st
   = (Py.Raised "AttributeError", st)) \/
  (GraphBuilder.well_typed rel = true /\
   GraphBuilder._create_relationship N rel st = (Py.Returned false, st)) \/
  exists (fields : list (string * Ollama.json)) (from_id to_id : string)
         (properties : Json.Dict),
    rel = Ollama.JObj fields /\
    GraphBuilder.well_typed rel = true /\
    fst st !! Py.lower (Py.strip (GraphBuilder.field fields "from" ""))
      = Some (Some from_id) /\
    fst st !! Py.lower (Py.strip (GraphBuilder.field fields "to" ""))
      = Some (Some to_id) /\
    from_id <> "" /\ to_id <> "" /\
    GraphBuilder.normalized_type fields <> "" /\
    (forall (k : nat) (a : ascii),
        String.get k (GraphBuilder.normalized_type fields) = Some a ->
        a <> " "%char /\ Py.islower a = false) /\
    GraphBuilder._create_relationship N rel st =
      GraphBuilder.neo4j
        (Neo4j.create_relationship N from_id to_id
           (GraphBuilder.normalized_type fields) properties) st.
Proof.
  destruct rel as [| | | | |fields]; try (left; split; reflexivity).
  unfold GraphBuilder.well_typed.
  destruct (GraphBuilder.textual fields "from") eqn:Hfrom_text.
  2:{ left. split; [reflexivity|].
      unfold GraphBuilder._create_relationship, Py.bind, Py.lift,
        GraphBuilder.stripped, GraphBuilder.textual, Json.jget in *.
      destruct (Json.lookup_field "from" fields) as [[]|];
        try discriminate; reflexivity. }
  destruct (GraphBuilder.textual fields "to") eqn:Hto_text.
  2:{ left. split; [reflexivity|].
      unfold GraphBuilder._create_relationship, Py.bind, Py.lift.
      rewrite (stripped_textual fields "from" "" Hfrom_text).
      unfold GraphBuilder.stripped, GraphBuilder.textual, Json.jget in *.
      destruct (Json.lookup_field "to" fields) as [[]|];
        try discriminate; reflexivity. }
  destruct (GraphBuilder.textual fields "type") eqn:Htype_text.
  2:{ left. split; [reflexivity|].
      unfold GraphBuilder._create_relationship, Py.bind, Py.lift.
      rewrite (stripped_textual fields "from" "" Hfrom_text).
      rewrite (stripped_textual fields "to" "" Hto_text).
      unfold GraphBuilder.stripped, GraphBuilder.textual, Json.jget in *.
      destruct (Json.lookup_field "type" fields) as [[]|];
        try discriminate; reflexivity. }
  cbn [andb]. right.
  unfold GraphBuilder._create_relationship, Py.bind, Py.lift.
  rewrite (stripped_textual fields "from" "" Hfrom_text).
  rewrite (stripped_textual fields "to" "" Hto_text).
  rewrite (stripped_textual fields "type" "RELATED_TO" Htype_text).
  fold (GraphBuilder.normalized_type fields).
  destruct (Py.truthy_str
              (Py.lower (Py.strip (GraphBuilder.field fields "from" ""))));
    [|now left].
  destruct (Py.truthy_str
              (Py.lower (Py.strip (GraphBuilder.field fields "to" ""))));
    [|now left].
  destruct (Py.truthy_str (GraphBuilder.normalized_type fields)) eqn:Htype;
    [|now left].
  cbn [andb negb]. unfold GraphBuilder.get_cache.
  destruct (fst st !! Py.lower (Py.strip (GraphBuilder.field fields "from" "")))
    as [[from_id|]|] eqn:Hfrom; cbn; try now left.
  destruct (Py.truthy_str from_id) eqn:Hfrom_id; cbn; [|now left].
  destruct (fst st !! Py.lower (Py.strip (GraphBuilder.field fields "to" "")))
    as [[to_id|]|] eqn:Hto; cbn; try now left.
  destruct (Py.truthy_str to_id) eqn:Hto_id; cbn; [|now left].
  right. exists fields, from_id, to_id, (GraphBuilder.source_of fields).
  repeat split; try reflexivity; try assumption.
  - now apply truthy_str_nonempty.
  - now apply truthy_str_nonempty.
  - now apply truthy_str_nonempty.
  - eapply normalized_type_shape; eassumption.
  - eapply normalized_type_shape; eassumption.
Qed.

(** The three outcomes, run on the graph that holds [Wheat] and [Rust]. *)
Example create_relationship_three_ways :
  let st := snd (GraphBuilder.build_from_extractions Neo4j.memory
                   (GraphBuilder.scenario "") GraphBuilder.fresh) in
  fst (GraphBuilder._create_relationship Neo4j.memory
         (Ollama.JObj GraphBuilder.ghost_null_fields) st)
    = Py.Raised "AttributeError" /\
  fst (GraphBuilder._create_relationship Neo4j.memory
         GraphBuilder.ghost_affects_wheat st) = Py.Returned false /\
  fst (GraphBuilder._create_relationship Neo4j.memory
         (GraphBuilder.rust_affects_wheat "affects") st) = Py.Returned true.
Proof. repeat split; vm_compute; reflexivity. Qed.

(** *** Linking entities to a document *)

Lemma link_step_bounded (N : Neo4j.Handler) (doc_node_id : string)
    (links : Z) (name : string) (st : GraphBuilder.State N) :
  fst (snd (GraphBuilder.link_step N doc_node_id links name st)) = fst st /\
  forall links' st',
    GraphBuilder.link_step N doc_node_id links name st
      = (Py.Returned links', st') ->
    links <= links' <= links + 1.
Proof.
  unfold GraphBuilder.link_step, Py.bind, GraphBuilder.get_cache.
  destruct (GraphBuilder.truthy_id _).
  - unfold GraphBuilder.neo4j.
    destruct (Neo4j.create_relationship N _ _ _ _ (snd st))
      as [[[]|exn] w']; cbn; (split; [reflexivity|]);
      intros links' st' Heq; inversion Heq; lia.
  - cbn. split; [reflexivity|]. intros links' st' [= <- _]. lia.
Qed.

Lemma link_loop_bounded (N : Neo4j.Handler) (doc_node_id : string)
    (names : list string) :
  forall (links : Z) (st : GraphBuilder.State N),
    fst (snd (Py.for_each (GraphBuilder.link_step N doc_node_id) links
                names st)) = fst st /\
    forall links' st',
      Py.for_each (GraphBuilder.link_step N doc_node_id) links names st
        = (Py.Returned links', st') ->
      links <= links' <= links + Z.of_nat (List.length names).
Proof.
  induction names as [|name names IH]; intros links st.
  - cbn. split; [reflexivity|]. intros links' st' [= <- _]. lia.
  - cbn [Py.for_each List.length]. unfold Py.bind.
    destruct (link_step_bounded N doc_node_id links name st) as [Hc Hb].
    destruct (GraphBuilder.link_step N doc_node_id links name st)
      as [[links1|exn] st1]; cbn [snd] in Hc.
    + specialize (Hb links1 st1 eq_refl).
      destruct (IH links1 st1) as [Hc' Hb'].
      split; [now rewrite Hc'|].
      intros links' st' Hrun. specialize (Hb' links' st' Hrun). lia.
    + cbn. split; [exact Hc|]. discriminate.
Qed.

(** X11.  [link_entities_to_document] returns a number between 0 and the
    number of names it was given, and never changes the cache. *)
Theorem link_entities_to_document_bounded (N : Neo4j.Handler)
    (entity_names : list string) (doc_id : string)
    (st st' : GraphBuilder.State N) (links : Z) :
  GraphBuilder.link_entities_to_document N entity_names doc_id st
    = (Py.Returned links, st') ->
  0 <= links <= Z.of_nat (List.length entity_names) /\ fst st' = fst st.
Proof.
  unfold GraphBuilder.link_entities_to_document, Py.bind.
  unfold GraphBuilder.neo4j at 1.
  destruct (Neo4j.find_entity_by_name N "Document" _ (snd st))
    as [[doc_node|exn] w1]; [|discriminate].
  destruct (negb (Neo4j.truthy_dict doc_node)).
  - intros [= <- <-]. cbn. split; [lia | reflexivity].
  - unfold Neo4j.getitem.
    destruct (default ∅ doc_node !! "id") as [doc_node_id|]; [|discriminate].
    cbn. intros Hrun.
    destruct (link_loop_bounded N doc_node_id entity_names 0 (fst st, w1))
      as [Hc Hb].
    rewrite Hrun in Hc. cbn in Hc. specialize (Hb links st' Hrun).
    split; [lia | exact Hc].
Qed.

(** The document is found, [Wheat] is cached and gets its link, [Rust]
    is not cached and gets none. *)
Lemma link_entities_to_document_bounded_witness :
  exists (st' : GraphBuilder.State Neo4j.memory),
    GraphBuilder.link_entities_to_document Neo4j.memory ["Wheat"; "Rust"]
      "report.pdf" GraphBuilder.with_document = (Py.Returned 1, st') /\
    Neo4j.edges (snd st') = [("n0", "n1", "MENTIONED_IN")] /\
    0 <= 1 <= 2 /\ fst st' = fst GraphBuilder.with_document.
Proof.
  eexists. split; [vm_compute; reflexivity|].
  split; [reflexivity|].
  apply (link_entities_to_document_bounded Neo4j.memory ["Wheat"; "Rust"]
           "report.pdf" GraphBuilder.with_document _ 1).
  vm_compute. reflexivity.
Defined.

(** ** Hybrid retriever: query entities *)

Lemma unique_entities_spec (entities : list string) :
  forall seen : gset string,
    NoDup (Py.lower <$> Retriever.unique_entities entities seen) /\
    (forall x, x ∈ Retriever.unique_entities entities seen ->
               Py.lower x ∉ seen) /\
    Retriever.unique_entities entities seen `sublist_of` entities /\
    (forall e, e ∈ entities ->
       Py.lower e ∈ seen \/
       Py.lower e ∈ (Py.lower <$> Retriever.unique_entities entities seen)).
Proof.
  induction entities as [|e rest IH]; intros seen; simpl.
  - repeat split; [constructor | intros x Hx; inversion Hx | constructor
                   | intros e He; inversion He].
  - case_bool_decide as Hseen.
    + destruct (IH seen) as (Hnd & Hfresh & Hsub & Hcov).
      repeat split; [exact Hnd | exact Hfresh | now apply sublist_cons |].
      intros x Hx. apply elem_of_cons in Hx as [->|Hx]; [now left | auto].
    + destruct (IH ({[ Py.lower e ]} ∪ seen)) as (Hnd & Hfresh & Hsub & Hcov).
      repeat split.
      * rewrite fmap_cons. apply NoDup_cons. split; [|exact Hnd].
        intros Hin. apply list_elem_of_fmap in Hin as (x & Hx & Hmem).
        apply (Hfresh x Hmem). rewrite <- Hx.
        apply elem_of_union_l, elem_of_singleton. reflexivity.
      * intros x Hx. apply elem_of_cons in Hx as [->|Hx]; [exact Hseen|].
        intros Hin. apply (Hfresh x Hx). now apply elem_of_union_r.
      * now apply sublist_skip.
      * intros x Hx. rewrite fmap_cons.
        apply elem_of_cons in Hx as [->|Hx]; [right; now left|].
        destruct (Hcov x Hx) as [Hin|Hin]; [|right; now right].
        apply elem_of_union in Hin as [Hin|Hin]; [|now left].
        apply elem_of_singleton in Hin. rewrite Hin. right. now left.
Qed.

(** X12.  The order-preserving removal of duplicates in
    [_extract_query_entities] keeps a sub-sequence of the names found, in
    which no two names are equal up to case, and in which every name found
    is represented up to case. *)
Theorem unique_entities_dedupes (entities : list string) :
  NoDup (Py.lower <$> Retriever.unique_entities entities ∅) /\
  Retriever.unique_entities entities ∅ `sublist_of` entities /\
  forall e, e ∈ entities ->
    Py.lower e ∈ (Py.lower <$> Retriever.unique_entities entities ∅).
Proof.
  destruct (unique_entities_spec entities ∅) as (Hnd & _ & Hsub & Hcov).
  repeat split; [exact Hnd | exact Hsub |].
  intros e He. destruct (Hcov e He) as [Hin|Hin]; [|exact Hin].
  now apply not_elem_of_empty in Hin.
Qed.

(** X13.  The names [_extract_query_entities] returns are pairwise
    different, also up to case. *)
Theorem extract_query_entities_distinct (H : Retriever.Handlers)
    (query : string) (w w' : Retriever.world H) (names : list string) :
  Retriever._extract_query_entities H query w = (Py.Returned names, w') ->
  NoDup (Py.lower <$> names).
Proof.
  unfold Retriever._extract_query_entities, Py.bind, Py.lift.
  destruct (Py.for_each _ [] (Py.split (Py.lower query)) w)
    as [[entities|exn] w1]; [|discriminate].
  destruct (Retriever.texts entities) as [strings|exn]; [|discriminate].
  intros [= <- _]. apply (unique_entities_spec strings ∅).
Qed.

Lemma extract_query_entities_distinct_witness :
  exists names : list string,
    Retriever._extract_query_entities Retriever.wheat_graph
      "wheat rust on wheat" tt = (Py.Returned names, tt) /\
    NoDup (Py.lower <$> names).
Proof.
  eexists. split.
  - vm_compute. reflexivity.
  - apply (extract_query_entities_distinct Retriever.wheat_graph
             "wheat rust on wheat" tt tt _ eq_refl).
Defined.

Lemma for_each_ext {W A X : Type} (body1 body2 : A -> X -> Py.M W A) :
  (forall acc x w, body1 acc x w = body2 acc x w) ->
  forall (xs : list X) (acc : A) (w : W),
    Py.for_each body1 acc xs w = Py.for_each body2 acc xs w.
Proof.
  intros Hbody. induction xs as [|x xs IH]; intros acc w; [reflexivity|].
  cbn [Py.for_each]. unfold Py.bind. rewrite Hbody.
  destruct (body2 acc x w) as [[acc'|exn] w']; [apply IH | reflexivity].
Qed.

(** X14.  Terms of fewer than three characters are never sent to the
    graph search: two handlers whose [search_entities] agree on every term
    of at least three characters give the same result, and leave the same
    world, for every query. *)
Theorem extract_query_entities_skips_short_terms (N : Neo4j.Handler)
    (vector_search : string -> Z -> Py.M (Neo4j.world N) (list Result))
    (search : string -> Z -> Py.M (Neo4j.world N) (list Result))
    (query : string) (w : Neo4j.world N) :
  (forall (term : string) (limit : Z) (w0 : Neo4j.world N),
      3 <= Py.len term ->
      search term limit w0 = Neo4j.search_entities N term limit w0) ->
  Retriever._extract_query_entities
    {| Retriever.neo4j := Retriever.with_search N search;
       Retriever.search_by_text := vector_search |} query w
  = Retriever._extract_query_entities
      {| Retriever.neo4j := N; Retriever.search_by_text := vector_search |}
      query w.
Proof.
  intros Hagree. unfold Retriever._extract_query_entities, Py.bind.
  cbn [Retriever.neo4j Retriever.with_search Neo4j.search_entities].
  rewrite (for_each_ext
             (fun entities term =>
                if Py.len term <? 3 then Py.ret entities
                else Py.bind (search term 3)
                       (fun matches => Py.bind (Retriever.match_names matches)
                          (fun names => Py.ret (entities ++ names)%list)))
             (fun entities term =>
                if Py.len term <? 3 then Py.ret entities
                else Py.bind (Neo4j.search_entities N term 3)
                       (fun matches => Py.bind (Retriever.match_names matches)
                          (fun names => Py.ret (entities ++ names)%list))));
    [reflexivity|].
  intros acc term w0. destruct (Z.ltb_spec (Py.len term) 3); [reflexivity|].
  unfold Py.bind. now rewrite Hagree by lia.
Qed.

Lemma extract_query_entities_skips_short_terms_witness :
  Retriever._extract_query_entities
    {| Retriever.neo4j :=
         Retriever.with_search (Retriever.neo4j Retriever.wheat_graph)
           (fun term limit =>
              if Py.len term <? 3 then Py.raise "ServiceUnavailable"
              else Neo4j.search_entities
                     (Retriever.neo4j Retriever.wheat_graph) term limit);
       Retriever.search_by_text :=
         Retriever.search_by_text Retriever.wheat_graph |}
    "is it on" tt
  = Retriever._extract_query_entities
      {| Retriever.neo4j := Retriever.neo4j Retriever.wheat_graph;
         Retriever.search_by_text :=
           Retriever.search_by_text Retriever.wheat_graph |}
      "is it on" tt.
Proof.
  apply (extract_query_entities_skips_short_terms
           (Retriever.neo4j Retriever.wheat_graph)).
  intros term limit w0 Hlong.
  destruct (Z.ltb_spec (Py.len term) 3); [lia | reflexivity].
Defined.

(** ** Hybrid retriever: conversation context *)

Lemma from_index_last_two {A : Type} (older : list A) (a b : A) :
  Py.from_index (-2) (older ++ [a; b])%list = [a; b].
Proof.
  unfold Py.from_index, Py.adjust. rewrite length_app. cbn [List.length].
  replace (-2 <? 0) with true by reflexivity.
  replace (Z.to_nat (Z.max 0 (-2 + Z.of_nat (List.length older + 2))))
    with (List.length older) by lia.
  apply drop_app_length.
Qed.

(** X15.  [retrieve_with_context] looks at the last two items of the
    history only: with a history that ends in [a], [b] the query sent on is
    [a + " " + b + " " + query] and the result is the one for the history
    [[a, b]]; with no history, or an empty one, the query is sent on as it
    is. *)
Theorem retrieve_with_context_uses_last_two (H : Retriever.Handlers)
    (q : string) (older : list string) (a b : string)
    (top_k_vector top_k_graph : Z) (w : Retriever.world H) :
  Retriever.enhance q (Some (older ++ [a; b])%list)
    = (a ++ " " ++ b ++ " " ++ q)%string /\
  Retriever.retrieve_with_context H q (Some (older ++ [a; b])%list)
    top_k_vector top_k_graph w
  = Retriever.retrieve_with_context H q (Some [a; b])
      top_k_vector top_k_graph w /\
  Retriever.enhance q None = q /\ Retriever.enhance q (Some []) = q.
Proof.
  assert (Henh : Retriever.enhance q (Some (older ++ [a; b])%list)
                 = Retriever.enhance q (Some [a; b])).
  { pose proof (from_index_last_two older a b) as Hlast.
    destruct (older ++ [a; b])%list as [|x rest] eqn:Happ.
    - destruct older; discriminate.
    - change (Retriever.enhance q (Some (x :: rest)))
        with (Py.join " " (Py.from_index (-2) (x :: rest)) ++ " " ++ q)%string.
      rewrite Hlast. reflexivity. }
  repeat split.
  - rewrite Henh. unfold Retriever.enhance.
    change (Py.from_index (-2) [a; b]) with [a; b]. cbn [Py.join].
    now rewrite !string_app_assoc.
  - unfold Retriever.retrieve_with_context. now rewrite Henh.
Qed.

(** ** Hybrid retriever: the merge keeps what step 3 found *)

Lemma collect_extends {W : Type} (top_k : Z) (candidates : list Result) :
  forall (acc acc' : list Result * gset string) (w w' : W),
    Retriever.collect top_k candidates acc w = (Py.Returned acc', w') ->
    fst acc `prefix_of` fst acc'.
Proof.
  induction candidates as [|c rest IH]; intros acc acc' w w'; simpl.
  - intros [= <- _]. reflexivity.
  - unfold Py.bind, Retriever.result_id.
    destruct (r_id c) as [i|]; cbn; [|discriminate].
    set (acc1 := if bool_decide (i ∈ acc.2) then acc
                 else ((acc.1 ++ [c])%list, {[ i ]} ∪ acc.2)).
    assert (Hext : fst acc `prefix_of` fst acc1).
    { unfold acc1. case_bool_decide; [reflexivity|]. cbn.
      now apply prefix_app_r. }
    destruct (_ >=? _).
    + intros [= <- _]. exact Hext.
    + intros Hrest. etrans; [exact Hext | eapply IH, Hrest].
Qed.

Lemma take_keeps_prefix {A : Type} (k : Z) (l merged : list A) :
  Z.of_nat (List.length l) <= k -> l `prefix_of` merged ->
  l `prefix_of` Py.take k merged.
Proof.
  intros Hk [rest ->]. unfold Py.take.
  rewrite adjust_inside' by lia. rewrite take_app.
  rewrite take_ge by (rewrite length_app; lia).
  now apply prefix_app_r.
Qed.

Lemma expand_keeps_existing (H : Retriever.Handlers)
    (vector_results existing : list Result) (top_k max_hops : Z)
    (w w' : Retriever.world H) (out : list Result) :
  Z.of_nat (List.length existing) <= top_k ->
  Retriever._expand_from_vector_results H vector_results existing
    top_k max_hops w = (Py.Returned out, w') ->
  existing `prefix_of` out.
Proof.
  intros Hk. unfold Retriever._expand_from_vector_results, Py.bind.
  destruct (Retriever.entity_candidates vector_results w)
    as [[candidates|exn] w0]; [|discriminate].
  destruct (Retriever._graph_traversal H candidates top_k max_hops w0)
    as [[new_results|exn] w1]; [|discriminate].
  destruct (Retriever.ids_of existing w1) as [[ids|exn] w2]; [|discriminate].
  destruct (Retriever.collect top_k new_results (existing, ids) w2)
    as [[merged|exn] w3] eqn:Hcollect; [|discriminate].
  intros [= <- _]. apply take_keeps_prefix; [exact Hk|].
  apply (collect_extends _ _ _ _ _ _ Hcollect).
Qed.

(** X16.  The graph list returned by [retrieve] starts with the results of
    step 3, in their order: the expansion step only ever appends. *)
Theorem retrieve_keeps_traversal_results (H : Retriever.Handlers)
    (query : string) (top_k_vector top_k_graph max_hops : Z)
    (w w' : Retriever.world H) (run : Retriever.Run) :
  Retriever.retrieve_run H query top_k_vector top_k_graph max_hops w
    = (Py.Returned run, w') ->
  Retriever.traversed run `prefix_of` Retriever.graph_results run.
Proof.
  intros Hrun.
  apply retrieve_run_steps in Hrun as (names & w2 & w3 & _ & Hexp & Hstep).
  destruct (Retriever.expanded run).
  - symmetry in Hexp. apply Z.ltb_lt in Hexp.
    eapply expand_keeps_existing; [|exact Hstep].
    pose proof (Z.div_mod top_k_graph 2 ltac:(lia)) as Hdiv.
    pose proof (Z.mod_pos_bound top_k_graph 2 ltac:(lia)) as Hmod.
    lia.
  - destruct Hstep as [-> _]. reflexivity.
Qed.

Lemma retrieve_keeps_traversal_results_witness :
  exists run : Retriever.Run,
    Retriever.retrieve_run Retriever.wheat_graph "rust on wheat" 3 10 2 tt
      = (Py.Returned run, tt) /\
    Retriever.traversed run `prefix_of` Retriever.graph_results run.
Proof.
  eexists. split.
  - vm_compute. reflexivity.
  - apply (retrieve_keeps_traversal_results Retriever.wheat_graph
             "rust on wheat" 3 10 2 tt tt _ eq_refl).
Defined.

(** ** Hybrid retriever: when [retrieve] returns *)

Lemma texts_app (a b : list Ollama.json) (sa sb : list string) :
  Retriever.texts a = Py.Returned sa ->
  Retriever.texts b = Py.Returned sb ->
  Retriever.texts (a ++ b)%list = Py.Returned (sa ++ sb)%list.
Proof.
  revert sa. induction a as [|x a IH]; intros sa; cbn.
  - intros [= <-]. auto.
  - destruct (Json.text x) as [s|exn]; cbn; [|discriminate].
    destruct (Retriever.texts a) as [sa'|exn]; cbn; [|discriminate].
    intros [= <-] Hb. rewrite (IH sa' eq_refl Hb). reflexivity.
Qed.

Section RetrieveReturns.
Variable H : Retriever.Handlers.
Hypothesis Hanswers : Retriever.answers H.
Hypothesis Hsearch : Retriever.search_answers H.
Hypothesis Hvector : Retriever.vector_answers H.

Lemma vector_search_returns (query : string) (top_k : Z)
    (w : Retriever.world H) :
  exists results w',
    Retriever._vector_search H query top_k w = (Py.Returned results, w') /\
    List.Forall (fun r => Retriever.has_text r = true) (Py.take 3 results) /\
    (forall exn w1,
        Retriever.search_by_text H query top_k w = (Py.Raised exn, w1) ->
        results = []).
Proof.
  unfold Retriever._vector_search, Py.try_except.
  destruct (Retriever.search_by_text H query top_k w) as [[results|exn] w']
    eqn:Hrun.
  - exists results, w'. split; [reflexivity|].
    split; [exact (Hvector _ _ _ _ _ Hrun) | discriminate].
  - exists [], w'. split; [reflexivity|]. split; [constructor | reflexivity].
Qed.

(** The names of matches that are named are strings. *)
Lemma match_names_returns {W : Type} (matches : list Result) :
  List.Forall (fun m => Retriever.named m = true) matches ->
  forall (acc : list Ollama.json) (strings : list string) (w : W),
  Retriever.texts acc = Py.Returned strings ->
  exists names strings',
    Py.for_each
      (fun names m =>
         Py.bind (Retriever.properties_of m) (fun props =>
         Py.bind (Py.lift (Json.jget props "name" Ollama.JNull)) (fun name =>
         if Json.truthy name then
           Py.bind (Retriever.properties_of m) (fun props =>
           Py.bind (Py.lift (Json.jget props "name" (Ollama.JStr "")))
             (fun name => Py.ret (names ++ [name])%list))
         else Py.ret names)))
      acc matches w = (Py.Returned names, w) /\
    Retriever.texts names = Py.Returned strings'.
Proof.
  induction 1 as [|m rest Hm _ IH]; intros acc strings w Hacc;
    cbn [Py.for_each]; [eauto|].
  unfold Py.bind at 1. unfold Retriever.named in Hm.
  unfold Py.bind, Py.lift, Retriever.properties_of.
  destruct (r_properties m) as [[| | | | |fields]|]; try discriminate.
  cbn [Py.ret Json.jget].
  destruct (Json.lookup_field "name" fields) as [name|]; cbn [default id
    from_option].
  - destruct (Json.truthy name) eqn:Htruthy; [|eapply IH; exact Hacc].
    destruct name as [|b|q|s|items|obj]; try (cbn in Hm; discriminate Hm).
    cbn [Py.ret]. eapply IH.
    apply (texts_app acc [Ollama.JStr s] strings [s] Hacc eq_refl).
  - cbn [Json.truthy]. eapply IH. exact Hacc.
Qed.

Lemma extract_query_entities_returns (query : string)
    (w : Retriever.world H) :
  exists names w',
    Retriever._extract_query_entities H query w = (Py.Returned names, w').
Proof.
  unfold Retriever._extract_query_entities.
  assert (Hloop : forall terms acc strings w0,
    Retriever.texts acc = Py.Returned strings ->
    exists entities strings' w1,
    Py.for_each
      (fun entities term =>
         if Py.len term <? 3 then Py.ret entities
         else Py.bind (Neo4j.search_entities (Retriever.neo4j H) term 3)
                (fun matches => Py.bind (Retriever.match_names matches)
                   (fun names => Py.ret (entities ++ names)%list)))
      acc terms w0 = (Py.Returned entities, w1) /\
    Retriever.texts entities = Py.Returned strings').
  { induction terms as [|term terms IH]; intros acc strings w0 Hacc;
      cbn [Py.for_each]; [eauto|].
    unfold Py.bind at 1.
    destruct (Py.len term <? 3); [eapply IH; exact Hacc|].
    unfold Py.bind at 1.
    destruct (Hsearch term 3 w0) as (matches & w1 & Hs & Hprops).
    rewrite Hs. unfold Py.bind at 1, Retriever.match_names.
    destruct (match_names_returns matches Hprops [] [] w1 eq_refl)
      as (names & strings' & Hn & Htexts).
    rewrite Hn. cbn [Py.ret]. eapply IH.
    apply (texts_app _ _ _ _ Hacc Htexts). }
  destruct (Hloop (Py.split (Py.lower query)) [] [] w eq_refl)
    as (entities & strings & w1 & Hl & Htexts).
  unfold Py.bind, Py.lift. unfold Py.bind in Hl. rewrite Hl, Htexts. eauto.
Qed.

Lemma ids_of_returns {W : Type} (results : list Result) :
  Forall (fun r => is_Some (r_id r)) results ->
  forall (ids0 : gset string) (w : W),
  exists ids,
    Py.for_each
      (fun ids r => Py.bind (Retriever.result_id r)
                      (fun i => Py.ret ({[ i ]} ∪ ids)))
      ids0 results w = (Py.Returned ids, w).
Proof.
  induction 1 as [|r rest [i Hi] _ IH]; intros ids0 w;
    cbn [Py.for_each]; [eauto|].
  unfold Py.bind at 1. unfold Py.bind at 1. unfold Retriever.result_id at 1.
  rewrite Hi. cbn. apply IH.
Qed.

Lemma graph_traversal_ids (names : list string) (top_k max_hops : Z)
    (w w' : Retriever.world H) (out : list Result) :
  Retriever._graph_traversal H names top_k max_hops w = (Py.Returned out, w') ->
  Forall (fun r => is_Some (r_id r)) out.
Proof.
  intros Hrun.
  apply graph_traversal_bounded_distinct in Hrun as [[_ Hids] _].
  apply List.Forall_forall. intros r Hr.
  destruct (Hids r) as (i & Hi & _); [now apply list_elem_of_In|].
  rewrite Hi. eauto.
Qed.

Lemma candidate_words_returns (r : Result) :
  Retriever.has_text r = true ->
  exists words, Retriever.candidate_words r = Py.Returned words.
Proof.
  unfold Retriever.has_text, Retriever.candidate_words.
  destruct (r_metadata r) as [[| | | | |fields]|]; try discriminate;
    cbn; [|eauto].
  destruct (Json.lookup_field "text" fields) as [[]|]; try discriminate;
    cbn; eauto.
Qed.

Lemma entity_candidates_returns {W : Type} (results : list Result) :
  List.Forall (fun r => Retriever.has_text r = true) results ->
  forall (acc : list string) (w : W),
  exists candidates,
    Py.for_each
      (fun entity_candidates result =>
         Py.bind (Py.lift (Retriever.candidate_words result))
           (fun words => Py.ret (entity_candidates ++ words)%list))
      acc results w = (Py.Returned candidates, w).
Proof.
  induction 1 as [|r rest Hr _ IH]; intros acc w;
    cbn [Py.for_each]; [eauto|].
  destruct (candidate_words_returns r Hr) as [words Hwords].
  unfold Py.bind at 1. unfold Py.bind, Py.lift. rewrite Hwords.
  cbn [Py.ret]. apply IH.
Qed.

Lemma expand_returns (vector_results existing : list Result)
    (top_k max_hops : Z) (w : Retriever.world H) :
  List.Forall (fun r => Retriever.has_text r = true)
    (Py.take 3 vector_results) ->
  Forall (fun r => is_Some (r_id r)) existing ->
  exists out w',
    Retriever._expand_from_vector_results H vector_results existing
      top_k max_hops w = (Py.Returned out, w').
Proof.
  intros Htexts Hexisting.
  unfold Retriever._expand_from_vector_results, Py.bind.
  unfold Retriever.entity_candidates.
  destruct (entity_candidates_returns _ Htexts [] w) as [candidates Hc].
  rewrite Hc.
  destruct (graph_traversal_returns H candidates top_k max_hops w
              Hanswers) as (new_results & w1 & Htr).
  rewrite Htr. unfold Retriever.ids_of.
  destruct (ids_of_returns existing Hexisting ∅ w1) as [ids Hids].
  rewrite Hids.
  destruct (collect_returns top_k new_results
              (graph_traversal_ids _ _ _ _ _ _ Htr) (existing, ids) w1)
    as [merged Hm].
  rewrite Hm. eauto.
Qed.

(** X17.  When the graph handler answers (lookups, neighbourhoods and
    searches return, the dictionaries they return carry the keys the
    retriever reads, and the names of the nodes found are strings) and the
    first three hits of the vector store, when it returns any, have a
    dictionary or nothing for metadata and a string or nothing for a text,
    [retrieve] returns for every query and every choice of [top_k] and
    [max_hops], whether the vector store answers or raises; and if the
    vector search raises, the vector list returned is empty. *)
Theorem retrieve_returns_when_graph_answers (query : string)
    (top_k_vector top_k_graph max_hops : Z) (w : Retriever.world H) :
  exists (vector_results graph_results : list Result)
         (w' : Retriever.world H),
    Retriever.retrieve H query top_k_vector top_k_graph max_hops w
      = (Py.Returned (vector_results, graph_results), w') /\
    (forall exn w1,
        Retriever.search_by_text H query top_k_vector w = (Py.Raised exn, w1) ->
        vector_results = []).
Proof.
  unfold Retriever.retrieve, Retriever.retrieve_run, Py.bind.
  destruct (vector_search_returns query top_k_vector w)
    as (vr & w1 & Hv & Htexts & Hfail).
  rewrite Hv.
  destruct (extract_query_entities_returns query w1) as (names & w2 & Hq).
  rewrite Hq.
  destruct (graph_traversal_returns H names top_k_graph max_hops w2 Hanswers)
    as (gr & w3 & Htr).
  rewrite Htr.
  destruct (_ <? _).
  - destruct (expand_returns vr gr top_k_graph max_hops w3 Htexts
                (graph_traversal_ids _ _ _ _ _ _ Htr)) as (er & w4 & He).
    rewrite He. cbn. eauto.
  - cbn. eauto.
Qed.

End RetrieveReturns.

Lemma wheat_graph_answers : Retriever.answers Retriever.wheat_graph.
Proof.
  split.
  - intros entity_type name [].
    cbn. destruct (String.eqb entity_type "Entity").
    + eexists. exists tt. split; [reflexivity|]. intros _. cbn.
      rewrite lookup_singleton_eq. eauto.
    + eexists. exists tt. split; [reflexivity|]. discriminate.
  - intros entity_id max_hops [].
    cbn. destruct (String.eqb entity_id "Wheat").
    + eexists. exists tt. split; [reflexivity|].
      repeat constructor; cbn; eauto.
    + eexists. exists tt. split; [reflexivity | constructor].
Qed.

Lemma wheat_graph_search_answers :
  Retriever.search_answers Retriever.wheat_graph.
Proof.
  intros term limit []. eexists. exists tt. split; [reflexivity|].
  repeat constructor; cbn; eauto.
Qed.

Lemma wheat_store_vector_answers :
  Retriever.vector_answers Retriever.wheat_store.
Proof.
  intros query top_k [] [] results [= <-].
  repeat constructor.
Qed.

(** The vector store answers, step 3 finds two neighbours of [Wheat],
    which is less than half of ten, and step 4 reads the texts of the
    hits. *)
Lemma retrieve_returns_when_graph_answers_witness :
  exists (vector_results graph_results : list Result),
    Retriever.retrieve Retriever.wheat_store "rust on wheat" 3 10 2 tt
      = (Py.Returned (vector_results, graph_results), tt) /\
    List.length vector_results = 3%nat /\
    fst (Retriever.retrieve_run Retriever.wheat_store "rust on wheat" 3 10 2
           tt)
    = Py.Returned
        {| Retriever.vector_results := vector_results;
           Retriever.traversed := graph_results;
           Retriever.expanded := true;
           Retriever.graph_results := graph_results |}.
Proof.
  destruct (retrieve_returns_when_graph_answers Retriever.wheat_store
              wheat_graph_answers wheat_graph_search_answers
              wheat_store_vector_answers "rust on wheat" 3 10 2 tt)
    as (vr & gr & [] & Hrun & _).
  exists vr, gr. split; [exact Hrun|].
  vm_compute in Hrun. injection Hrun as <- <-.
  split; vm_compute; reflexivity.
Defined.

(** A vector without metadata stops [retrieve] when step 4 is reached,
    and so does a node whose name is a number at step 2. *)
Example retrieve_raises_on_missing_metadata :
  fst (Retriever.retrieve Retriever.bare_store "rust on wheat" 3 10 2 tt)
  = Py.Raised "AttributeError".
Proof. vm_compute. reflexivity. Qed.

Example retrieve_raises_on_name_that_is_a_number :
  fst (Retriever.retrieve Retriever.numbered_graph "rust on wheat" 3 10 2 tt)
  = Py.Raised "AttributeError".
Proof. vm_compute. reflexivity. Qed.

(** ** Reranking: what is written, and the order for every weight *)

Section RerankFrame.
Import Retriever.

(** The keys that come from the stores. *)
Let same_payload (r r' : Result) : Prop :=
  r_id r' = r_id r /\ r_score r' = r_score r /\
  r_metadata r' = r_metadata r /\ r_labels r' = r_labels r /\
  r_properties r' = r_properties r /\
  r_relationship_path r' = r_relationship_path r.

Lemma reranked_payload (v g : list ref) (vector_weight : Q) (h : Heap)
    (l : ref) :
  same_payload (h l) (reranked v g vector_weight h l).
Proof.
  unfold reranked.
  apply (rewrite_all_keeps (same_payload (h l)));
    [intros r Hr; exact Hr|].
  apply (rewrite_all_keeps (same_payload (h l)));
    [intros r Hr; exact Hr|].
  apply (rewrite_all_keeps (same_payload (h l)));
    [intros r Hr; exact Hr|].
  destruct v as [|first others].
  - unfold same_payload. tauto.
  - apply (rewrite_all_keeps (same_payload (h l)));
      [intros r Hr; exact Hr | unfold same_payload; tauto].
Qed.

Lemma reranked_outside (v g : list ref) (vector_weight : Q) (h : Heap)
    (l : ref) :
  ~ In l (v ++ g) -> reranked v g vector_weight h l = h l.
Proof.
  intros Hout. unfold reranked.
  assert (Hv : ~ In l v) by (intros Hv; apply Hout, in_or_app; now left).
  assert (Hg : ~ In l g) by (intros Hg; apply Hout, in_or_app; now right).
  rewrite !rewrite_all_outside by assumption.
  destruct v; [reflexivity | now rewrite rewrite_all_outside].
Qed.

(** X18.  [rerank_results] only adds its three keys: in every dictionary
    the keys [id], [score], [metadata], [labels], [properties] and
    [relationship_path] are after the call what they were before, and a
    dictionary that is in neither list is not touched at all. *)
Theorem rerank_results_only_adds_scores (v g : list ref) (vector_weight : Q)
    (h : Heap) (l : ref) :
  let h' := snd (rerank_results v g vector_weight h) in
  r_id (h' l) = r_id (h l) /\
  r_score (h' l) = r_score (h l) /\
  r_metadata (h' l) = r_metadata (h l) /\
  r_labels (h' l) = r_labels (h l) /\
  r_properties (h' l) = r_properties (h l) /\
  r_relationship_path (h' l) = r_relationship_path (h l) /\
  (~ In l (v ++ g) -> h' l = h l).
Proof.
  rewrite rerank_results_returns. cbn [snd].
  pose proof (reranked_payload v g vector_weight h l) as Hp.
  unfold same_payload in Hp.
  repeat split; try tauto. apply reranked_outside.
Qed.


End RerankFrame.

Section ScoreBounds.
Import Retriever.

Let unit_interval (x : Q) : Prop := (0 <= x)%Q /\ (x <= 1)%Q.

Lemma unit_interval_mult (x y : Q) :
  unit_interval x -> unit_interval y -> unit_interval (x * y).
Proof. unfold unit_interval. intros [Hx0 Hx1] [Hy0 Hy1]. split; nra. Qed.

Lemma positive_spec (x : Q) : positive x = true -> (0 < x)%Q.
Proof.
  unfold positive. intros Hpos. apply negb_true_iff in Hpos.
  destruct (Qlt_le_dec 0 x) as [Hlt|Hle]; [exact Hlt|].
  apply Qle_bool_iff in Hle. congruence.
Qed.

Lemma unit_interval_round (x : Q) :
  unit_interval x -> unit_interval (Float.round64 x).
Proof. apply round64_unit. Qed.

Lemma unit_interval_quotient (a b : Q) :
  (0 <= a)%Q -> (a <= b)%Q -> (0 < b)%Q -> unit_interval (a / b).
Proof.
  intros Ha Hab Hb. split.
  - apply Qle_shift_div_l; [exact Hb | lra].
  - apply Qle_shift_div_r; [exact Hb | lra].
Qed.

Lemma graph_score_bounded (r : Result) :
  exists n, r_normalized_score (normalize_graph r) = Some n /\ unit_interval n.
Proof.
  unfold normalize_graph. cbn.
  set (len := Z.of_nat (List.length (default [] (r_relationship_path r)))).
  destruct (Z.gtb_spec len 0) as [Hpos|Hzero].
  - eexists. split; [reflexivity|].
    assert (Hge : (1 <= 1 + inject_Z len)%Q).
    { replace 1%Q with (inject_Z 1) at 1 2 by reflexivity.
      rewrite <- inject_Z_plus. rewrite <- Zle_Qle. lia. }
    assert (Hsum : (1 <= Float.add 1 (inject_Z len))%Q).
    { unfold Float.add. rewrite <- round64_one at 1.
      apply round64_le, Hge. }
    unfold Float.div. apply unit_interval_round.
    apply unit_interval_quotient; lra.
  - eexists. split; [reflexivity|].
    unfold Float.literal. apply unit_interval_round. split; discriminate.
Qed.

(** X20.  With a weight between 0 and 1 and vector scores that are not
    negative, every final score that [rerank_results] assigns lies between
    0 and 1. *)
Theorem rerank_results_final_scores_bounded (v g : list ref)
    (vector_weight : Q) (h : Heap) (l : ref) :
  (0 <= vector_weight)%Q -> (vector_weight <= 1)%Q ->
  (forall x, In x v -> (0 <= score_of (h x))%Q) ->
  In l (v ++ g) ->
  let h' := snd (rerank_results v g vector_weight h) in
  (0 <= final_of (h' l))%Q /\ (final_of (h' l) <= 1)%Q.
Proof.
  intros Hw0 Hw1 Hscores Hl. rewrite rerank_results_returns. cbn [snd].
  destruct (in_dec Nat.eq_dec l g) as [Hg|Hg].
  - unfold reranked.
    apply (rewrite_all_makes
             (fun r => exists n, r_normalized_score r = Some n
                                 /\ unit_interval n)
             (fun r => unit_interval (final_of r)));
      [auto | | | exact Hg].
    + intros r (n & Hn & Hunit). unfold finalize, final_of. cbn. rewrite Hn.
      cbn. unfold Float.mul. apply unit_interval_round.
      apply unit_interval_mult; [exact Hunit|].
      unfold Float.sub. apply unit_interval_round.
      unfold unit_interval. split; lra.
    + apply (rewrite_all_keeps
               (fun r => exists n, r_normalized_score r = Some n
                                   /\ unit_interval n));
        [auto|].
      apply (rewrite_all_makes (fun _ => True)
               (fun r => exists n, r_normalized_score r = Some n
                                   /\ unit_interval n));
        [auto | | exact I | exact Hg].
      intros r _. apply graph_score_bounded.
  - apply in_app_or in Hl as [Hv|Hl]; [|contradiction].
    destruct v as [|first others]; [destruct Hv|].
    unfold final_of. rewrite vector_final by assumption. cbn [default].
    unfold Float.mul. apply unit_interval_round.
    apply unit_interval_mult; [|unfold unit_interval; split; assumption].
    destruct (positive (max_vector_score h first others)) eqn:Hpos.
    + apply positive_spec in Hpos.
      pose proof (max_vector_score_ge h first others l Hv) as Hmax.
      pose proof (Hscores l Hv) as Hnonneg.
      unfold Float.div. apply unit_interval_round.
      apply unit_interval_quotient; assumption.
    + split; [apply Qle_refl | discriminate].
Qed.

End ScoreBounds.

Lemma rerank_results_final_scores_bounded_witness :
  let h' := snd (Retriever.rerank_results [0; 1; 2]%nat [3; 4]%nat (6 # 10)
                   Retriever.mixed_hits) in
  (0 <= Retriever.final_of (h' 4%nat))%Q /\
  (Retriever.final_of (h' 4%nat) <= 1)%Q.
Proof.
  apply (rerank_results_final_scores_bounded [0; 1; 2]%nat [3; 4]%nat
           (6 # 10) Retriever.mixed_hits 4%nat).
  - discriminate.
  - discriminate.
  - intros x [<-|[<-|[<-|[]]]]; discriminate.
  - simpl. auto 10.
Defined.

(** ** Vector store: what [upsert_document_chunks] sends *)

Section VectorStore.
Variable I : VectorWrite.Index.
Import VectorWrite.

(** One turn of the loop: it returns, takes [metadata_list[i]] or a new
    dictionary, leaves the two entries in it and touches no other
    dictionary. *)
Lemma vector_step_spec (ml : option (list nat)) (vs : list Vector)
    (i : nat) (chunk : gmap string string) (embedding : list Q)
    (d : Dicts) (w : world I) :
  let r := default (next_ref d) (default [] ml !! i) in
  exists d',
    vector_step (I := I) ml (vs, i) (chunk, embedding) (d, w)
    = (Py.Returned
         ((vs ++ [ {| vec_id := chunk_id chunk i; values := embedding;
                      metadata := r |} ])%list, S i), (d', w)) /\
    (next_ref d <= next_ref d')%nat /\
    (default [] ml !! i = None -> next_ref d' = S (next_ref d)) /\
    dict_at d' r = stamped (given d ml i) chunk i /\
    (forall r', r' <> r -> dict_at d' r' = dict_at d r').
Proof.
  unfold vector_step, given, stamped.
  destruct (default [] ml !! i) as [r|] eqn:Hr; cbn [default].
  - eexists. split; [reflexivity|]. cbn.
    rewrite Nat.eqb_refl.
    split; [lia|]. split; [discriminate|]. split; [reflexivity|].
    intros r' Hne. apply Nat.eqb_neq in Hne. rewrite Hne. reflexivity.
  - eexists. split; [reflexivity|]. cbn.
    rewrite !Nat.eqb_refl.
    split; [lia|]. split; [reflexivity|]. split; [reflexivity|].
    intros r' Hne. apply Nat.eqb_neq in Hne. rewrite Hne. reflexivity.
Qed.

Lemma sent_from_ext (ml : option (list nat)) (d1 d2 : Dicts) :
  forall (pairs : list (gmap string string * list Q)) (i : nat),
    (forall j r, (i <= j)%nat -> default [] ml !! j = Some r ->
                 dict_at d1 r = dict_at d2 r) ->
    sent_from d1 ml i pairs = sent_from d2 ml i pairs.
Proof.
  induction pairs as [|[chunk embedding] rest IH]; intros i Hsame;
    [reflexivity|].
  cbn [sent_from]. f_equal.
  - unfold given. destruct (default [] ml !! i) as [r|] eqn:Hr;
      [|reflexivity].
    rewrite (Hsame i r); [reflexivity | lia | exact Hr].
  - apply IH. intros j r Hj. apply Hsame. lia.
Qed.

Lemma sent_from_lookup (ml : option (list nat)) (d : Dicts) :
  forall (pairs : list (gmap string string * list Q)) (i k : nat)
         (chunk : gmap string string) (embedding : list Q),
    pairs !! k = Some (chunk, embedding) ->
    sent_from d ml i pairs !! k
    = Some (chunk_id chunk (i + k), embedding,
            stamped (given d ml (i + k)) chunk (i + k)).
Proof.
  induction pairs as [|[c e] rest IH]; intros i k chunk embedding Hk;
    [discriminate|].
  destruct k as [|k]; cbn [sent_from].
  - injection Hk as -> ->. rewrite Nat.add_0_r. reflexivity.
  - change (sent_from d ml (S i) rest !! k
            = Some (chunk_id chunk (i + S k), embedding,
                    stamped (given d ml (i + S k)) chunk (i + S k))).
    rewrite (IH (S i) k chunk embedding Hk).
    replace (S i + k)%nat with (i + S k)%nat by lia. reflexivity.
Qed.

Lemma sent_from_length (ml : option (list nat)) (d : Dicts) :
  forall (pairs : list (gmap string string * list Q)) (i : nat),
    List.length (sent_from d ml i pairs) = List.length pairs.
Proof.
  induction pairs as [|[c e] rest IH]; intros i; [reflexivity|].
  cbn. f_equal. apply IH.
Qed.

(** The loop: when the dictionaries still to be used are distinct and
    exist, every vector it builds holds, at the end, what its own turn
    left in its dictionary. *)
Lemma vector_loop_spec (ml : option (list nat)) :
  forall (pairs : list (gmap string string * list Q)) (vs : list Vector)
         (i : nat) (d : Dicts) (w : world I),
    NoDup (drop i (default [] ml)) ->
    Forall (fun r => (r < next_ref d)%nat) (drop i (default [] ml)) ->
    exists vs' d',
      Py.for_each (vector_step (I := I) ml) (vs, i) pairs (d, w)
      = (Py.Returned ((vs ++ vs')%list, (i + List.length pairs)%nat),
         (d', w)) /\
      payload d' vs' = sent_from d ml i pairs /\
      (next_ref d <= next_ref d')%nat /\
      (forall r, (r < next_ref d)%nat ->
                 r ∉ drop i (default [] ml) ->
                 dict_at d' r = dict_at d r).
Proof.
  induction pairs as [|[chunk embedding] rest IH]; intros vs i d w Hnd Hlt.
  - exists [], d. cbn. rewrite app_nil_r, Nat.add_0_r. auto.
  - cbn [Py.for_each]. unfold Py.bind.
    destruct (vector_step_spec ml vs i chunk embedding d w)
      as (d1 & Hstep & Hnext & Hfresh & Hat & Hframe).
    rewrite Hstep.
    set (r := default (next_ref d) (default [] ml !! i)) in *.
    assert (Hrest : drop i (default [] ml) = drop (S i) (default [] ml) \/
                    drop i (default [] ml)
                    = r :: drop (S i) (default [] ml)).
    { destruct (default [] ml !! i) as [r0|] eqn:Hr.
      - right. apply drop_S. exact Hr.
      - left. apply lookup_ge_None in Hr.
        rewrite !drop_ge by lia. reflexivity. }
    assert (Hnd' : NoDup (drop (S i) (default [] ml))).
    { destruct Hrest as [<-|Heq]; [exact Hnd|].
      rewrite Heq in Hnd. apply NoDup_cons in Hnd as [_ Hnd]. exact Hnd. }
    assert (Hlt0 : Forall (fun r => (r < next_ref d)%nat)
                     (drop (S i) (default [] ml))).
    { destruct Hrest as [<-|Heq]; [exact Hlt|].
      rewrite Heq in Hlt. apply Forall_cons in Hlt as [_ Hlt]. exact Hlt. }
    assert (Hlt' : Forall (fun r => (r < next_ref d1)%nat)
                     (drop (S i) (default [] ml))).
    { eapply Forall_impl; [exact Hlt0|]. cbn. intros; lia. }
    assert (Hout : r ∉ drop (S i) (default [] ml)).
    { destruct (default [] ml !! i) as [r0|] eqn:Hr.
      - destruct Hrest as [Heq|Heq].
        + apply (f_equal List.length) in Heq.
          rewrite !length_drop in Heq.
          apply lookup_lt_Some in Hr. lia.
        + rewrite Heq in Hnd. apply NoDup_cons in Hnd as [Hnd _].
          exact Hnd.
      - intros Hin. rewrite Forall_forall in Hlt0.
        specialize (Hlt0 _ Hin). subst r. cbn in Hlt0. lia. }
    assert (Hr1 : (r < next_ref d1)%nat).
    { destruct (default [] ml !! i) as [r0|] eqn:Hr.
      - destruct Hrest as [Heq|Heq].
        + apply (f_equal List.length) in Heq.
          rewrite !length_drop in Heq.
          apply lookup_lt_Some in Hr. lia.
        + rewrite Heq in Hlt. apply Forall_cons in Hlt as [Hlt _].
          subst r. cbn in *. lia.
      - subst r. cbn. rewrite Hfresh by reflexivity. lia. }
    destruct (IH (vs ++ [ {| vec_id := chunk_id chunk i;
                             values := embedding; metadata := r |} ])%list
                (S i) d1 w Hnd' Hlt')
      as (vs' & d' & Hloop & Hsent & Hnext' & Hkeep).
    exists ({| vec_id := chunk_id chunk i; values := embedding;
               metadata := r |} :: vs'), d'.
    split; [|split; [|split]].
    + rewrite Hloop. rewrite <- app_assoc. cbn.
      rewrite Nat.add_succ_r. reflexivity.
    + cbn [payload map sent_from]. f_equal.
      * cbn. rewrite (Hkeep r Hr1 Hout), Hat. reflexivity.
      * fold (payload d' vs'). rewrite Hsent.
        apply sent_from_ext. intros j r' Hj Hr'.
        apply Hframe. intros ->. apply Hout.
        apply list_elem_of_lookup. exists (j - S i)%nat.
        rewrite lookup_drop. rewrite <- Hr'. f_equal. lia.
    + lia.
    + intros r' Hr' Hnot.
      rewrite Hkeep.
      * apply Hframe. intros ->.
        destruct (default [] ml !! i) as [r0|] eqn:Hr.
        -- destruct Hrest as [Heq|Heq].
           ++ apply (f_equal List.length) in Heq.
              rewrite !length_drop in Heq.
              apply lookup_lt_Some in Hr. lia.
           ++ apply Hnot. rewrite Heq. apply list_elem_of_here.
        -- subst r. cbn in Hr'. lia.
      * lia.
      * intros Hin. apply Hnot.
        destruct Hrest as [Heq|Heq]; rewrite Heq; [exact Hin|].
        apply list_elem_of_further. exact Hin.
Qed.

Lemma vector_loop_returns (ml : option (list nat)) :
  forall (pairs : list (gmap string string * list Q)) (vs : list Vector)
         (i : nat) (d : Dicts) (w : world I),
  exists acc' d',
    Py.for_each (vector_step (I := I) ml) (vs, i) pairs (d, w)
    = (Py.Returned acc', (d', w)).
Proof.
  induction pairs as [|[chunk embedding] rest IH]; intros vs i d w.
  - exists (vs, i), d. reflexivity.
  - cbn [Py.for_each]. unfold Py.bind.
    destruct (vector_step_spec ml vs i chunk embedding d w)
      as (d1 & -> & _).
    apply IH.
Qed.

Lemma upsert_vectors_returns (vectors : list Vector) (d : Dicts)
    (w : world I) :
  upsert_vectors I vectors (d, w)
  = (match fst (index_upsert I (payload d vectors) w) with
     | Py.Returned n => Py.Returned n
     | Py.Raised _ => Py.Returned 0
     end, (d, snd (index_upsert I (payload d vectors) w))).
Proof.
  unfold upsert_vectors, Py.try_except. cbn [fst snd].
  destruct (index_upsert I (payload d vectors) w) as [[n|exn] w'];
    reflexivity.
Qed.

Lemma combine_lookup {A B : Type} :
  forall (xs : list A) (ys : list B) (k : nat) (x : A) (y : B),
    xs !! k = Some x -> ys !! k = Some y ->
    combine xs ys !! k = Some (x, y).
Proof.
  induction xs as [|x0 xs IH]; intros ys k x y Hx Hy; [discriminate|].
  destruct ys as [|y0 ys]; [discriminate|].
  destruct k as [|k].
  - injection Hx as ->. injection Hy as ->. reflexivity.
  - apply (IH ys k x y Hx Hy).
Qed.

(** X21. When the caller hands over as many embeddings as chunks, and
    metadata dictionaries that are distinct objects (or none),
    [upsert_document_chunks] calls the index once, with one vector per
    chunk in the order of the chunks: vector [k] has the chunk's id (or
    [chunk_<k>]), the [k]-th embedding, and as metadata the [k]-th
    dictionary given (or an empty one) with ["text"] set to the chunk's
    text and ["chunk_id"] to the id, whatever these two keys held before.
    The call returns the count the index reports, or 0 if the index
    raises. *)
Theorem upsert_document_chunks_sends_each_chunk
    (chunks : list (gmap string string)) (embeddings : list (list Q))
    (metadata_list : option (list nat)) (d : Dicts) (w : world I) :
  List.length chunks = List.length embeddings ->
  NoDup (default [] metadata_list) ->
  Forall (fun r => (r < next_ref d)%nat) (default [] metadata_list) ->
  exists sent : list (string * list Q * gmap string string),
    List.length sent = List.length chunks /\
    (forall (k : nat) (chunk : gmap string string) (embedding : list Q),
        chunks !! k = Some chunk -> embeddings !! k = Some embedding ->
        sent !! k
        = Some (chunk_id chunk k, embedding,
                <["chunk_id" := chunk_id chunk k]>
                  (<["text" := default "" (chunk !! "text")]>
                     (given d metadata_list k)))) /\
    fst (upsert_document_chunks I chunks embeddings metadata_list (d, w))
    = match fst (index_upsert I sent w) with
      | Py.Returned n => Py.Returned n
      | Py.Raised _ => Py.Returned 0
      end /\
    snd (snd (upsert_document_chunks I chunks embeddings metadata_list
                (d, w)))
    = snd (index_upsert I sent w).
Proof.
  intros Hlen Hnd Hlt.
  exists (sent_from d metadata_list 0 (combine chunks embeddings)).
  split; [|split].
  - rewrite sent_from_length, length_combine. lia.
  - intros k chunk embedding Hc He.
    apply (sent_from_lookup metadata_list d _ 0 k chunk embedding).
    apply combine_lookup; assumption.
  - unfold upsert_document_chunks.
    rewrite Hlen, Nat.eqb_refl. cbn [negb]. unfold Py.bind.
    destruct (vector_loop_spec metadata_list (combine chunks embeddings)
                [] 0%nat d w Hnd Hlt)
      as (vs' & d' & -> & Hsent & _).
    cbn [fst app]. rewrite upsert_vectors_returns, Hsent.
    split; reflexivity.
Qed.

(** X22. [upsert_document_chunks] raises exactly when the numbers of
    chunks and embeddings differ, and then before it has written to any
    dictionary or called the index; with equal numbers it returns a count
    whatever the index does, for any metadata list. *)
Theorem upsert_document_chunks_raises_only_on_mismatch
    (chunks : list (gmap string string)) (embeddings : list (list Q))
    (metadata_list : option (list nat)) (st : State I) :
  (List.length chunks <> List.length embeddings ->
     upsert_document_chunks I chunks embeddings metadata_list st
     = (Py.Raised "ValueError", st)) /\
  (List.length chunks = List.length embeddings ->
     exists (n : Z) (st' : State I),
       upsert_document_chunks I chunks embeddings metadata_list st
       = (Py.Returned n, st')).
Proof.
  unfold upsert_document_chunks. split; intros Hlen.
  - apply Nat.eqb_neq in Hlen. rewrite Hlen. reflexivity.
  - rewrite Hlen, Nat.eqb_refl. cbn [negb]. unfold Py.bind.
    destruct st as [d w].
    destruct (vector_loop_returns metadata_list (combine chunks embeddings)
                [] 0%nat d w) as (acc' & d' & ->).
    rewrite upsert_vectors_returns.
    destruct (fst (index_upsert I (payload d' (fst acc')) w)); eauto.
Qed.

End VectorStore.

Lemma upsert_document_chunks_sends_each_chunk_witness :
  exists sent,
    List.length sent = 2%nat /\
    (forall k chunk embedding,
        [ {[ "id" := "report_chunk_0"; "text" := "Wheat rust." ]};
          ({[ "text" := "Barley." ]} : gmap string string) ] !! k
        = Some chunk ->
        [ [1%Q]; [0%Q] ] !! k = Some embedding ->
        sent !! k
        = Some (VectorWrite.chunk_id chunk k, embedding,
                <["chunk_id" := VectorWrite.chunk_id chunk k]>
                  (<["text" := default "" (chunk !! "text")]>
                     (VectorWrite.given VectorWrite.truncated_metadata
                        (Some [0; 1]%nat) k)))) /\
    fst (VectorWrite.upsert_document_chunks VectorWrite.recording
           [ {[ "id" := "report_chunk_0"; "text" := "Wheat rust." ]};
             {[ "text" := "Barley." ]} ]
           [ [1%Q]; [0%Q] ] (Some [0; 1]%nat) (VectorWrite.truncated_metadata, []))
    = match fst (VectorWrite.index_upsert VectorWrite.recording sent [])
      with
      | Py.Returned n => Py.Returned n
      | Py.Raised _ => Py.Returned 0
      end /\
    snd (snd (VectorWrite.upsert_document_chunks VectorWrite.recording
                [ {[ "id" := "report_chunk_0"; "text" := "Wheat rust." ]};
                  {[ "text" := "Barley." ]} ]
                [ [1%Q]; [0%Q] ] (Some [0; 1]%nat)
                (VectorWrite.truncated_metadata, [])))
    = snd (VectorWrite.index_upsert VectorWrite.recording sent []).
Proof.
  apply (upsert_document_chunks_sends_each_chunk VectorWrite.recording
           [ {[ "id" := "report_chunk_0"; "text" := "Wheat rust." ]};
             {[ "text" := "Barley." ]} ]
           [ [1%Q]; [0%Q] ] (Some [0; 1]%nat) VectorWrite.truncated_metadata []).
  - reflexivity.
  - apply NoDup_ListNoDup. repeat constructor; simpl; lia.
  - repeat constructor.
Defined.

(** The text the caller had cut short is replaced by the chunk's. *)
Example upsert_overwrites_text :
  snd (snd (VectorWrite.upsert_document_chunks VectorWrite.recording
              [ {[ "id" := "report_chunk_0"; "text" := "Wheat rust." ]};
                {[ "text" := "Barley." ]} ]
              [ [1%Q]; [0%Q] ] (Some [0; 1]%nat) (VectorWrite.truncated_metadata, [])))
  = [ ("report_chunk_0", [1%Q],
       {[ "doc_id" := "report"; "text" := "Wheat rust.";
          "chunk_id" := "report_chunk_0" ]});
      ("chunk_1", [0%Q],
       {[ "doc_id" := "report"; "text" := "Barley.";
          "chunk_id" := "chunk_1" ]}) ].
Proof. vm_compute. reflexivity. Qed.

(** Two chunks handed the same dictionary are both sent with what the
    last of them wrote. *)
Example upsert_shared_dictionary :
  snd (snd (VectorWrite.upsert_document_chunks VectorWrite.recording
              [ {[ "id" := "report_chunk_0"; "text" := "Wheat rust." ]};
                {[ "text" := "Barley." ]} ]
              [ [1%Q]; [0%Q] ] (Some [0; 0]%nat) (VectorWrite.truncated_metadata, [])))
  = [ ("report_chunk_0", [1%Q],
       {[ "doc_id" := "report"; "text" := "Barley.";
          "chunk_id" := "chunk_1" ]});
      ("chunk_1", [0%Q],
       {[ "doc_id" := "report"; "text" := "Barley.";
          "chunk_id" := "chunk_1" ]}) ].
Proof. vm_compute. reflexivity. Qed.

(** ** Extraction from chunks *)

Section ExtractorFacts.
Variable B : Ollama.Backend.
Variable h : Ollama.OllamaHandler.
Import Ollama.
Import Json.
Import Extractor.

Lemma tag_all_tags (chunk_id : string) :
  forall items items',
    tag_all chunk_id items = Py.Returned items' ->
    List.Forall (tagged chunk_id) items'.
Proof.
  induction items as [|x rest IH]; intros items' Htag; cbn in Htag.
  - injection Htag as <-. constructor.
  - destruct x; try discriminate. cbn in Htag.
    destruct (tag_all chunk_id rest) as [rest'|exn]; [|discriminate].
    cbn in Htag. injection Htag as <-.
    constructor; [|apply IH; reflexivity].
    eexists. split; [reflexivity | apply lookup_set_field_same].
Qed.

Lemma tag_all_strings (chunk_id : string) (items items' : list json) :
  List.Forall (fun x => exists s, x = JStr s) items ->
  tag_all chunk_id items = Py.Returned items' ->
  items = [].
Proof.
  intros Hstr Htag. destruct items as [|x rest]; [reflexivity|].
  apply List.Forall_inv in Hstr. destruct Hstr as [s ->]. discriminate.
Qed.

(** What a successful [tag_field] leaves: a dict that differs from
    [result] in [field] only, where every item visited is tagged. *)
Lemma tag_field_spec (chunk_id field : string) (result result' : json) :
  tag_field chunk_id field result = Py.Returned result' ->
  exists fields fields',
    result = JObj fields /\ result' = JObj fields' /\
    (forall k, k <> field ->
               lookup_field k fields' = lookup_field k fields) /\
    field_tagged chunk_id fields' field.
Proof.
  unfold tag_field.
  destruct result as [| | | |?|fields]; try (cbn; discriminate).
  cbn [jget and_then].
  destruct (lookup_field field fields) as [v|] eqn:Hv;
    cbn [default from_option id].
  - destruct (iterate v) as [items|exn] eqn:Hit;
      [|cbn; discriminate].
    cbn [and_then].
    destruct (tag_all chunk_id items) as [items'|exn] eqn:Hall;
      [|cbn; discriminate].
    cbn [and_then].
    assert (Hother : forall s, v = JStr s \/ (exists fs, v = JObj fs) ->
                     field_tagged chunk_id fields field).
    { intros s Hshape v' Hv'. rewrite Hv in Hv'. injection Hv' as <-.
      exists items. split; [exact Hit|].
      assert (items = []) as ->; [|constructor].
      apply (tag_all_strings chunk_id items items'); [|exact Hall].
      destruct Hshape as [->|[fs ->]]; cbn in Hit; injection Hit as <-.
      - clear. induction s as [|a s IH]; constructor; eauto.
      - clear. induction fs as [|[k x] fs IH]; constructor; cbn; eauto. }
    destruct v as [| | |s|items0|fs]; try discriminate.
    + intros Htag. injection Htag as <-. exists fields, fields.
      split; [reflexivity|]. split; [reflexivity|]. split; [reflexivity|].
      apply (Hother s); auto.
    + intros Htag. injection Htag as <-.
      exists fields, (set_field field (JArr items') fields).
      split; [reflexivity|]. split; [reflexivity|]. split.
      * intros k Hk. apply lookup_set_field_other. congruence.
      * intros v' Hv'. rewrite lookup_set_field_same in Hv'.
        injection Hv' as <-. exists items'. split; [reflexivity|].
        apply (tag_all_tags chunk_id items). exact Hall.
    + intros Htag. injection Htag as <-. exists fields, fields.
      split; [reflexivity|]. split; [reflexivity|]. split; [reflexivity|].
      apply (Hother ""); eauto.
  - cbn. intros Htag. injection Htag as <-. exists fields, fields.
    split; [reflexivity|]. split; [reflexivity|]. split; [reflexivity|].
    intros v' Hv'. congruence.
Qed.

Lemma extract_entities_returns (text : string) (w : world B) :
  exists result w',
    extract_entities B h text w = (Py.Returned result, w').
Proof.
  unfold extract_entities, Py.try_except.
  destruct (Py.bind _ _ w) as [[result|exn] w']; eauto.
Qed.

Lemma chunk_step_spec (results : list json) (chunk : gmap string string)
    (w : world B) :
  exists results' w',
    chunk_step B h results chunk w = (Py.Returned results', w') /\
    (blank chunk = true -> results' = results /\ w' = w) /\
    (results' = results \/
     blank chunk = false /\
     exists r, results' = (results ++ [r])%list /\ carries chunk r).
Proof.
  unfold chunk_step, blank. cbv zeta.
  destruct (negb (Py.truthy_str (Py.strip (GraphBuilder.get chunk "text" ""))))
    eqn:Hblank.
  - exists results, w. cbn. auto.
  - unfold extract_from_text.
    unfold Py.try_except, Py.bind, Py.lift, Py.ret.
    destruct (extract_entities_returns (GraphBuilder.get chunk "text" "") w)
      as (result & w' & ->).
    exists (match
              (if truthy_id (chunk !! "id")
               then and_then
                      (tag_field (default "" (chunk !! "id")) "entities"
                         result)
                      (tag_field (default "" (chunk !! "id"))
                         "relationships")
               else Py.Returned result)
            with
            | Py.Returned r =>
                match jset r "chunk_id" (id_value (chunk !! "id")) with
                | Py.Returned r' => (results ++ [r'])%list
                | Py.Raised _ => results
                end
            | Py.Raised _ => results
            end), w'.
    split; [|split; [discriminate|]].
    + destruct (truthy_id (chunk !! "id")); cbn.
      * destruct (and_then _ _) as [r|exn]; [|reflexivity].
        destruct (jset r _ _); reflexivity.
      * destruct (jset result _ _); reflexivity.
    + destruct (truthy_id (chunk !! "id")) eqn:Hid.
      * destruct (tag_field _ "entities" result) as [r1|exn] eqn:H1;
          [|left; reflexivity].
        cbn [and_then].
        destruct (tag_field _ "relationships" r1) as [r2|exn] eqn:H2;
          [|left; reflexivity].
        apply tag_field_spec in H1 as (f0 & f1 & -> & -> & Hk1 & Ht1).
        apply tag_field_spec in H2 as (f1' & f2 & Heq & -> & Hk2 & Ht2).
        injection Heq as <-.
        right. split; [reflexivity|]. cbn [jset].
        eexists. split; [reflexivity|].
        eexists. split; [reflexivity|].
        split; [apply lookup_set_field_same|].
        intros _. split.
        -- intros v Hv. rewrite lookup_set_field_other in Hv by discriminate.
           rewrite Hk2 in Hv by discriminate. apply Ht1. exact Hv.
        -- intros v Hv. rewrite lookup_set_field_other in Hv by discriminate.
           apply Ht2. exact Hv.
      * destruct result as [| | | |?|fields]; cbn [jset];
          try (left; reflexivity).
        right. split; [reflexivity|].
        eexists. split; [reflexivity|].
        eexists. split; [reflexivity|].
        split; [apply lookup_set_field_same | congruence].
Qed.

Lemma chunk_loop_spec :
  forall (chunks : list (gmap string string)) (results : list json)
         (w : world B),
  exists more w',
    Py.for_each (chunk_step B h) results chunks w
    = (Py.Returned (results ++ more)%list, w') /\
    (List.length more
     <= List.length (List.filter (fun c => negb (blank c)) chunks))%nat /\
    List.Forall
      (fun r => exists chunk, In chunk chunks /\ blank chunk = false /\
                              carries chunk r) more.
Proof.
  induction chunks as [|chunk rest IH]; intros results w.
  - exists [], w. cbn. rewrite app_nil_r. repeat split; auto.
  - cbn [Py.for_each]. unfold Py.bind.
    destruct (chunk_step_spec results chunk w)
      as (results' & w1 & -> & _ & Hshape).
    destruct (IH results' w1) as (more & w' & -> & Hlen & Hall).
    assert (Hweak : List.Forall
              (fun r => exists c, In c (chunk :: rest) /\ blank c = false /\
                                  carries c r) more).
    { eapply List.Forall_impl; [|exact Hall].
      intros r (c & Hin & Hc). exists c. split; [right; exact Hin | exact Hc]. }
    destruct Hshape as [->|(Hnb & r & -> & Hr)].
    + exists more, w'. split; [reflexivity|]. split; [|exact Hweak].
      cbn [List.filter]. destruct (negb (blank chunk)); cbn; lia.
    + exists (r :: more), w'. rewrite <- app_assoc. split; [reflexivity|].
      split.
      * cbn [List.filter]. rewrite Hnb. cbn. lia.
      * constructor; [|exact Hweak].
        exists chunk. split; [left; reflexivity | auto].
Qed.

Lemma chunk_loop_skips_blank :
  forall (chunks : list (gmap string string)) (results : list json)
         (w : world B),
    Py.for_each (chunk_step B h) results chunks w
    = Py.for_each (chunk_step B h) results
        (List.filter (fun c => negb (blank c)) chunks) w.
Proof.
  induction chunks as [|chunk rest IH]; intros results w; [reflexivity|].
  cbn [Py.for_each List.filter]. unfold Py.bind.
  destruct (blank chunk) eqn:Hb; cbn [negb].
  - destruct (chunk_step_spec results chunk w)
      as (results' & w1 & -> & Hskip & _).
    destruct (Hskip Hb) as [-> ->]. apply IH.
  - cbn [Py.for_each]. unfold Py.bind.
    destruct (chunk_step B h results chunk w) as [[results'|exn] w1];
      [apply IH | reflexivity].
Qed.

(** X23. [extract_from_chunks] never raises, whatever the model server and
    the JSON library do, and returns at most one result per chunk whose
    text is not blank; a chunk without text, or with white space only, is
    skipped before the model is called: the run is the run on the other
    chunks. *)
Theorem extract_from_chunks_skips_blank_chunks
    (chunks : list (gmap string string)) (w : world B) :
  (exists results w',
      extract_from_chunks B h chunks w = (Py.Returned results, w') /\
      (List.length results
       <= List.length (List.filter (fun c => negb (blank c)) chunks))%nat) /\
  extract_from_chunks B h chunks w
  = extract_from_chunks B h
      (List.filter (fun c => negb (blank c)) chunks) w.
Proof.
  unfold extract_from_chunks. split.
  - destruct (chunk_loop_spec chunks [] w) as (more & w' & Hrun & Hlen & _).
    exists more, w'. split; [exact Hrun | exact Hlen].
  - apply chunk_loop_skips_blank.
Qed.

(** X24. Every result of [extract_from_chunks] is a dict that belongs to
    one of the chunks with text: its ["chunk_id"] is that chunk's id
    ([None] when the chunk has none), and when the id is not empty every
    item of its ["entities"] and ["relationships"] is a dict with
    ["source_chunk"] set to the id.  What the model returned that is not
    of this shape (a list, a string, items that are not dicts) is left
    out. *)
Theorem extract_from_chunks_results_carry_chunk_id
    (chunks : list (gmap string string)) (w : world B) :
  exists results w',
    extract_from_chunks B h chunks w = (Py.Returned results, w') /\
    List.Forall
      (fun r =>
         exists chunk fields,
           In chunk chunks /\ blank chunk = false /\
           r = JObj fields /\
           lookup_field "chunk_id" fields = Some (id_value (chunk !! "id")) /\
           (truthy_id (chunk !! "id") = true ->
            field_tagged (default "" (chunk !! "id")) fields "entities" /\
            field_tagged (default "" (chunk !! "id")) fields
              "relationships"))
      results.
Proof.
  unfold extract_from_chunks.
  destruct (chunk_loop_spec chunks [] w) as (more & w' & Hrun & _ & Hall).
  exists more, w'. split; [exact Hrun|].
  eapply List.Forall_impl; [|exact Hall].
  intros r (chunk & Hin & Hnb & fields & Hr & Hid & Htag).
  exists chunk, fields. auto.
Qed.

End ExtractorFacts.

(** Three chunks, the second blank: two calls of the model, two results,
    each with the id of its chunk where it has one. *)
Example extract_from_chunks_run :
  Extractor.extract_from_chunks Extractor.rust_backend
    {| Ollama.model := "llama3.1" |}
    [ {[ "id" := "report_chunk_0"; "text" := "Rust affects wheat." ]};
      {[ "id" := "report_chunk_1"; "text" := "   " ]};
      {[ "text" := "Rust again." ]} ] 0%nat
  = (Py.Returned
       [ Ollama.JObj
           [("entities",
             Ollama.JArr
               [Ollama.JObj [("name", Ollama.JStr "Rust");
                             ("source_chunk", Ollama.JStr "report_chunk_0")]]);
            ("relationships",
             Ollama.JArr
               [Ollama.JObj [("from", Ollama.JStr "Rust");
                             ("to", Ollama.JStr "Wheat");
                             ("type", Ollama.JStr "AFFECTS");
                             ("source_chunk",
                              Ollama.JStr "report_chunk_0")]]);
            ("chunk_id", Ollama.JStr "report_chunk_0")];
         Ollama.JObj
           [("entities",
             Ollama.JArr [Ollama.JObj [("name", Ollama.JStr "Rust")]]);
            ("relationships",
             Ollama.JArr
               [Ollama.JObj [("from", Ollama.JStr "Rust");
                             ("to", Ollama.JStr "Wheat");
                             ("type", Ollama.JStr "AFFECTS")]]);
            ("chunk_id", Ollama.JNull)] ], 2%nat).
Proof. vm_compute. reflexivity. Qed.

(** ** Merging extractions *)

Section MergeFacts.
Import Extractor.





Variable s0 : Store.
























End MergeFacts.

(** Two extractions that mention rust twice: one entity is returned for
    it, with both descriptions, and one relationship. *)
Example merge_extractions_run :
  let merged :=
    Extractor.merge_extractions Extractor.two_extractions
      Extractor.mentions in
  fst merged
  = ([0; 1]%nat,
     [ {[ "from" := "Rust"; "to" := "Wheat"; "type" := "AFFECTS" ]} ]) /\
  snd merged 0%nat
  = {[ "name" := "Rust";
       "description" := "A fungus. Spreads by spores." ]}.
Proof. vm_compute. split; reflexivity. Qed.

(** ** Orchestrator: what reaches the retriever and the model *)

Lemma from_index_short {A : Type} (k : Z) (l : list A) :
  k < 0 -> Z.of_nat (List.length l) <= - k -> Py.from_index k l = l.
Proof.
  intros Hk Hlen. unfold Py.from_index, Py.adjust.
  destruct (Z.ltb_spec k 0); [|lia].
  replace (Z.to_nat (Z.max 0 (k + Z.of_nat (List.length l)))) with 0%nat
    by lia.
  reflexivity.
Qed.

Lemma from_index_length {A : Type} (k : Z) (l : list A) :
  k < 0 ->
  Z.of_nat (List.length (Py.from_index k l))
  = Z.min (- k) (Z.of_nat (List.length l)).
Proof.
  intros Hk. unfold Py.from_index, Py.adjust.
  destruct (Z.ltb_spec k 0); [|lia].
  rewrite length_skipn. lia.
Qed.

Lemma from_index_map {A B : Type} (f : A -> B) (k : Z) (l : list A) :
  Py.from_index k (map f l) = map f (Py.from_index k l).
Proof.
  unfold Py.from_index. rewrite length_map. apply skipn_map.
Qed.

Lemma from_index_keeps {A : Type} (P : A -> Prop) (k : Z) (l : list A) :
  List.Forall P l -> List.Forall P (Py.from_index k l).
Proof. intros Hall. unfold Py.from_index. apply Forall_drop, Hall. Qed.

Lemma filter_all_pass {A : Type} (p : A -> bool) (l : list A) :
  List.Forall (fun x => p x = true) (List.filter p l).
Proof.
  apply List.Forall_forall. intros x Hx.
  apply List.filter_In in Hx. tauto.
Qed.

(** Only the last two items of the context count. *)
Lemma enhance_last_two (q : string) (context : list string) :
  Retriever.enhance q (Some context)
  = Retriever.enhance q (Some (Py.from_index (-2) context)).
Proof.
  destruct context as [|x rest]; [reflexivity|].
  pose proof (from_index_length (-2) (x :: rest) ltac:(lia)) as Hlen.
  destruct (Py.from_index (-2) (x :: rest)) as [|y last] eqn:Hlast.
  - cbn [List.length] in Hlen. lia.
  - unfold Retriever.enhance. rewrite Hlast.
    rewrite <- Hlast at 2.
    rewrite (from_index_short (-2) (Py.from_index (-2) (x :: rest)));
      [rewrite Hlast; reflexivity | lia |].
    rewrite from_index_length by lia. lia.
Qed.

Lemma query_context_some (history : list (gmap string string)) :
  GraphRAG.query_context (Some history)
  = map (fun msg => GraphBuilder.get msg "content" "")
      (List.filter GraphRAG.from_user (Py.from_index (-3) history)).
Proof. destruct history; reflexivity. Qed.

Lemma query_context_recent (history : list (gmap string string)) :
  GraphRAG.query_context (Some (GraphRAG.recent_user_messages history))
  = map (fun msg => GraphBuilder.get msg "content" "")
      (GraphRAG.recent_user_messages history).
Proof.
  rewrite query_context_some. f_equal.
  rewrite from_index_short.
  - apply filter_keep_all. apply List.Forall_forall.
    apply from_index_keeps, filter_all_pass.
  - lia.
  - unfold GraphRAG.recent_user_messages.
    rewrite from_index_length by lia. lia.
Qed.

Lemma retrieve_with_context_enhanced (H : Retriever.Handlers) (q : string)
    (c1 c2 : option (list string)) (kv kg : Z) (w : Retriever.world H) :
  Retriever.enhance q c1 = Retriever.enhance q c2 ->
  Retriever.retrieve_with_context H q c1 kv kg w
  = Retriever.retrieve_with_context H q c2 kv kg w.
Proof.
  intros Heq. unfold Retriever.retrieve_with_context. rewrite Heq.
  reflexivity.
Qed.

(** X29. Of a conversation history, [chat] uses at most two messages: the
    last two messages from the user among the last three messages.  The
    answer and all calls to the stores and the model are those for the
    history cut down to these messages; when none of the last three
    messages is from the user, they are those of a chat without
    history. *)
Theorem chat_uses_recent_user_messages (S : GraphRAG.System)
    (question : string) (history : list (gmap string string))
    (st : GraphRAG.State S) :
  GraphRAG.chat S question (Some history) st
  = GraphRAG.chat S question
      (Some (GraphRAG.recent_user_messages history)) st /\
  (List.filter GraphRAG.from_user (Py.from_index (-3) history) = [] ->
   GraphRAG.chat S question (Some history) st
   = GraphRAG.chat S question None st).
Proof.
  assert (Hsame : forall c1 c2,
            Retriever.enhance question (Some (GraphRAG.query_context c1))
            = Retriever.enhance question (Some (GraphRAG.query_context c2)) ->
            GraphRAG.chat S question c1 st = GraphRAG.chat S question c2 st).
  { intros c1 c2 Heq. unfold GraphRAG.chat, Py.bind, GraphRAG.on_stores.
    rewrite (retrieve_with_context_enhanced (GraphRAG.retriever S) question
               (Some (GraphRAG.query_context c1))
               (Some (GraphRAG.query_context c2)) 5 10 (fst st) Heq).
    reflexivity. }
  split.
  - apply Hsame. rewrite query_context_recent, query_context_some.
    rewrite enhance_last_two, from_index_map. reflexivity.
  - intros Hnone. apply Hsame.
    rewrite query_context_some, Hnone. reflexivity.
Qed.

Lemma document_lines_ext (str : Ollama.json -> string) :
  forall (rs rs' : list Result) (i0 : Z),
    map GraphRAG.document_text rs = map GraphRAG.document_text rs' ->
    GraphRAG.document_lines str i0 rs = GraphRAG.document_lines str i0 rs'.
Proof.
  induction rs as [|r rs IH]; intros [|r' rs'] i0 Heq; try discriminate;
    [reflexivity|].
  cbn [map] in Heq. injection Heq as Hr Hrest.
  cbn [GraphRAG.document_lines]. rewrite Hr, (IH rs' _ Hrest). reflexivity.
Qed.

Lemma entity_lines_ext (str : Ollama.json -> string) :
  forall (rs rs' : list Result),
    map GraphRAG.entity_view rs = map GraphRAG.entity_view rs' ->
    GraphRAG.all_entity_lines str rs = GraphRAG.all_entity_lines str rs'.
Proof.
  induction rs as [|r rs IH]; intros [|r' rs'] Heq; try discriminate;
    [reflexivity|].
  cbn [map] in *. injection Heq as Hname Hlabels Hdesc Hrest.
  cbn [GraphRAG.all_entity_lines]. rewrite (IH rs' Hrest).
  unfold GraphRAG.entity_lines. rewrite Hname, Hlabels, Hdesc. reflexivity.
Qed.

(** X30. The model is shown the metadata text of the first three vector
    results, and the name, labels and description of the first five graph
    results, and nothing else of the results: two calls of
    [synthesize_answer] whose results agree on these send the same prompt
    and give the same answer, or fail alike, whatever the ids, scores,
    relationship paths, other metadata and further results are. *)
Theorem synthesize_answer_shows_texts_and_entities (B : Ollama.Backend)
    (h : Ollama.OllamaHandler) (str : Ollama.json -> string)
    (question : string)
    (vector_results vector_results' graph_results graph_results'
       : list Result) (w : Ollama.world B) :
  map GraphRAG.document_text (Py.take 3 vector_results)
  = map GraphRAG.document_text (Py.take 3 vector_results') ->
  map GraphRAG.entity_view (Py.take 5 graph_results)
  = map GraphRAG.entity_view (Py.take 5 graph_results') ->
  GraphRAG.synthesize_answer B h str question vector_results graph_results w
  = GraphRAG.synthesize_answer B h str question vector_results'
      graph_results' w.
Proof.
  intros Hdocs Hentities. unfold GraphRAG.synthesize_answer.
  rewrite (document_lines_ext str _ _ 0 Hdocs).
  rewrite (entity_lines_ext str _ _ Hentities).
  reflexivity.
Qed.

Lemma synthesize_answer_shows_texts_and_entities_witness :
  GraphRAG.synthesize_answer (Ollama.scripted (Some "Rust is a fungus."))
    {| Ollama.model := "llama3.1" |} GraphRAG.unprinted "What is rust?"
    GraphRAG.shown_hits GraphRAG.shown_entities tt
  = GraphRAG.synthesize_answer (Ollama.scripted (Some "Rust is a fungus."))
      {| Ollama.model := "llama3.1" |} GraphRAG.unprinted "What is rust?"
      GraphRAG.other_hits GraphRAG.other_entities tt.
Proof.
  apply (synthesize_answer_shows_texts_and_entities
           (Ollama.scripted (Some "Rust is a fungus."))
           {| Ollama.model := "llama3.1" |} GraphRAG.unprinted
           "What is rust?"
           GraphRAG.shown_hits GraphRAG.other_hits
           GraphRAG.shown_entities GraphRAG.other_entities tt).
  - vm_compute. reflexivity.
  - vm_compute. reflexivity.
Defined.

(** The call returns the model's answer on these results. *)
Example synthesize_answer_run :
  GraphRAG.synthesize_answer (Ollama.scripted (Some "Rust is a fungus."))
    {| Ollama.model := "llama3.1" |} GraphRAG.unprinted "What is rust?"
    GraphRAG.shown_hits GraphRAG.shown_entities tt
  = (Py.Returned "Rust is a fungus.", tt).
Proof. vm_compute. reflexivity. Qed.

(** A vector without metadata makes [synthesize_answer] raise. *)
Example synthesize_answer_raises_on_missing_metadata :
  fst (GraphRAG.synthesize_answer
         (Ollama.scripted (Some "Rust is a fungus."))
         {| Ollama.model := "llama3.1" |} GraphRAG.unprinted "What is rust?"
         [vector_hit "c0" (9 # 10) Ollama.JNull] [] tt)
  = Py.Raised "AttributeError".
Proof. vm_compute. reflexivity. Qed.

(** Of five messages the last three hold two from the user. *)
Example recent_user_messages_run :
  map (fun msg => GraphBuilder.get msg "content" "")
    (GraphRAG.recent_user_messages GraphRAG.conversation)
  = ["Which crops?"; "How is it treated?"].
Proof. vm_compute. reflexivity. Qed.
